(** * langgraph_utils_cli.cli: event rendering and the run/interrupt loop

    A shallow embedding of [print_chunk], [handle_interrupt_input],
    [run_sync_graph], [run_async_graph] and [parse_agent_spec] of
    [src/langgraph_utils_cli/cli.py], of the part of [main] that
    resolves the graph file, and the properties of the specification
    that concern them.

    Conventions.
    - A Python value is a [PyVal]: the values of a JSON document, floats
      and bytes.  A Python [str] is represented by its UTF-8 encoding,
      one [ascii] per byte.  A [dict] has string keys, as a decoded JSON
      object has, and is an association list in insertion order (the
      order [json.dumps] and iteration follow); lookup takes the first
      binding of a key.
    - An expression that may raise is a value of [Exc]; a statement that
      writes and may raise is a value of [Cmd], which keeps what was
      written before the exception.
    - What [console.print] renders is recorded as a [Printed] value; an
      f-string is recorded as its template: literal pieces and the
      values formatted into the holes.
    - The functions call into rich, the json module and the formatting
      of the interpreter, and these calls can raise: rich rejects console
      markup it cannot parse ([MarkupError]) and a table cell that is
      neither a str nor [None] ([NotRenderableError]); [json.dumps]
      rejects a value that is not JSON ([TypeError]); the conversion of a
      very long integer to text ([ValueError]) and the traversal of a
      deeply nested value ([RecursionError]) fail at limits that belong
      to the running interpreter.  What is fixed by the libraries
      themselves is part of the embedding ([add_row], the [TypeError] of
      [json.dumps], the cases in [known_ok] where a call cannot fail);
      for the rest the functions take the environment [Env] as an
      argument, and a property that holds for every environment holds
      for the libraries as they are.  The stream behind the console is
      taken to accept the text rich writes to it: a write that fails in
      the operating system or in the encoding of the stream is left
      out. *)

From Stdlib Require Import String Ascii List ZArith NArith Bool Lia DecimalString.
Import ListNotations.
Open Scope string_scope.
Open Scope list_scope.

Set Implicit Arguments.
Set Warnings "-register-all".

Infix "^^" := String.append (at level 60, right associativity).

(** ** Python values *)

(** A float is given by the text [repr] gives for it; bytes by their
    content. *)
Inductive PyVal : Type :=
| PyNone
| PyBool (b : bool)
| PyInt (z : Z)
| PyFloat (repr : string)
| PyStr (s : string)
| PyBytes (content : string)
| PyList (items : list PyVal)
| PyDict (entries : list (string * PyVal)).

Definition Dict := list (string * PyVal).

(** A raw event of the stream is a [Dict[str, Any]]. *)
Definition RawEvent := Dict.

(** The exceptions.  [PyValueError] is the [ValueError] of the
    interpreter and of the libraries, with its message; the
    [ValueError] that [parse_agent_spec] raises carries its message as
    a template and is declared with that function. *)
Inductive PyExn : Type :=
| KeyError (key : string)
| TypeError
| AttributeError
| UnboundLocalError (name : string)
| Abort
| SystemExit (code : Z)
| PyValueError (message : string)
| RecursionError
| MarkupError
| NotRenderableError.

(** ** Expressions and statements *)

Definition Exc (A : Type) : Type := (PyExn + A)%type.

Definition Cmd (E A : Type) : Type := (list E * Exc A)%type.

Definition ret {E A} (a : A) : Cmd E A := ([], inr a).

Definition raise {E A} (e : PyExn) : Cmd E A := ([], inl e).

Definition bind {E A B} (c : Cmd E A) (k : A -> Cmd E B) : Cmd E B :=
  match c with
  | (w, inl e) => (w, inl e)
  | (w, inr a) => let (w', r) := k a in (w ++ w', r)
  end.

Definition lift {E A} (x : Exc A) : Cmd E A := ([], x).

Definition emit {E} (e : E) : Cmd E unit := ([e], inr tt).

Definition relabel {E F A} (f : E -> F) (c : Cmd E A) : Cmd F A :=
  (map f (fst c), snd c).

Definition ebind {A B} (x : Exc A) (k : A -> Exc B) : Exc B :=
  match x with
  | inl e => inl e
  | inr a => k a
  end.

Declare Scope cmd_scope.
Delimit Scope cmd_scope with cmd.
Notation "x <- c ;; k" := (bind c (fun x => k))
  (at level 61, c at next level, right associativity) : cmd_scope.
Notation "c ;; k" := (bind c (fun _ => k))
  (at level 61, right associativity) : cmd_scope.

Declare Scope exc_scope.
Delimit Scope exc_scope with exc.
Notation "x <- c ;; k" := (ebind c (fun x => k))
  (at level 61, c at next level, right associativity) : exc_scope.

(** [written c] is what [c] wrote; [raised c] the exception it ended
    with, if any. *)
Definition written {E A} (c : Cmd E A) : list E := fst c.

Definition raised {E A} (c : Cmd E A) : option PyExn :=
  match snd c with
  | inl e => Some e
  | inr _ => None
  end.

(** ** Dictionary and value operations *)

Fixpoint dict_lookup (k : string) (d : Dict) : option PyVal :=
  match d with
  | [] => None
  | (k', v) :: rest => if String.eqb k k' then Some v else dict_lookup k rest
  end.

(** [k in d] *)
Definition dict_in (k : string) (d : Dict) : bool :=
  match dict_lookup k d with
  | Some _ => true
  | None => false
  end.

(** [d.get(k, default)] on a dict *)
Definition dict_get (k : string) (default : PyVal) (d : Dict) : PyVal :=
  match dict_lookup k d with
  | Some v => v
  | None => default
  end.

(** [d[k]] on a dict *)
Definition dict_getitem (k : string) (d : Dict) : Exc PyVal :=
  match dict_lookup k d with
  | Some v => inr v
  | None => inl (KeyError k)
  end.

(** [v.get(k, default)] on any value: only a dict has the method. *)
Definition py_get (v : PyVal) (k : string) (default : PyVal) : Exc PyVal :=
  match v with
  | PyDict d => inr (dict_get k default d)
  | _ => inl AttributeError
  end.

(** [v[k]] with a string [k] on any value: a missing key of a dict is a
    [KeyError]; a str, bytes or a list take integer indices only, the
    other values are not subscriptable. *)
Definition py_getitem (v : PyVal) (k : string) : Exc PyVal :=
  match v with
  | PyDict d => dict_getitem k d
  | _ => inl TypeError
  end.

(** [v == s] for a string literal [s]. *)
Definition py_eq_str (v : PyVal) (s : string) : bool :=
  match v with
  | PyStr s' => String.eqb s' s
  | _ => false
  end.

(** Truth value of [v] in [if v:]. *)
Definition py_truthy (v : PyVal) : bool :=
  match v with
  | PyNone => false
  | PyBool b => b
  | PyInt z => negb (Z.eqb z 0)
  | PyFloat r => negb (String.eqb r "0.0" || String.eqb r "-0.0")
  | PyStr s => negb (String.eqb s EmptyString)
  | PyBytes b => negb (String.eqb b EmptyString)
  | PyList l => match l with [] => false | _ => true end
  | PyDict d => match d with [] => false | _ => true end
  end.

(** Lists and dicts are unhashable and cannot be dictionary keys. *)
Definition py_hashable (v : PyVal) : bool :=
  match v with
  | PyList _ | PyDict _ => false
  | _ => true
  end.

Definition is_continuation (a : ascii) : bool :=
  let n := N_of_ascii a in (128 <=? n)%N && (n <? 192)%N.

(** The characters of a str: every byte that is not a UTF-8
    continuation byte starts one. *)
Fixpoint utf8_chars (s : string) : list string :=
  match s with
  | EmptyString => []
  | String a rest =>
      match utf8_chars rest with
      | String b t :: cs =>
          if is_continuation b then String a (String b t) :: cs
          else String a EmptyString :: String b t :: cs
      | cs => String a EmptyString :: cs
      end
  end.

(** The items [for x in v] goes through: the elements of a list, the
    characters of a str, the bytes of bytes as integers, the keys of a
    dict; the other values are not iterable. *)
Definition py_iter (v : PyVal) : Exc (list PyVal) :=
  match v with
  | PyList l => inr l
  | PyStr s => inr (map PyStr (utf8_chars s))
  | PyBytes b => inr (map (fun a => PyInt (Z.of_N (N_of_ascii a))) (list_ascii_of_string b))
  | PyDict d => inr (map (fun kv => PyStr (fst kv)) d)
  | _ => inl TypeError
  end.

Fixpoint join (sep : string) (l : list string) : string :=
  match l with
  | [] => EmptyString
  | [x] => x
  | x :: rest => x ^^ sep ^^ join sep rest
  end.

Fixpoint all_str (l : list PyVal) : Exc (list string) :=
  match l with
  | [] => inr []
  | PyStr s :: rest => (ss <- all_str rest ;; inr (s :: ss))%exc
  | _ :: _ => inl TypeError
  end.

(** [sep.join(v)]: [v] must be iterable and every item a str. *)
Definition py_join (sep : string) (v : PyVal) : Exc string :=
  (items <- py_iter v ;;
   ss <- all_str items ;;
   inr (join sep ss))%exc.

(** [c in s] for a one-character string [c]. *)
Fixpoint has_char (c : ascii) (s : string) : bool :=
  match s with
  | EmptyString => false
  | String a rest => Ascii.eqb a c || has_char c rest
  end.

(** [s.endswith(suffix)] *)
Fixpoint endswith (s suffix : string) : bool :=
  String.eqb s suffix
  || match s with
     | EmptyString => false
     | String _ rest => endswith rest suffix
     end.

(** ** The text of [json.dumps(v, indent=n)]

    The encoder of the json module with its defaults: [ensure_ascii] on,
    separators [","] and [": "] when an indent is given, keys in the
    order of the dict ([sort_keys] off), [allow_nan] on. *)

Definition dquote : string := String "034"%char EmptyString.
Definition backslash : string := String "092"%char EmptyString.
Definition newline : string := String "010"%char EmptyString.

Definition hex_digit (n : N) : ascii :=
  ascii_of_N (if (n <? 10)%N then 48 + n else 87 + n)%N.

Definition hex4 (n : N) : string :=
  String (hex_digit (N.shiftr n 12 mod 16)%N)
    (String (hex_digit (N.shiftr n 8 mod 16)%N)
       (String (hex_digit (N.shiftr n 4 mod 16)%N)
          (String (hex_digit (n mod 16)%N) EmptyString))).

Definition backslash_u (n : N) : string := backslash ^^ "u" ^^ hex4 n.

(** One code point of a JSON string: the two-character escapes, the
    printable ASCII characters as they are, the rest as [\uXXXX], above
    the basic plane as a surrogate pair. *)
Definition escape_code_point (c : N) : string :=
  if (c =? 34)%N then backslash ^^ dquote
  else if (c =? 92)%N then backslash ^^ backslash
  else if (c =? 8)%N then backslash ^^ "b"
  else if (c =? 12)%N then backslash ^^ "f"
  else if (c =? 10)%N then backslash ^^ "n"
  else if (c =? 13)%N then backslash ^^ "r"
  else if (c =? 9)%N then backslash ^^ "t"
  else if (32 <=? c)%N && (c <=? 126)%N then String (ascii_of_N c) EmptyString
  else if (c <? 65536)%N then backslash_u c
  else
    let n := (c - 65536)%N in
    backslash_u (N.lor 55296 (N.land (N.shiftr n 10) 1023))
    ^^ backslash_u (N.lor 56320 (N.land n 1023)).

(** The code points of a UTF-8 encoded str. *)
Fixpoint utf8_decode (pending : N) (need : nat) (s : string) : list N :=
  match s with
  | EmptyString => []
  | String a rest =>
      let b := N_of_ascii a in
      if (b <? 128)%N then b :: utf8_decode 0%N 0 rest
      else if (b <? 192)%N then
        let acc := (pending * 64 + (b - 128))%N in
        match need with
        | 0 => utf8_decode 0%N 0 rest
        | 1 => acc :: utf8_decode 0%N 0 rest
        | S n => utf8_decode acc n rest
        end
      else if (b <? 224)%N then utf8_decode (b - 192)%N 1 rest
      else if (b <? 240)%N then utf8_decode (b - 224)%N 2 rest
      else utf8_decode (b - 240)%N 3 rest
  end.

Definition json_string (s : string) : string :=
  dquote ^^ String.concat EmptyString (map escape_code_point (utf8_decode 0%N 0 s)) ^^ dquote.

Fixpoint spaces (n : nat) : string :=
  match n with
  | 0 => EmptyString
  | S n' => String " "%char (spaces n')
  end.

(** A line break followed by the indentation of nesting depth [level]. *)
Definition newline_indent (indent level : nat) : string :=
  newline ^^ spaces (indent * level).

(** A float is written as its [repr], the three that JSON does not have
    as [NaN], [Infinity] and [-Infinity]. *)
Definition json_float (repr : string) : string :=
  if String.eqb repr "nan" then "NaN"
  else if String.eqb repr "inf" then "Infinity"
  else if String.eqb repr "-inf" then "-Infinity"
  else repr.

(** The text of a value the encoder accepts ([serialisable] below);
    bytes, which it does not accept, have no text. *)
Fixpoint json_encode (indent level : nat) (v : PyVal) {struct v} : string :=
  match v with
  | PyNone => "null"
  | PyBool true => "true"
  | PyBool false => "false"
  | PyInt z => NilZero.string_of_int (Z.to_int z)
  | PyFloat r => json_float r
  | PyStr s => json_string s
  | PyBytes _ => EmptyString
  | PyList [] => "[]"
  | PyList items =>
      "[" ^^ newline_indent indent (S level)
      ^^ join ("," ^^ newline_indent indent (S level))
           (map (json_encode indent (S level)) items)
      ^^ newline_indent indent level ^^ "]"
  | PyDict [] => "{}"
  | PyDict entries =>
      "{" ^^ newline_indent indent (S level)
      ^^ join ("," ^^ newline_indent indent (S level))
           (map (fun kv => json_string (fst kv) ^^ ": "
                            ^^ json_encode indent (S level) (snd kv)) entries)
      ^^ newline_indent indent level ^^ "}"
  end.

Definition json_text (indent : nat) (v : PyVal) : string :=
  json_encode indent 0 v.

(** ** What is written to the console *)

Inductive Piece : Type :=
| Lit (s : string)
| Fmt (v : PyVal).

(** An f-string, or a plain string when it has a single [Lit]. *)
Definition FString := list Piece.

Inductive Cell : Type :=
| CellText (t : FString)
| CellValue (v : PyVal)
| CellSyntax (code lexer theme : string).

Record Table : Type := mkTable {
  title : FString;
  show_header : bool;
  columns : list (string * string);
  rows : list (list Cell)
}.

Inductive Printed : Type :=
| PrintText (t : FString) (ending : string)
| PrintValue (v : PyVal) (ending : string)
| PrintTable (t : Table)
| PrintPanel (body : FString) (panel_title border_style : string).

Fixpoint fjoin (sep : string) (l : list FString) : FString :=
  match l with
  | [] => []
  | [x] => x
  | x :: rest => x ++ Lit sep :: fjoin sep rest
  end.

Fixpoint for_each {E A} (l : list A) (body : A -> Cmd E unit) : Cmd E unit :=
  match l with
  | [] => ret tt
  | x :: rest => (body x ;; for_each rest body)%cmd
  end.

Fixpoint emap {A B} (f : A -> Exc B) (l : list A) : Exc (list B) :=
  match l with
  | [] => inr []
  | x :: rest => (y <- f x ;; ys <- emap f rest ;; inr (y :: ys))%exc
  end.

(** [for i, x in enumerate(l)] collecting the lines each round appends. *)
Fixpoint enum_lines (f : nat -> PyVal -> Exc (list FString)) (i : nat)
    (l : list PyVal) : Exc (list FString) :=
  match l with
  | [] => inr []
  | x :: rest => (ls <- f i x ;; more <- enum_lines f (S i) rest ;; inr (ls ++ more))%exc
  end.

(** ** The libraries and the interpreter as an environment *)

(** The calls that can fail for a reason outside the program: the
    conversion of a value to text in the hole of an f-string, the
    encoding of a value by [json.dumps], and [console.print]. *)
Inductive Call : Type :=
| FormatValue (v : PyVal)
| JsonDumps (indent : nat) (v : PyVal)
| RichPrint (p : Printed).

(** An environment tells for a call whether it raises, and what. *)
Definition Env : Type := Call -> option PyExn.

(** A value the interpreter converts and traverses whatever its limits
    are set to: integers below 2^2000 (about 600 digits; the limit on
    the digits of a conversion cannot be set below 640) and nesting not
    deeper than [fuel]. *)
Fixpoint shallow (fuel : nat) (v : PyVal) {struct v} : bool :=
  match v with
  | PyInt z => (Z.log2 (Z.abs z) <? 2000)%Z
  | PyList items =>
      match fuel with
      | 0 => false
      | S n => forallb (shallow n) items
      end
  | PyDict entries =>
      match fuel with
      | 0 => false
      | S n => forallb (fun kv => shallow n (snd kv)) entries
      end
  | _ => true
  end.

Definition small (v : PyVal) : bool := shallow 16 v.

(** The values [json.dumps] has an encoding for: everything but bytes,
    at any depth. *)
Fixpoint serialisable (v : PyVal) : bool :=
  match v with
  | PyBytes _ => false
  | PyList items => forallb serialisable items
  | PyDict entries => forallb (fun kv => serialisable (snd kv)) entries
  | _ => true
  end.

(** [s] holds no opening bracket: rich reads such a text as it is,
    without looking for markup. *)
Definition no_bracket (s : string) : bool := negb (has_char "[" s).

(** The text of the value in a hole holds no opening bracket. *)
Definition plain_hole (v : PyVal) : bool :=
  match v with
  | PyStr s => no_bracket s
  | PyBytes b => no_bracket b
  | PyFloat r => no_bracket r
  | PyList _ | PyDict _ => false
  | _ => true
  end.

(** The templates of the source whose markup rich accepts for certain:
    the tags of the literal pieces are paired, so the text is accepted
    when no hole brings a bracket of its own and no hole stands right
    after an opening bracket of a literal piece (where its text would
    be read as a tag). *)
Fixpoint template_ok (t : FString) : bool :=
  match t with
  | [] => true
  | Lit s :: rest =>
      match rest with
      | Fmt _ :: _ => negb (endswith s "[")
      | _ => true
      end && template_ok rest
  | Fmt v :: rest => plain_hole v && template_ok rest
  end.

Definition cell_ok (c : Cell) : bool :=
  match c with
  | CellText t => template_ok t
  | CellValue (PyStr s) => no_bracket s
  | CellValue _ => true
  | CellSyntax _ _ _ => true
  end.

(** The calls that cannot fail, whatever the environment: a small
    value is converted and encoded; a text without an opening bracket, a
    template as above, a value that is no str and is small, a table or
    a panel made of these are rendered. *)
Definition known_ok (call : Call) : bool :=
  match call with
  | FormatValue v => small v
  | JsonDumps _ v => small v
  | RichPrint (PrintText t _) => template_ok t
  | RichPrint (PrintValue (PyStr s) _) => no_bracket s
  | RichPrint (PrintValue v _) => small v
  | RichPrint (PrintTable t) =>
      template_ok (title t)
      && forallb (fun column => no_bracket (fst column)) (columns t)
      && forallb (forallb cell_ok) (rows t)
  | RichPrint (PrintPanel body panel_title _) => template_ok body && no_bracket panel_title
  end.

(** What the call raises in the environment. *)
Definition ask (env : Env) (call : Call) : option PyExn :=
  if known_ok call then None else env call.

(** The hole [{v}] of an f-string. *)
Definition fmt (env : Env) (v : PyVal) : Exc Piece :=
  match ask env (FormatValue v) with
  | Some e => inl e
  | None => inr (Fmt v)
  end.

(** [json.dumps(v, indent=n)]: a value with bytes in it is rejected
    with [TypeError], unless a limit of the interpreter is met before
    the bytes are. *)
Definition json_dumps (env : Env) (indent : nat) (v : PyVal) : Exc string :=
  match ask env (JsonDumps indent v) with
  | Some e => inl e
  | None => if serialisable v then inr (json_text indent v) else inl TypeError
  end.

(** [console.print(p)] *)
Definition console_print (env : Env) (p : Printed) : Cmd Printed unit :=
  match ask env (RichPrint p) with
  | Some e => raise e
  | None => emit p
  end.

(** The check [table.add_row] makes on a cell: [None] is an empty cell,
    a str is kept, any other of these values is refused. *)
Definition add_row_cell (renderable : PyVal) : Exc Cell :=
  match renderable with
  | PyNone | PyStr _ => inr (CellValue renderable)
  | _ => inl NotRenderableError
  end.

(** ** [print_chunk] *)

(** The string literals of the source that are not ASCII, byte for byte
    as the file has them. *)
Definition glyph_pending : string := "â³".
Definition glyph_in_progress : string := "ðŸ”„".
Definition glyph_completed : string := "âœ…".
Definition glyph_unknown : string := "â“".
Definition interrupt_title : string := "âš ï¸  Interrupt".
Definition complete_line : string := newline ^^ "[bold green]âœ“ Complete[/bold green]".

(** The table of one tool call (lines 124-136). *)
Definition tool_call_table (env : Env) (tool_call node : PyVal) (verbose : bool)
    : Exc Table :=
  (name <- py_getitem tool_call "name" ;;
   title_name <- fmt env name ;;
   id <- py_get tool_call "id" (PyStr "N/A") ;;
   id_cell <- add_row_cell id ;;
   name' <- py_getitem tool_call "name" ;;
   name_cell <- add_row_cell name' ;;
   args <- py_get tool_call "args" (PyDict []) ;;
   code <- json_dumps env 2 args ;;
   node_row <- (if verbose
                then (node_cell <- add_row_cell node ;;
                      inr [[CellText [Lit "Node"]; node_cell]])
                else inr []) ;;
   inr {| title := [Lit "Tool Call: "; title_name];
          show_header := false;
          columns := [];
          rows := [ [CellText [Lit "ID"]; id_cell];
                    [CellText [Lit "Name"]; name_cell];
                    [CellText [Lit "Args"]; CellSyntax code "json" "monokai"] ]
                  ++ node_row |})%exc.

(** One round of the loop over the tool calls (lines 124-137). *)
Definition print_tool_call (env : Env) (node : PyVal) (verbose : bool)
    (tool_call : PyVal) : Cmd Printed unit :=
  (table <- lift (tool_call_table env tool_call node verbose) ;;
   console_print env (PrintTable table))%cmd.

(** The lookup in the literal dict of glyphs (lines 147-151): the key
    must be hashable. *)
Definition status_icon (key : PyVal) : Exc string :=
  if py_hashable key then
    inr (if py_eq_str key "pending" then glyph_pending
         else if py_eq_str key "in_progress" then glyph_in_progress
         else if py_eq_str key "completed" then glyph_completed
         else glyph_unknown)
  else inl TypeError.

(** The row of one todo (lines 147-156). *)
Definition todo_row (env : Env) (todo : PyVal) : Exc (list Cell) :=
  (key <- py_get todo "status" (PyStr "pending") ;;
   icon <- status_icon key ;;
   status <- py_get todo "status" (PyStr "pending") ;;
   status_piece <- fmt env status ;;
   content <- py_get todo "content" (PyStr "N/A") ;;
   content_cell <- add_row_cell content ;;
   inr [CellText [Lit icon; Lit " "; status_piece]; content_cell])%exc.

(** The lines of one action request (lines 170-176).  The position is
    an index of a list in memory, far below any limit of a
    conversion. *)
Definition action_lines (env : Env) (i : nat) (action : PyVal) : Exc (list FString) :=
  (tool <- py_getitem action "tool" ;;
   tool_piece <- fmt env tool ;;
   call_id <- py_getitem action "tool_call_id" ;;
   id_piece <- fmt env call_id ;;
   description <- py_get action "description" PyNone ;;
   description_line <-
     (if py_truthy description
      then (d <- py_getitem action "description" ;;
            d_piece <- fmt env d ;;
            inr [[Lit "   Description: "; d_piece]])
      else inr []) ;;
   args <- py_get action "args" (PyDict []) ;;
   code <- json_dumps env 6 args ;;
   inr ([ [Lit newline; Fmt (PyInt (Z.of_nat i + 1)); Lit ". Tool: "; tool_piece];
          [Lit "   ID: "; id_piece] ]
        ++ description_line
        ++ [ [Lit "   Args: "; Fmt (PyStr code)] ]))%exc.

(** The line of one review config (lines 181-182). *)
Definition config_line (i : nat) (config : PyVal) : Exc (list FString) :=
  (allowed <- py_get config "allowed_decisions" (PyList []) ;;
   joined <- py_join ", " allowed ;;
   inr [ [Lit newline; Fmt (PyInt (Z.of_nat i + 1));
          Lit ". Allowed decisions: "; Fmt (PyStr joined)] ])%exc.

(** [panel_content] of an interrupt (lines 161-182). *)
Definition panel_content (env : Env) (interrupt_data : PyVal) : Exc (list FString) :=
  (action_requests <- py_get interrupt_data "action_requests" (PyList []) ;;
   review_configs <- py_get interrupt_data "review_configs" (PyList []) ;;
   actions <-
     (if py_truthy action_requests
      then (items <- py_iter action_requests ;;
            ls <- enum_lines (action_lines env) 0 items ;;
            inr ([Lit "[bold yellow]Action Requests:[/bold yellow]"] :: ls))
      else inr []) ;;
   configs <-
     (if py_truthy review_configs
      then (items <- py_iter review_configs ;;
            ls <- enum_lines config_line 0 items ;;
            inr ([Lit (newline ^^ "[bold cyan]Review Configs:[/bold cyan]")] :: ls))
      else inr []) ;;
   inr (actions ++ configs))%exc.

Definition print_chunk (env : Env) (chunk : RawEvent) (verbose : bool)
    : Cmd Printed unit :=
  let status := dict_get "status" PyNone chunk in
  if py_eq_str status "streaming" then
    if dict_in "chunk" chunk then
      (text <- lift (dict_getitem "chunk" chunk) ;;
       let node := dict_get "node" (PyStr "unknown") chunk in
       if verbose
       then (node_piece <- lift (fmt env node) ;;
             text_piece <- lift (fmt env text) ;;
             console_print env
               (PrintText [Lit "[dim]["; node_piece; Lit "][/dim] "; text_piece] newline))
       else console_print env (PrintValue text EmptyString))%cmd
    else if dict_in "tool_calls" chunk then
      (let node := dict_get "node" (PyStr "unknown") chunk in
       tool_calls <- lift (dict_getitem "tool_calls" chunk) ;;
       items <- lift (py_iter tool_calls) ;;
       for_each items (print_tool_call env node verbose))%cmd
    else if dict_in "todo_list" chunk then
      (todos <- lift (dict_getitem "todo_list" chunk) ;;
       items <- lift (py_iter todos) ;;
       todo_rows <- lift (emap (todo_row env) items) ;;
       console_print env
         (PrintTable {| title := [Lit "Todo List"];
                        show_header := true;
                        columns := [("Status", "cyan"); ("Task", "white")];
                        rows := todo_rows |}))%cmd
    else ret tt
  else if py_eq_str status "interrupt" then
    (let interrupt_data := dict_get "interrupt" (PyDict []) chunk in
     content <- lift (panel_content env interrupt_data) ;;
     console_print env (PrintPanel (fjoin newline content) interrupt_title "yellow"))%cmd
  else if py_eq_str status "complete" then
    console_print env (PrintText [Lit complete_line] newline)
  else if py_eq_str status "error" then
    (let error_msg := dict_get "error" (PyStr "Unknown error") chunk in
     message <- lift (fmt env error_msg) ;;
     console_print env
       (PrintPanel [Lit "[bold red]"; message; Lit "[/bold red]"] "Error" "red"))%cmd
  else ret tt.

(** ** The decision prompt *)

(** What the operator enters during one call of [handle_interrupt_input]:
    the integer [click.prompt("Enter your choice", type=int, default=1)]
    returns (the default already applied), and the text
    [click.prompt("Decision JSON", type=str)] returns when it is asked. *)
Record Answer : Type := mkAnswer {
  choice : Z;
  decision_json : string
}.

Definition approve : PyVal := PyDict [("type", PyStr "approve")].
Definition reject : PyVal := PyDict [("type", PyStr "reject")].

Definition say (env : Env) (s : string) : Cmd Printed unit :=
  console_print env (PrintText [Lit s] newline).

(** How lines 233-235 fail on the text of the operator: with the
    [JSONDecodeError] that the handler of line 236 catches, given by its
    message, or with an exception that handler does not catch.
    [json.loads] raises [RecursionError] on text nested too deeply and
    [ValueError] on an integer literal longer than the interpreter
    converts; [click.prompt] raises [Abort] when the input ends instead
    of a text. *)
Inductive LoadsFailure : Type :=
| JSONDecodeError (message : string)
| NotCaught (e : PyExn).

(** ** The engine boundary *)

(** Modelled from the spec: [prepare_agent_input] is defined in
    [langgraph_utils_cli.utils], which is not among the sources.  Its
    result is one of the two shapes of RunInput (sections 3 and 4.5):
    [prepare_agent_input(message=m)] is [FreshMessage m] and
    [prepare_agent_input(decisions=ds)] is [DecisionBatch ds]. *)
Inductive RunInput : Type :=
| FreshMessage (message : string)
| DecisionBatch (decisions : list PyVal).

(** What a run does at its three boundaries, in order: a write to the
    console, a call of the engine's stream with its input, a call of the
    decision prompt with the interrupt payload. *)
Inductive Obs : Type :=
| Out (p : Printed)
| Stream (input_data : RunInput)
| Ask (interrupt_data : PyVal).

(** A name that is bound somewhere in a function body, by an assignment
    or by an [import], is a local variable of the whole body; reading it
    before the binding statement has run raises [UnboundLocalError],
    also when the module has a global of the same name. *)
Inductive Binding : Type := Unbound | Bound.

Definition load_fast (frame : Binding) (name : string) : Exc unit :=
  match frame with
  | Unbound => inl (UnboundLocalError name)
  | Bound => inr tt
  end.

(** The exit status of the process: [SystemExit] ends it with its own
    code; any other exception that leaves the body of [main] ends it
    with status 1, through the handlers of lines 492-503 or, when those
    raise in turn, as an uncaught exception. *)
Definition exit_status (r : option PyExn) : Z :=
  match r with
  | None => 0
  | Some (SystemExit code) => code
  | Some _ => 1
  end.

Section Driver.

Variable env : Env.

(** The outcome of lines 233-235 on the text the operator enters: the
    decoded value, or how they fail. *)
Variable json_loads : string -> LoadsFailure + PyVal.

(** The graph object carries the state of the paused run; a call of
    the stream yields the events and leaves the graph in a new state.
    [stream_graph_updates] and [astream_graph_updates] are defined in
    [langgraph_utils_cli.utils]. *)
Variables Graph Config : Type.
Variable stream_graph_updates :
  Graph -> RunInput -> option Config -> string -> list RawEvent * Graph.
Variable astream_graph_updates :
  Graph -> RunInput -> option Config -> string -> list RawEvent * Graph.

(** [reply] is [None] when the input has ended: [click.prompt] then
    raises [Abort]. *)
Definition handle_interrupt_input (interrupt_data : PyVal) (reply : option Answer)
    : Cmd Printed PyVal :=
  (action_requests <- lift (py_get interrupt_data "action_requests" (PyList [])) ;;
   review_configs <- lift (py_get interrupt_data "review_configs" (PyList [])) ;;
   say env (newline ^^ "[bold]How would you like to proceed?[/bold]") ;;
   say env "1. Approve all actions" ;;
   say env "2. Reject all actions" ;;
   say env "3. Provide custom decision (JSON)" ;;
   say env "4. Exit" ;;
   match reply with
   | None => raise Abort
   | Some answer =>
       if (choice answer =? 1)%Z then ret approve
       else if (choice answer =? 2)%Z then ret reject
       else if (choice answer =? 3)%Z then
         (say env "Enter your decision as JSON (e.g., {'type': 'approve'}):" ;;
          match json_loads (decision_json answer) with
          | inr decision => ret decision
          | inl (JSONDecodeError e) =>
              (console_print env
                 (PrintText [Lit "[red]Invalid JSON: "; Fmt (PyStr e); Lit "[/red]"]
                    newline) ;;
               ret reject)
          | inl (NotCaught e) => raise e
          end)
       else raise (SystemExit 0)
   end)%cmd.

(** *** [run_sync_graph] *)

(** The [for chunk in stream_graph_updates(...)] loop (lines 309-314). *)
Fixpoint sync_for (verbose : bool) (chunks : list RawEvent)
    (has_interrupt : bool) (interrupt_data : PyVal) : Cmd Printed (bool * PyVal) :=
  match chunks with
  | [] => ret (has_interrupt, interrupt_data)
  | chunk :: rest =>
      (print_chunk env chunk verbose ;;
       if py_eq_str (dict_get "status" PyNone chunk) "interrupt"
       then sync_for verbose rest true (dict_get "interrupt" (PyDict []) chunk)
       else sync_for verbose rest has_interrupt interrupt_data)%cmd
  end.

(** The [while True] loop (lines 305-322).  Every round that goes on
    takes one answer of the operator, so the loop is defined by
    recursion on the answers that remain; when none remains the prompt
    raises and the last line of that case is not reached. *)
Fixpoint sync_while (config : option Config) (interactive verbose : bool)
    (stream_mode : string) (script : list Answer) (graph : Graph)
    (input_data : RunInput) {struct script} : Cmd Obs unit :=
  (emit (Stream input_data) ;;
   let (chunks, graph') := stream_graph_updates graph input_data config stream_mode in
   found <- relabel Out (sync_for verbose chunks false PyNone) ;;
   let (has_interrupt, interrupt_data) := found : bool * PyVal in
   if has_interrupt && interactive then
     (emit (Ask interrupt_data) ;;
      match script with
      | [] =>
          (relabel Out (handle_interrupt_input interrupt_data None) ;;
           raise Abort)
      | answer :: rest =>
          (decision <- relabel Out (handle_interrupt_input interrupt_data (Some answer)) ;;
           sync_while config interactive verbose stream_mode rest graph'
             (DecisionBatch [decision]))
      end)
   else ret tt)%cmd.

(** The body of [run_sync_graph] in a frame where the local name
    [prepare_agent_input] has the given binding.  The name is local
    because of the import on line 319; line 303 reads it.  [Bound] is
    the frame the body would run in if the name were bound on entry, as
    a module-level name is: it tells what the loop does once it is
    reached. *)
Definition sync_body (frame : Binding) (graph : Graph) (message : string)
    (config : option Config) (interactive verbose : bool) (stream_mode : string)
    (script : list Answer) : Cmd Obs unit :=
  (lift (load_fast frame "prepare_agent_input") ;;
   sync_while config interactive verbose stream_mode script graph
     (FreshMessage message))%cmd.

(** A call starts with a fresh frame: no local is bound. *)
Definition run_sync_graph := sync_body Unbound.

(** *** [run_async_graph] *)

(** The [async for chunk in astream_graph_updates(...)] loop
    (lines 268-273). *)
Fixpoint async_for (verbose : bool) (chunks : list RawEvent)
    (has_interrupt : bool) (interrupt_data : PyVal) : Cmd Printed (bool * PyVal) :=
  match chunks with
  | [] => ret (has_interrupt, interrupt_data)
  | chunk :: rest =>
      (print_chunk env chunk verbose ;;
       if py_eq_str (dict_get "status" PyNone chunk) "interrupt"
       then async_for verbose rest true (dict_get "interrupt" (PyDict []) chunk)
       else async_for verbose rest has_interrupt interrupt_data)%cmd
  end.

(** The [while True] loop (lines 264-281). *)
Fixpoint async_while (config : option Config) (interactive verbose : bool)
    (stream_mode : string) (script : list Answer) (graph : Graph)
    (input_data : RunInput) {struct script} : Cmd Obs unit :=
  (emit (Stream input_data) ;;
   let (chunks, graph') := astream_graph_updates graph input_data config stream_mode in
   found <- relabel Out (async_for verbose chunks false PyNone) ;;
   let (has_interrupt, interrupt_data) := found : bool * PyVal in
   if has_interrupt && interactive then
     (emit (Ask interrupt_data) ;;
      match script with
      | [] =>
          (relabel Out (handle_interrupt_input interrupt_data None) ;;
           raise Abort)
      | answer :: rest =>
          (decision <- relabel Out (handle_interrupt_input interrupt_data (Some answer)) ;;
           async_while config interactive verbose stream_mode rest graph'
             (DecisionBatch [decision]))
      end)
   else ret tt)%cmd.

(** The body of the coroutine; line 262 reads the name that the import
    on line 278 makes local. *)
Definition async_body (frame : Binding) (graph : Graph) (message : string)
    (config : option Config) (interactive verbose : bool) (stream_mode : string)
    (script : list Answer) : Cmd Obs unit :=
  (lift (load_fast frame "prepare_agent_input") ;;
   async_while config interactive verbose stream_mode script graph
     (FreshMessage message))%cmd.

Definition run_async_graph := async_body Unbound.

End Driver.

(** ** [parse_agent_spec] *)

(** The exceptions of [parse_agent_spec]: the two [ValueError]s it
    raises, with their message, and the [IndexError] of a subscript of
    [parts] out of range. *)
Inductive SpecExn : Type :=
| ValueError (message : FString)
| IndexError.

(** [s.rsplit(c, 1)]: the text before and after the last [c], or [s]
    alone when it holds no [c]. *)
Fixpoint rsplit_once (c : ascii) (s : string) : list string :=
  match s with
  | EmptyString => [EmptyString]
  | String a rest =>
      match rsplit_once c rest with
      | [before; after] => [String a before; after]
      | _ => if Ascii.eqb a c then [EmptyString; rest] else [String a rest]
      end
  end.

(** [parts[i]] *)
Definition list_item (parts : list string) (i : nat) : SpecExn + string :=
  match nth_error parts i with
  | Some x => inr x
  | None => inl IndexError
  end.

Definition parse_agent_spec (agent_spec : string) : SpecExn + (string * string) :=
  if negb (has_char ":" agent_spec) then
    inl (ValueError [Lit "Invalid agent spec format: '"; Fmt (PyStr agent_spec);
                     Lit "'. Expected format: 'path/to/file.py:variable_name'"])
  else
    let parts := rsplit_once ":" agent_spec in
    match list_item parts 0 with
    | inl e => inl e
    | inr file_path =>
        match list_item parts 1 with
        | inl e => inl e
        | inr variable_name =>
            if negb (endswith file_path ".py") then
              inl (ValueError [Lit "Agent spec file must be a .py file: ";
                               Fmt (PyStr file_path)])
            else inr (file_path, variable_name)
        end
    end.

(** ** The graph file and name of [main] (lines 413-433) *)

(** [not x] for an optional string: [None] and the empty string are
    false values. *)
Definition py_not (x : option string) : bool :=
  match x with
  | None => true
  | Some s => String.eqb s EmptyString
  end.

(** [x or default] *)
Definition py_or (x : option string) (default : string) : string :=
  match x with
  | None => default
  | Some s => if String.eqb s EmptyString then default else s
  end.

(** How this part of [main] ends when it does not go on: [sys.exit]
    with a code, an exception of [parse_agent_spec] that its
    [except ValueError] does not catch, or an exception of
    [console.print]. *)
Inductive MainEnd : Type :=
| ExitWith (code : Z)
| Uncaught (e : SpecExn)
| Escaped (e : PyExn).

(** The note of line 422. *)
Definition spec_note (spec : string) : Printed :=
  PrintText [Lit "[dim]Using DEEPAGENT_AGENT_SPEC: "; Fmt (PyStr spec); Lit "[/dim]"] newline.

(** The report of line 424. *)
Definition spec_error_line (message : FString) : Printed :=
  PrintText ([Lit "[red]Error parsing DEEPAGENT_AGENT_SPEC: "] ++ message ++ [Lit "[/red]"])
    newline.

Definition no_graph_file_help : list Printed :=
  [ PrintText [Lit "[red]Error: No graph file specified.[/red]"] newline;
    PrintText [Lit (newline ^^ "Provide either:")] newline;
    PrintText [Lit "  1. GRAPH_FILE argument: langgraph-cli my_agent.py"] newline;
    PrintText [Lit "  2. DEEPAGENT_AGENT_SPEC env var: export DEEPAGENT_AGENT_SPEC='my_agent.py:graph'"]
      newline ].

(** The handler of lines 423-425: the report is written and the
    process exits with status 1, unless [console.print] raises on the
    report. *)
Definition report_spec_error {A} (env : Env) (message : FString)
    : list Printed * (MainEnd + A) :=
  match ask env (RichPrint (spec_error_line message)) with
  | Some e => ([], inl (Escaped e))
  | None => ([spec_error_line message], inl (ExitWith 1))
  end.

(** Lines 413-433 of [main]: [graph_file] and [graph_name] are the
    command-line values ([None] when not given), [env_agent_spec] is
    [os.getenv('DEEPAGENT_AGENT_SPEC')].  The result is what was written
    and either the end of this part or [final_graph_file] and
    [final_graph_name].  The note of line 422 is written inside the
    [try]: a [ValueError] raised while it is written is handled as one
    of [parse_agent_spec] is. *)
Definition resolve_graph (env : Env) (graph_file graph_name env_agent_spec : option string)
    (verbose : bool) : list Printed * (MainEnd + (string * string)) :=
  let final_graph_name := py_or graph_name "graph" in
  let from_env : list Printed * (MainEnd + (option string * string)) :=
    if py_not graph_file && negb (py_not env_agent_spec) then
      let spec := py_or env_agent_spec EmptyString in
      match parse_agent_spec spec with
      | inr (file_path, variable_name) =>
          if verbose then
            match ask env (RichPrint (spec_note spec)) with
            | Some (PyValueError message) => report_spec_error env [Fmt (PyStr message)]
            | Some e => ([], inl (Escaped e))
            | None => ([spec_note spec], inr (Some file_path, variable_name))
            end
          else ([], inr (Some file_path, variable_name))
      | inl (ValueError message) => report_spec_error env message
      | inl IndexError => ([], inl (Uncaught IndexError))
      end
    else ([], inr (graph_file, final_graph_name)) in
  match from_env with
  | (w, inl e) => (w, inl e)
  | (w, inr (final_graph_file, name)) =>
      if py_not final_graph_file
      then (w ++ no_graph_file_help, inl (ExitWith 1))
      else (w, inr (py_or final_graph_file EmptyString, name))
  end.

(** ** Vocabulary of the properties *)

Definition ok {A} (x : Exc A) : bool :=
  match x with
  | inr _ => true
  | inl _ => false
  end.

Definition has_key (k : string) (v : PyVal) : bool :=
  match v with
  | PyDict d => dict_in k d
  | _ => false
  end.

Definition is_str (v : PyVal) : bool :=
  match v with
  | PyStr _ => true
  | _ => false
  end.

Definition is_mapping (v : PyVal) : bool :=
  match v with
  | PyDict _ => true
  | _ => false
  end.

(** [v] can be iterated and every item satisfies [p]. *)
Definition all_items (p : PyVal -> bool) (v : PyVal) : bool :=
  match py_iter v with
  | inr items => forallb p items
  | inl _ => false
  end.

(** The shapes the lookups of the renderer rely on.  A tool call is a
    mapping with a name; a todo is a mapping whose status, when present,
    is hashable; an action request is a mapping with a tool and a
    tool_call_id; a review config is a mapping whose allowed_decisions,
    when present, are strings. *)
Definition wf_tool_call (v : PyVal) : bool := has_key "name" v.

Definition wf_todo (v : PyVal) : bool :=
  match v with
  | PyDict d => py_hashable (dict_get "status" (PyStr "pending") d)
  | _ => false
  end.

Definition wf_action (v : PyVal) : bool :=
  has_key "tool" v && has_key "tool_call_id" v.

Definition wf_config (v : PyVal) : bool :=
  match v with
  | PyDict d => all_items is_str (dict_get "allowed_decisions" (PyList []) d)
  | _ => false
  end.

Definition wf_interrupt (v : PyVal) : bool :=
  match v with
  | PyDict d =>
      let action_requests := dict_get "action_requests" (PyList []) d in
      let review_configs := dict_get "review_configs" (PyList []) d in
      (negb (py_truthy action_requests) || all_items wf_action action_requests)
      && (negb (py_truthy review_configs) || all_items wf_config review_configs)
  | _ => false
  end.

(** The payload [print_chunk] selects for the event has the shape its
    lookups rely on; an event with no payload to select is well
    formed. *)
Definition well_formed (chunk : RawEvent) : bool :=
  let status := dict_get "status" PyNone chunk in
  if py_eq_str status "streaming" then
    if dict_in "chunk" chunk then true
    else if dict_in "tool_calls" chunk
         then all_items wf_tool_call (dict_get "tool_calls" PyNone chunk)
    else if dict_in "todo_list" chunk
         then all_items wf_todo (dict_get "todo_list" PyNone chunk)
    else true
  else if py_eq_str status "interrupt"
       then wf_interrupt (dict_get "interrupt" (PyDict []) chunk)
  else true.

(** The events the specification calls dropped: a status that is none of
    the four known ones, or a streaming event with none of the three
    payload keys. *)
Definition dropped (chunk : RawEvent) : bool :=
  let status := dict_get "status" PyNone chunk in
  if py_eq_str status "streaming"
  then negb (dict_in "chunk" chunk) && negb (dict_in "tool_calls" chunk)
       && negb (dict_in "todo_list" chunk)
  else negb (py_eq_str status "interrupt") && negb (py_eq_str status "complete")
       && negb (py_eq_str status "error").


(** The event with every key outside [keys] removed. *)
Definition restrict_keys (keys : list string) (d : Dict) : Dict :=
  filter (fun kv => existsb (String.eqb (fst kv)) keys) d.

Definition is_error (chunk : RawEvent) : bool :=
  py_eq_str (dict_get "status" PyNone chunk) "error".

Definition is_complete (chunk : RawEvent) : bool :=
  py_eq_str (dict_get "status" PyNone chunk) "complete".

Definition is_interrupt (chunk : RawEvent) : bool :=
  py_eq_str (dict_get "status" PyNone chunk) "interrupt".

Definition without_errors (chunks : list RawEvent) : list RawEvent :=
  filter (fun chunk => negb (is_error chunk)) chunks.

(** The calls of the engine and of the prompt in a log, the console
    writes left out. *)
Definition control (log : list Obs) : list Obs :=
  filter (fun o => match o with Out _ => false | _ => true end) log.

Definition count_asks (log : list Obs) : nat :=
  length (filter (fun o => match o with Ask _ => true | _ => false end) log).

Definition count_streams (log : list Obs) : nat :=
  length (filter (fun o => match o with Stream _ => true | _ => false end) log).

Definition count_resumes (log : list Obs) : nat :=
  length (filter (fun o => match o with Stream (DecisionBatch _) => true | _ => false end) log).

(** The engine [stream] with every error event taken out of every
    stream it yields. *)
Definition quiet {Graph Config : Type}
    (stream : Graph -> RunInput -> option Config -> string -> list RawEvent * Graph)
    : Graph -> RunInput -> option Config -> string -> list RawEvent * Graph :=
  fun graph input_data config stream_mode =>
    (without_errors (fst (stream graph input_data config stream_mode)),
     snd (stream graph input_data config stream_mode)).

(** The five lines [handle_interrupt_input] writes before it prompts. *)
Definition menu : list Printed :=
  [ PrintText [Lit (newline ^^ "[bold]How would you like to proceed?[/bold]")] newline;
    PrintText [Lit "1. Approve all actions"] newline;
    PrintText [Lit "2. Reject all actions"] newline;
    PrintText [Lit "3. Provide custom decision (JSON)"] newline;
    PrintText [Lit "4. Exit"] newline ].

(** The request for the text of a custom decision (line 232). *)
Definition json_request : Printed :=
  PrintText [Lit "Enter your decision as JSON (e.g., {'type': 'approve'}):"] newline.

(** The report of a text that is not JSON (line 237). *)
Definition invalid_json_line (message : string) : Printed :=
  PrintText [Lit "[red]Invalid JSON: "; Fmt (PyStr message); Lit "[/red]"] newline.

(** [print_chunk] returns on the event without raising. *)
Definition renders (env : Env) (verbose : bool) (chunk : RawEvent) : bool :=
  ok (snd (print_chunk env chunk verbose)).

(** The exceptions of the lookups, iterations and joins that
    [print_chunk] performs itself. *)
Definition lookup_exception (e : PyExn) : bool :=
  match e with
  | KeyError k => String.eqb k "name" || String.eqb k "tool" || String.eqb k "tool_call_id"
  | TypeError | AttributeError => true
  | _ => false
  end.

(** The keys of an event that [print_chunk] reads. *)
Definition event_keys : list string :=
  ["status"; "chunk"; "node"; "tool_calls"; "todo_list"; "interrupt"; "error"].

(** The event is rendered by the tool-call branch. *)
Definition selects_tool_calls (chunk : RawEvent) : bool :=
  py_eq_str (dict_get "status" PyNone chunk) "streaming"
  && negb (dict_in "chunk" chunk) && dict_in "tool_calls" chunk.

(** The event is rendered by the text branch. *)
Definition selects_text (chunk : RawEvent) : bool :=
  py_eq_str (dict_get "status" PyNone chunk) "streaming" && dict_in "chunk" chunk.

(** The event is rendered by the todo-list branch. *)
Definition selects_todo_list (chunk : RawEvent) : bool :=
  py_eq_str (dict_get "status" PyNone chunk) "streaming"
  && negb (dict_in "chunk" chunk) && negb (dict_in "tool_calls" chunk)
  && dict_in "todo_list" chunk.

(** What is written for the text of a streaming event (lines 113-118). *)
Definition text_item (chunk : RawEvent) (verbose : bool) : Printed :=
  if verbose
  then PrintText [Lit "[dim]["; Fmt (dict_get "node" (PyStr "unknown") chunk);
                  Lit "][/dim] "; Fmt (dict_get "chunk" PyNone chunk)] newline
  else PrintValue (dict_get "chunk" PyNone chunk) EmptyString.

(** The table of a tool call that is a mapping with a name
    (lines 124-136). *)
Definition table_of_call (node : PyVal) (verbose : bool) (call : Dict) : Printed :=
  PrintTable
    {| title := [Lit "Tool Call: "; Fmt (dict_get "name" PyNone call)];
       show_header := false;
       columns := [];
       rows := [ [CellText [Lit "ID"]; CellValue (dict_get "id" (PyStr "N/A") call)];
                 [CellText [Lit "Name"]; CellValue (dict_get "name" PyNone call)];
                 [CellText [Lit "Args"];
                  CellSyntax (json_text 2 (dict_get "args" (PyDict []) call))
                    "json" "monokai"] ]
               ++ (if verbose then [[CellText [Lit "Node"]; CellValue node]] else []) |}.

(** The glyph of a hashable status (lines 147-151). *)
Definition icon_of (status : PyVal) : string :=
  if py_eq_str status "pending" then glyph_pending
  else if py_eq_str status "in_progress" then glyph_in_progress
  else if py_eq_str status "completed" then glyph_completed
  else glyph_unknown.

(** The row of a todo that is a mapping (lines 153-156). *)
Definition row_of_todo (todo : Dict) : list Cell :=
  [ CellText [Lit (icon_of (dict_get "status" (PyStr "pending") todo)); Lit " ";
              Fmt (dict_get "status" (PyStr "pending") todo)];
    CellValue (dict_get "content" (PyStr "N/A") todo) ].

(** The table of a todo list (lines 142-158). *)
Definition todo_table (todos : list Dict) : Printed :=
  PrintTable {| title := [Lit "Todo List"];
                show_header := true;
                columns := [("Status", "cyan"); ("Task", "white")];
                rows := map row_of_todo todos |}.

(** The panel of an error event (lines 196-203). *)
Definition error_panel (chunk : RawEvent) : Printed :=
  PrintPanel [Lit "[bold red]"; Fmt (dict_get "error" (PyStr "Unknown error") chunk);
              Lit "[/bold red]"] "Error" "red".

(** A cell that [add_row] accepts: a str or [None]. *)
Definition is_cell (v : PyVal) : bool :=
  match v with
  | PyNone | PyStr _ => true
  | _ => false
  end.

(** A cell that [add_row] accepts and rich renders whatever it holds: a
    str without an opening bracket, or [None]. *)
Definition plain_cell (v : PyVal) : bool :=
  match v with
  | PyNone => true
  | PyStr s => no_bracket s
  | _ => false
  end.

(** A value that is formatted whatever the limits are, to a text
    without an opening bracket. *)
Definition plain_value (v : PyVal) : bool := small v && plain_hole v.

(** A tool call that is rendered whatever the environment is: a mapping
    with a name, whose name and id are plain cells and whose args are
    small and hold no bytes. *)
Definition plain_call (call : Dict) : bool :=
  dict_in "name" call
  && plain_cell (dict_get "name" PyNone call)
  && plain_cell (dict_get "id" (PyStr "N/A") call)
  && small (dict_get "args" (PyDict []) call)
  && serialisable (dict_get "args" (PyDict []) call).

(** A todo that is rendered whatever the environment is. *)
Definition plain_todo (todo : Dict) : bool :=
  py_hashable (dict_get "status" (PyStr "pending") todo)
  && plain_value (dict_get "status" (PyStr "pending") todo)
  && plain_cell (dict_get "content" (PyStr "N/A") todo).

(** The pause flag and payload after a pass over [chunks] that started
    with [state]: every interrupt event replaces them. *)
Definition pause_after (chunks : list RawEvent) (state : bool * PyVal) : bool * PyVal :=
  fold_left
    (fun st chunk =>
       if is_interrupt chunk then (true, dict_get "interrupt" (PyDict []) chunk) else st)
    chunks state.

(** The inputs of the calls of the engine in a log, in order. *)
Fixpoint stream_inputs (log : list Obs) : list RunInput :=
  match log with
  | [] => []
  | Stream input_data :: rest => input_data :: stream_inputs rest
  | _ :: rest => stream_inputs rest
  end.

(** A decision batch of exactly one decision. *)
Definition single_decision (input_data : RunInput) : bool :=
  match input_data with
  | DecisionBatch [_] => true
  | _ => false
  end.

(** The strings among the items of a list. *)
Fixpoint strings_of (items : list PyVal) : list string :=
  match items with
  | [] => []
  | PyStr s :: rest => s :: strings_of rest
  | _ :: rest => strings_of rest
  end.

(** The allowed decisions of a review config, joined by a comma and a
    space (line 182). *)
Definition allowed_text (config : Dict) : string :=
  match py_iter (dict_get "allowed_decisions" (PyList []) config) with
  | inr items => join ", " (strings_of items)
  | inl _ => EmptyString
  end.

(** The lines of the action request at position [i], counted from 0,
    when it is a mapping with a tool and a tool_call_id
    (lines 170-176). *)
Definition lines_of_action (i : nat) (action : Dict) : list FString :=
  [ [Lit newline; Fmt (PyInt (Z.of_nat i + 1)); Lit ". Tool: ";
     Fmt (dict_get "tool" PyNone action)];
    [Lit "   ID: "; Fmt (dict_get "tool_call_id" PyNone action)] ]
  ++ (if py_truthy (dict_get "description" PyNone action)
      then [[Lit "   Description: "; Fmt (dict_get "description" PyNone action)]]
      else [])
  ++ [ [Lit "   Args: "; Fmt (PyStr (json_text 6 (dict_get "args" (PyDict []) action)))] ].

(** The line of the review config at position [i] (line 182). *)
Definition line_of_config (i : nat) (config : Dict) : list FString :=
  [ [Lit newline; Fmt (PyInt (Z.of_nat i + 1)); Lit ". Allowed decisions: ";
     Fmt (PyStr (allowed_text config))] ].

(** The lines of the items of a list, each with its position. *)
Fixpoint numbered {A : Type} (f : nat -> A -> list FString) (i : nat) (l : list A)
    : list FString :=
  match l with
  | [] => []
  | x :: rest => f i x ++ numbered f (S i) rest
  end.

(** The lines, and joined by line breaks the body, of the panel of an
    interrupt with the given action requests and review configs
    (lines 165-186). *)
Definition interrupt_lines (actions configs : list Dict) : list FString :=
  match actions with
  | [] => []
  | _ => [Lit "[bold yellow]Action Requests:[/bold yellow]"]
         :: numbered lines_of_action 0 actions
  end
  ++ match configs with
     | [] => []
     | _ => [Lit (newline ^^ "[bold cyan]Review Configs:[/bold cyan]")]
            :: numbered line_of_config 0 configs
     end.

Definition interrupt_body (actions configs : list Dict) : FString :=
  fjoin newline (interrupt_lines actions configs).

(** The panel of an interrupt. *)
Definition interrupt_panel (actions configs : list Dict) : Printed :=
  PrintPanel (interrupt_body actions configs) interrupt_title "yellow".

(** ** Sample data *)

(** The text [s] is handed to rich in a hole, in a cell or as a
    value. *)
Definition piece_mentions (s : string) (p : Piece) : bool :=
  match p with
  | Fmt (PyStr s') => String.eqb s' s
  | _ => false
  end.

Definition cell_mentions (s : string) (c : Cell) : bool :=
  match c with
  | CellText t => existsb (piece_mentions s) t
  | CellValue (PyStr s') => String.eqb s' s
  | _ => false
  end.

Definition mentions (s : string) (p : Printed) : bool :=
  match p with
  | PrintText t _ => existsb (piece_mentions s) t
  | PrintValue (PyStr s') _ => String.eqb s' s
  | PrintValue _ _ => false
  | PrintTable t =>
      existsb (piece_mentions s) (title t) || existsb (existsb (cell_mentions s)) (rows t)
  | PrintPanel body _ _ => existsb (piece_mentions s) body
  end.

(** An environment for the examples: rich as it treats a text with the
    closing tag [[/oops]], which closes nothing: a [MarkupError].
    Nothing else in the examples meets a limit. *)
Definition oops_env : Env :=
  fun call =>
    match call with
    | RichPrint p => if mentions "boom [/oops]" p then Some MarkupError else None
    | _ => None
    end.

Definition text_event : RawEvent :=
  [("status", PyStr "streaming"); ("chunk", PyStr "Hi"); ("node", PyStr "agent")].

Definition search_call : PyVal :=
  PyDict [("id", PyStr "call_1"); ("name", PyStr "search");
          ("args", PyDict [("q", PyStr "x"); ("limit", PyInt 3)])].

Definition tool_event : RawEvent :=
  [("status", PyStr "streaming"); ("tool_calls", PyList [search_call]);
   ("node", PyStr "agent")].

(** A tool call without a name. *)
Definition nameless_tool_event : RawEvent :=
  [("status", PyStr "streaming"); ("tool_calls", PyList [PyDict [("id", PyStr "call_1")]])].

(** A tool call whose id is a number. *)
Definition numbered_tool_event : RawEvent :=
  [("status", PyStr "streaming");
   ("tool_calls", PyList [PyDict [("id", PyInt 7); ("name", PyStr "search")]])].



Definition error_event : RawEvent :=
  [("status", PyStr "error"); ("error", PyStr "boom")].

(** An error whose message holds a closing tag. *)
Definition oops_event : RawEvent :=
  [("status", PyStr "error"); ("error", PyStr "boom [/oops]")].

Definition complete_event : RawEvent := [("status", PyStr "complete")].

Definition pause_entries : Dict :=
  [("action_requests",
    PyList [PyDict [("tool", PyStr "search"); ("tool_call_id", PyStr "1");
                    ("args", PyDict [("q", PyStr "x")])]]);
   ("review_configs", PyList [])].

Definition pause_payload : PyVal := PyDict pause_entries.

Definition pause_event : RawEvent :=
  [("status", PyStr "interrupt"); ("interrupt", pause_payload)].

(** An engine for the examples: the graph state counts the calls; a
    fresh message is answered by a text, an error and a pause, a
    decision batch by completion. *)
Definition sample_stream (graph : nat) (input_data : RunInput) (config : option unit)
    (stream_mode : string) : list RawEvent * nat :=
  match input_data with
  | FreshMessage _ => ([text_event; error_event; pause_event], S graph)
  | DecisionBatch _ => ([complete_event], S graph)
  end.

(** An engine that never pauses: a text and completion. *)
Definition calm_stream (graph : nat) (input_data : RunInput) (config : option unit)
    (stream_mode : string) : list RawEvent * nat :=
  ([text_event; complete_event], S graph).

(** An engine whose first stream is an error with a closing tag in its
    message and a pause. *)
Definition oops_stream (graph : nat) (input_data : RunInput) (config : option unit)
    (stream_mode : string) : list RawEvent * nat :=
  match input_data with
  | FreshMessage _ => ([oops_event; pause_event], S graph)
  | DecisionBatch _ => ([complete_event], S graph)
  end.

(** [n] opening brackets, and a literal of [n] digits. *)
Definition brackets (n : N) : string := N.iter n (String "["%char) EmptyString.

Definition nines (n : N) : string := N.iter n (String "9"%char) EmptyString.

Definition digits_message : string :=
  "Exceeds the limit (4300 digits) for integer string conversion: value has 5000 digits; "
  ^^ "use sys.set_int_max_str_digits() to increase the limit".

(** A decoder for the examples: it knows the JSON literals; on 100000
    opening brackets it fails as json.loads does on text nested that
    deep, with [RecursionError], and on an integer literal of 5000
    digits with the [ValueError] of the conversion to an integer; it
    answers any other text with the message json.loads gives for text
    that starts no JSON value. *)
Definition sample_loads (s : string) : LoadsFailure + PyVal :=
  if String.eqb s "null" then inr PyNone
  else if String.eqb s "true" then inr (PyBool true)
  else if String.eqb s "false" then inr (PyBool false)
  else if String.eqb s (brackets 100000) then inl (NotCaught RecursionError)
  else if String.eqb s (nines 5000) then inl (NotCaught (PyValueError digits_message))
  else inl (JSONDecodeError "Expecting value: line 1 column 1 (char 0)").

Definition two_pauses_stream : list RawEvent :=
  [ [("status", PyStr "interrupt"); ("interrupt", PyDict [("note", PyStr "first")])];
    text_event;
    pause_event;
    complete_event ].

Definition todo_event : RawEvent :=
  [("status", PyStr "streaming");
   ("todo_list", PyList [PyDict [("status", PyStr "completed"); ("content", PyStr "plan")];
                         PyDict [("content", PyStr "build")];
                         PyDict [("status", PyStr "blocked")]])].

Definition bare_interrupt_event : RawEvent :=
  [("status", PyStr "interrupt"); ("trace_id", PyStr "t-1")].

(** An exception comes from the environment when a call that could
    fail was answered with it. *)
Definition from_environment (env : Env) (e : PyExn) : Prop :=
  exists call, known_ok call = false /\ env call = Some e.

(** The exceptions [print_chunk] can end with: those of its own
    lookups, the refusal of a cell by [add_row], and those of the
    environment. *)
Definition explained (env : Env) (e : PyExn) : Prop :=
  lookup_exception e = true \/ e = NotRenderableError \/ from_environment env e.

(** The number of blocks an event is rendered as: none for a dropped
    event, one for each item of the tool calls, one otherwise. *)
Definition blocks (chunk : RawEvent) : nat :=
  if dropped chunk then 0
  else if selects_tool_calls chunk
       then match py_iter (dict_get "tool_calls" PyNone chunk) with
            | inr items => length items
            | inl _ => 0
            end
  else 1.

(** An event that is rendered whatever the environment is: a dropped or
    complete event; a text, outside verbose mode, without an opening
    bracket; tool calls and todos that are plain, with a plain node in
    verbose mode; an error whose message is plain. *)
Definition plain_event (chunk : RawEvent) (verbose : bool) : bool :=
  let status := dict_get "status" PyNone chunk in
  if py_eq_str status "streaming" then
    if dict_in "chunk" chunk
    then negb verbose && known_ok (RichPrint (PrintValue (dict_get "chunk" PyNone chunk) EmptyString))
    else if dict_in "tool_calls" chunk
    then match dict_get "tool_calls" PyNone chunk with
         | PyList items =>
             forallb (fun item => match item with
                                  | PyDict call => plain_call call
                                  | _ => false
                                  end) items
             && (negb verbose || plain_cell (dict_get "node" (PyStr "unknown") chunk))
         | _ => false
         end
    else if dict_in "todo_list" chunk
    then match dict_get "todo_list" PyNone chunk with
         | PyList items =>
             forallb (fun item => match item with
                                  | PyDict todo => plain_todo todo
                                  | _ => false
                                  end) items
         | _ => false
         end
    else true
  else if py_eq_str status "interrupt" then false
  else if py_eq_str status "complete" then true
  else if py_eq_str status "error"
       then plain_value (dict_get "error" (PyStr "Unknown error") chunk)
  else true.

(** Every error event of every stream of the engine renders. *)
Definition errors_render {Graph Config : Type} (env : Env) (verbose : bool)
    (stream : Graph -> RunInput -> option Config -> string -> list RawEvent * Graph)
    : Prop :=
  forall graph input_data config stream_mode chunk,
    In chunk (fst (stream graph input_data config stream_mode)) ->
    is_error chunk = true -> renders env verbose chunk = true.

(** * Properties *)

Unset Implicit Arguments.

(** ** Statements and expressions *)

Lemma ok_ebind A B (x : Exc A) (k : A -> Exc B) :
  ok (ebind x k) = match x with inr a => ok (k a) | inl _ => false end.
Proof. destruct x; reflexivity. Qed.

Lemma snd_bind E A B (c : Cmd E A) (k : A -> Cmd E B) :
  snd (bind c k) = match snd c with inl e => inl e | inr a => snd (k a) end.
Proof.
  destruct c as [w [e | a]]; simpl; [reflexivity |].
  destruct (k a); reflexivity.
Qed.

Lemma fst_bind E A B (c : Cmd E A) (k : A -> Cmd E B) :
  fst (bind c k) = fst c ++ match snd c with inl _ => [] | inr a => fst (k a) end.
Proof.
  destruct c as [w [e | a]]; simpl; [now rewrite app_nil_r |].
  destruct (k a); reflexivity.
Qed.

Lemma bind_ext E A B (c : Cmd E A) (k k' : A -> Cmd E B) :
  (forall a, k a = k' a) -> bind c k = bind c k'.
Proof.
  intro H. destruct c as [w [e | a]]; simpl; [reflexivity | now rewrite H].
Qed.

Lemma bind_lift E A B (x : Exc A) (k : A -> Cmd E B) :
  bind (lift x) k = match x with inl e => ([], inl e) | inr a => k a end.
Proof.
  destruct x as [e | a]; [reflexivity |].
  unfold bind, lift. destruct (k a). reflexivity.
Qed.

Lemma bind_emitted E A B (w : list E) (a : A) (k : A -> Cmd E B) :
  bind (w, inr a) k = (w ++ fst (k a), snd (k a)).
Proof. unfold bind. destruct (k a). reflexivity. Qed.

Lemma raised_ok E A (c : Cmd E A) : raised c = None <-> ok (snd c) = true.
Proof.
  unfold raised; destruct (snd c); simpl; split; intro H; congruence.
Qed.

Lemma raised_some E A (c : Cmd E A) e : raised c = Some e <-> snd c = inl e.
Proof.
  unfold raised; destruct (snd c); split; intro H; congruence.
Qed.

Lemma returned E (c : Cmd E unit) : ok (snd c) = true -> c = (fst c, inr tt).
Proof. destruct c as [w [e | []]]; [discriminate | reflexivity]. Qed.

Lemma ok_for_each E A (body : A -> Cmd E unit) (l : list A) :
  ok (snd (for_each l body)) = forallb (fun x => ok (snd (body x))) l.
Proof.
  induction l as [| x rest IH]; simpl; [reflexivity |].
  rewrite snd_bind. destruct (snd (body x)); simpl; [reflexivity | exact IH].
Qed.

Lemma ok_emap A B (f : A -> Exc B) (l : list A) :
  ok (emap f l) = forallb (fun x => ok (f x)) l.
Proof.
  induction l as [| x rest IH]; simpl; [reflexivity |].
  destruct (f x); simpl; [reflexivity |].
  rewrite <- IH. destruct (emap f rest); reflexivity.
Qed.

Lemma ok_all_str l : ok (all_str l) = forallb is_str l.
Proof.
  induction l as [| v rest IH]; simpl; [reflexivity |].
  destruct v; simpl; try reflexivity.
  rewrite <- IH. destruct (all_str rest); reflexivity.
Qed.

Lemma forallb_same A (p q : A -> bool) (l : list A) :
  (forall x, p x = q x) -> forallb p l = forallb q l.
Proof.
  intro H. induction l as [| x rest IH]; simpl; [reflexivity |].
  now rewrite H, IH.
Qed.

Lemma forallb_imp A (p q : A -> bool) (l : list A) :
  (forall x, p x = true -> q x = true) -> forallb p l = true -> forallb q l = true.
Proof.
  intros H. induction l as [| x rest IH]; simpl; [reflexivity |].
  intro Hp. apply andb_prop in Hp as [Hx Hrest]. now rewrite (H _ Hx), (IH Hrest).
Qed.

Lemma forallb_both A (p q : A -> bool) (l : list A) :
  forallb (fun x => p x && q x) l = true -> forallb p l = true /\ forallb q l = true.
Proof.
  induction l as [| x rest IH]; intro H; [split; reflexivity |].
  cbn [forallb] in H |- *. apply andb_prop in H as [Hx Hrest].
  apply andb_prop in Hx as [Hp Hq]. destruct (IH Hrest) as [IHp IHq].
  now rewrite Hp, Hq, IHp, IHq.
Qed.

(** ** Dictionaries *)

Lemma dict_in_getitem k d : dict_in k d = true -> dict_getitem k d = inr (dict_get k PyNone d).
Proof.
  unfold dict_in, dict_getitem, dict_get. destruct (dict_lookup k d); [reflexivity | discriminate].
Qed.

Lemma dict_getitem_inr k d v :
  dict_getitem k d = inr v -> dict_in k d = true /\ forall default, dict_get k default d = v.
Proof.
  unfold dict_in, dict_getitem, dict_get. destruct (dict_lookup k d); [| discriminate].
  intro H. injection H as <-. split; reflexivity.
Qed.

Lemma dict_getitem_inl k d e : dict_getitem k d = inl e -> e = KeyError k /\ dict_in k d = false.
Proof.
  unfold dict_in, dict_getitem. destruct (dict_lookup k d); [discriminate |].
  intro H. injection H as <-. split; reflexivity.
Qed.

Lemma dict_get_truthy k d :
  py_truthy (dict_get k PyNone d) = true -> dict_getitem k d = inr (dict_get k PyNone d).
Proof.
  unfold dict_getitem, dict_get. destruct (dict_lookup k d); [reflexivity | discriminate].
Qed.

Lemma dict_lookup_get k d v default : dict_lookup k d = Some v -> dict_get k default d = v.
Proof. unfold dict_get. now intros ->. Qed.


(** ** The environment *)

Lemma ask_some env call e :
  ask env call = Some e -> known_ok call = false /\ env call = Some e.
Proof. unfold ask. destruct (known_ok call); [discriminate | now split]. Qed.

Lemma ask_known env call : known_ok call = true -> ask env call = None.
Proof. unfold ask. now intros ->. Qed.

Lemma fmt_inr env v piece : fmt env v = inr piece -> piece = Fmt v.
Proof. unfold fmt. destruct (ask env (FormatValue v)); congruence. Qed.

Lemma fmt_inl env v e : fmt env v = inl e -> from_environment env e.
Proof.
  unfold fmt. destruct (ask env (FormatValue v)) as [e' |] eqn:H; [| discriminate].
  intro He. injection He as <-. exists (FormatValue v). now apply ask_some.
Qed.

Lemma fmt_small env v : small v = true -> fmt env v = inr (Fmt v).
Proof. intro H. unfold fmt. now rewrite ask_known. Qed.

Lemma json_dumps_inr env indent v code :
  json_dumps env indent v = inr code -> code = json_text indent v.
Proof.
  unfold json_dumps. destruct (ask env (JsonDumps indent v)); [discriminate |].
  destruct (serialisable v); congruence.
Qed.

Lemma json_dumps_inl env indent v e :
  json_dumps env indent v = inl e -> e = TypeError \/ from_environment env e.
Proof.
  unfold json_dumps. destruct (ask env (JsonDumps indent v)) as [e' |] eqn:H.
  - intro He. injection He as <-. right. exists (JsonDumps indent v). now apply ask_some.
  - destruct (serialisable v); [discriminate |]. intro He. injection He as <-. now left.
Qed.

Lemma json_dumps_small env indent v :
  small v = true -> serialisable v = true -> json_dumps env indent v = inr (json_text indent v).
Proof. intros Hs Hj. unfold json_dumps. rewrite ask_known by exact Hs. now rewrite Hj. Qed.

Lemma add_row_cell_inr v cell : add_row_cell v = inr cell -> cell = CellValue v.
Proof. destruct v; simpl; congruence. Qed.

Lemma add_row_cell_inl v e : add_row_cell v = inl e -> e = NotRenderableError.
Proof. destruct v; simpl; congruence. Qed.

Lemma add_row_cell_plain v : plain_cell v = true -> add_row_cell v = inr (CellValue v).
Proof. destruct v; simpl; congruence. Qed.

Lemma console_print_cases env p :
  console_print env p = ([p], inr tt)
  \/ exists e, console_print env p = ([], inl e) /\ from_environment env e.
Proof.
  unfold console_print. destruct (ask env (RichPrint p)) as [e |] eqn:H; [| now left].
  right. exists e. split; [reflexivity |]. exists (RichPrint p). now apply ask_some.
Qed.

Lemma console_print_known env p :
  known_ok (RichPrint p) = true -> console_print env p = ([p], inr tt).
Proof. intro H. unfold console_print. now rewrite ask_known. Qed.

Lemma console_print_ok env p :
  ok (snd (console_print env p)) = true -> console_print env p = ([p], inr tt).
Proof.
  destruct (console_print_cases env p) as [H | [e [H _]]]; rewrite H; [reflexivity | discriminate].
Qed.

Lemma explained_lookup env e : lookup_exception e = true -> explained env e.
Proof. now left. Qed.

Lemma explained_environment env e : from_environment env e -> explained env e.
Proof. intro H. right. now right. Qed.

Lemma py_getitem_inl v k e :
  py_getitem v k = inl e -> e = TypeError \/ e = KeyError k.
Proof.
  destruct v; simpl; try (intro H; injection H as <-; now left).
  intro H. apply dict_getitem_inl in H as [-> _]. now right.
Qed.

Lemma py_get_inl v k default e : py_get v k default = inl e -> e = AttributeError.
Proof. destruct v; simpl; congruence. Qed.

Lemma py_get_inr v k default x :
  py_get v k default = inr x -> exists d, v = PyDict d /\ x = dict_get k default d.
Proof. destruct v; simpl; try discriminate. intro H. injection H as <-. now eexists. Qed.

Lemma py_getitem_inr v k x :
  py_getitem v k = inr x ->
  exists d, v = PyDict d /\ dict_in k d = true /\ forall default, dict_get k default d = x.
Proof.
  destruct v; simpl; try discriminate. intro H.
  apply dict_getitem_inr in H as [Hin Hget]. eexists. repeat split; assumption.
Qed.

Lemma py_iter_inl v e : py_iter v = inl e -> e = TypeError.
Proof. destruct v; simpl; congruence. Qed.

Lemma status_icon_inl key e : status_icon key = inl e -> e = TypeError.
Proof. unfold status_icon. destruct (py_hashable key); congruence. Qed.

Lemma status_icon_inr key icon :
  status_icon key = inr icon -> py_hashable key = true /\ icon = icon_of key.
Proof.
  unfold status_icon, icon_of. destruct (py_hashable key); [| discriminate].
  intro H. injection H as <-. now split.
Qed.

Lemma all_str_inl l e : all_str l = inl e -> e = TypeError.
Proof.
  revert e. induction l as [| v rest IH]; intros e; [discriminate |].
  destruct v; simpl; try congruence.
  destruct (all_str rest) as [e' | ss]; simpl; [| discriminate].
  intro H. injection H as <-. now apply IH.
Qed.

Lemma all_str_inr l ss : all_str l = inr ss -> forallb is_str l = true /\ ss = strings_of l.
Proof.
  revert ss. induction l as [| v rest IH]; intros ss.
  - intro H. injection H as <-. now split.
  - destruct v; simpl; try discriminate.
    destruct (all_str rest) as [e' | ss']; simpl; [discriminate |].
    intro H. injection H as <-. destruct (IH ss' eq_refl) as [Hall ->]. now split.
Qed.

Lemma py_join_inl sep v e : py_join sep v = inl e -> e = TypeError.
Proof.
  unfold py_join. destruct (py_iter v) as [e' | items] eqn:Hi; simpl.
  - intro H. injection H as <-. now apply py_iter_inl in Hi.
  - destruct (all_str items) as [e' | ss] eqn:Ha; simpl; [| discriminate].
    intro H. injection H as <-. now apply all_str_inl in Ha.
Qed.

(** ** The rounds of [print_chunk] *)

Ltac exc_step H E x :=
  match type of H with
  | ebind ?c _ = _ =>
      let e := fresh "e" in
      destruct c as [e | x] eqn:E; cbn [ebind] in H; [try discriminate H |]
  end.

Lemma tool_call_table_inr env tool_call node verbose table :
  tool_call_table env tool_call node verbose = inr table ->
  exists call, tool_call = PyDict call /\ dict_in "name" call = true
               /\ PrintTable table = table_of_call node verbose call.
Proof.
  unfold tool_call_table. intro H.
  exc_step H E1 name.
  apply py_getitem_inr in E1 as [call [-> [Hin Hname]]].
  exists call. split; [reflexivity |]. split; [exact Hin |].
  exc_step H E2 piece. apply fmt_inr in E2 as ->.
  cbn [py_get ebind] in H.
  exc_step H E3 id_cell. apply add_row_cell_inr in E3 as ->.
  exc_step H E5 name_cell. apply add_row_cell_inr in E5 as ->.
  exc_step H E6 code. apply json_dumps_inr in E6 as ->.
  unfold table_of_call. rewrite (Hname PyNone).
  destruct verbose.
  - exc_step H E7 node_row.
    exc_step E7 E8 node_cell. apply add_row_cell_inr in E8 as ->.
    injection E7 as <-. injection H as <-. reflexivity.
  - cbn [ebind] in H. injection H as <-. reflexivity.
Qed.

Lemma tool_call_table_inl env tool_call node verbose e :
  tool_call_table env tool_call node verbose = inl e -> explained env e.
Proof.
  unfold tool_call_table. intro H.
  destruct (py_getitem tool_call "name") as [e1 | name] eqn:E1; cbn [ebind] in H.
  { injection H as <-. left. apply py_getitem_inl in E1 as [-> | ->]; reflexivity. }
  destruct (fmt env name) as [e2 | piece] eqn:E2; cbn [ebind] in H.
  { injection H as <-. apply explained_environment. exact (fmt_inl _ _ _ E2). }
  destruct (py_get tool_call "id" (PyStr "N/A")) as [e3 | id] eqn:E3; cbn [ebind] in H.
  { injection H as <-. left. now apply py_get_inl in E3 as ->. }
  destruct (add_row_cell id) as [e4 | id_cell] eqn:E4; cbn [ebind] in H.
  { injection H as <-. right; left. exact (add_row_cell_inl _ _ E4). }
  destruct (add_row_cell name) as [e5 | name_cell] eqn:E5; cbn [ebind] in H.
  { injection H as <-. right; left. exact (add_row_cell_inl _ _ E5). }
  destruct (py_get tool_call "args" (PyDict [])) as [e6 | args] eqn:E6; cbn [ebind] in H.
  { injection H as <-. left. now apply py_get_inl in E6 as ->. }
  destruct (json_dumps env 2 args) as [e7 | code] eqn:E7; cbn [ebind] in H.
  { injection H as <-. apply json_dumps_inl in E7 as [-> | E7];
      [now left | now apply explained_environment]. }
  destruct verbose; [| discriminate].
  destruct (add_row_cell node) as [e8 | node_cell] eqn:E8; cbn [ebind] in H; [| discriminate].
  injection H as <-. right; left. exact (add_row_cell_inl _ _ E8).
Qed.

Lemma tool_call_table_malformed env tool_call node verbose :
  wf_tool_call tool_call = false ->
  tool_call_table env tool_call node verbose
  = inl (if is_mapping tool_call then KeyError "name" else TypeError).
Proof.
  destruct tool_call; try reflexivity.
  unfold wf_tool_call, has_key, dict_in, tool_call_table, py_getitem, dict_getitem.
  destruct (dict_lookup "name" entries); [discriminate | reflexivity].
Qed.

Lemma plain_cell_ok v : plain_cell v = true -> cell_ok (CellValue v) = true.
Proof. destruct v; intro H; try discriminate H; try reflexivity; exact H. Qed.

Lemma plain_cell_small v : plain_cell v = true -> small v = true.
Proof. destruct v; intro H; try discriminate H; try reflexivity; exact H. Qed.

Lemma plain_cell_hole v : plain_cell v = true -> plain_hole v = true.
Proof. destruct v; intro H; try discriminate H; try reflexivity; exact H. Qed.

Lemma table_of_call_known node verbose call :
  plain_call call = true ->
  (verbose = true -> plain_cell node = true) ->
  known_ok (RichPrint (table_of_call node verbose call)) = true.
Proof.
  unfold plain_call. intros H Hnode.
  apply andb_prop in H as [H _]. apply andb_prop in H as [H _].
  apply andb_prop in H as [H Hid]. apply andb_prop in H as [_ Hname].
  unfold table_of_call, known_ok.
  cbn [title columns rows forallb template_ok andb app].
  rewrite (plain_cell_hole _ Hname), (plain_cell_ok _ Hid), (plain_cell_ok _ Hname).
  destruct verbose; cbn [app forallb]; [rewrite (plain_cell_ok _ (Hnode eq_refl)) |];
    reflexivity.
Qed.

Lemma tool_call_table_plain env node verbose call :
  plain_call call = true ->
  (verbose = true -> plain_cell node = true) ->
  exists table, tool_call_table env (PyDict call) node verbose = inr table
                /\ PrintTable table = table_of_call node verbose call.
Proof.
  intros H Hnode. pose proof H as Hplain. unfold plain_call in H.
  apply andb_prop in H as [H Hser]. apply andb_prop in H as [H Hsmall].
  apply andb_prop in H as [H Hid]. apply andb_prop in H as [Hin Hname].
  unfold tool_call_table, py_getitem, py_get.
  rewrite (dict_in_getitem _ _ Hin). cbn [ebind].
  rewrite (fmt_small env _ (plain_cell_small _ Hname)). cbn [ebind].
  rewrite (add_row_cell_plain _ Hid). cbn [ebind].
  rewrite (add_row_cell_plain _ Hname). cbn [ebind].
  rewrite (json_dumps_small env 2 _ Hsmall Hser). cbn [ebind].
  destruct verbose.
  - rewrite (add_row_cell_plain _ (Hnode eq_refl)). cbn [ebind].
    eexists. split; reflexivity.
  - cbn [ebind]. eexists. split; reflexivity.
Qed.

Lemma print_tool_call_cases env node verbose tool_call :
  (exists call, tool_call = PyDict call /\ dict_in "name" call = true
     /\ print_tool_call env node verbose tool_call
        = ([table_of_call node verbose call], inr tt))
  \/ (exists e, print_tool_call env node verbose tool_call = ([], inl e)
                /\ explained env e).
Proof.
  unfold print_tool_call. rewrite bind_lift.
  destruct (tool_call_table env tool_call node verbose) as [e | table] eqn:Ht.
  - right. exists e. split; [reflexivity |]. exact (tool_call_table_inl _ _ _ _ _ Ht).
  - apply tool_call_table_inr in Ht as [call [-> [Hin Htable]]].
    destruct (console_print_cases env (PrintTable table)) as [Hp | [e [Hp He]]]; rewrite Hp.
    + left. exists call. rewrite Htable. repeat split. exact Hin.
    + right. exists e. split; [reflexivity |]. now apply explained_environment.
Qed.

Lemma print_tool_call_malformed env node verbose tool_call :
  wf_tool_call tool_call = false ->
  print_tool_call env node verbose tool_call
  = ([], inl (if is_mapping tool_call then KeyError "name" else TypeError)).
Proof.
  intro H. unfold print_tool_call.
  now rewrite bind_lift, (tool_call_table_malformed env _ node verbose H).
Qed.

Lemma print_tool_call_plain env node verbose call :
  plain_call call = true ->
  (verbose = true -> plain_cell node = true) ->
  print_tool_call env node verbose (PyDict call) = ([table_of_call node verbose call], inr tt).
Proof.
  intros H Hnode. unfold print_tool_call. rewrite bind_lift.
  destruct (tool_call_table_plain env node verbose call H Hnode) as [table [-> Htable]].
  rewrite console_print_known; rewrite Htable; [reflexivity |].
  now apply table_of_call_known.
Qed.

Lemma print_tool_call_ok env node verbose call :
  ok (snd (print_tool_call env node verbose (PyDict call))) = true ->
  dict_in "name" call = true
  /\ print_tool_call env node verbose (PyDict call) = ([table_of_call node verbose call], inr tt).
Proof.
  destruct (print_tool_call_cases env node verbose (PyDict call))
    as [[call' [Hc [Hin Hp]]] | [e [Hp _]]]; rewrite Hp; [| discriminate].
  injection Hc as <-. intros _. now split.
Qed.

(** The loop over the tool calls either goes through all items, which
    are then mappings with a name, or stops at the first item whose
    round raises, with the tables of the items before it written. *)
Lemma for_each_tool_calls_cases env node verbose items :
  (exists calls, items = map PyDict calls /\ forallb (dict_in "name") calls = true
     /\ for_each items (print_tool_call env node verbose)
        = (map (table_of_call node verbose) calls, inr tt))
  \/ (exists calls bad rest e,
        items = map PyDict calls ++ bad :: rest
        /\ forallb (dict_in "name") calls = true
        /\ print_tool_call env node verbose bad = ([], inl e)
        /\ explained env e
        /\ for_each items (print_tool_call env node verbose)
           = (map (table_of_call node verbose) calls, inl e)).
Proof.
  induction items as [| item items IH].
  - left. exists []. repeat split.
  - cbn [for_each].
    destruct (print_tool_call_cases env node verbose item)
      as [[call [-> [Hin Hp]]] | [e [Hp He]]]; rewrite Hp.
    + rewrite bind_emitted.
      destruct IH as [[calls [-> [Hall Hf]]] | [calls [bad [rest [e [-> [Hall [Hb [He Hf]]]]]]]]];
        rewrite Hf; cbn [fst snd app].
      * left. exists (call :: calls). cbn [map forallb]. rewrite Hin, Hall. repeat split.
      * right. exists (call :: calls), bad, rest, e. cbn [map forallb app].
        rewrite Hin, Hall. repeat split; assumption.
    + right. exists [], item, items, e. repeat split; assumption.
Qed.

Lemma todo_row_inr env todo row :
  todo_row env todo = inr row ->
  exists d, todo = PyDict d
            /\ py_hashable (dict_get "status" (PyStr "pending") d) = true
            /\ row = row_of_todo d.
Proof.
  unfold todo_row. intro H.
  exc_step H E1 key. apply py_get_inr in E1 as [d [-> ->]].
  exists d. split; [reflexivity |].
  exc_step H E2 icon. apply status_icon_inr in E2 as [Hh ->].
  split; [exact Hh |].
  exc_step H E3 piece. apply fmt_inr in E3 as ->.
  cbn [py_get ebind] in H.
  exc_step H E4 cell. apply add_row_cell_inr in E4 as ->.
  injection H as <-. reflexivity.
Qed.

Lemma todo_row_inl env todo e : todo_row env todo = inl e -> explained env e.
Proof.
  unfold todo_row. intro H.
  destruct (py_get todo "status" (PyStr "pending")) as [e1 | key] eqn:E1; cbn [ebind] in H.
  { injection H as <-. left. now apply py_get_inl in E1 as ->. }
  destruct (status_icon key) as [e2 | icon] eqn:E2; cbn [ebind] in H.
  { injection H as <-. left. now apply status_icon_inl in E2 as ->. }
  destruct (fmt env key) as [e3 | piece] eqn:E3; cbn [ebind] in H.
  { injection H as <-. apply explained_environment. exact (fmt_inl _ _ _ E3). }
  destruct (py_get todo "content" (PyStr "N/A")) as [e4 | content] eqn:E4; cbn [ebind] in H.
  { injection H as <-. left. now apply py_get_inl in E4 as ->. }
  destruct (add_row_cell content) as [e5 | cell] eqn:E5; cbn [ebind] in H; [| discriminate].
  injection H as <-. right; left. exact (add_row_cell_inl _ _ E5).
Qed.

Lemma todo_row_wf env todo : ok (todo_row env todo) = true -> wf_todo todo = true.
Proof.
  destruct (todo_row env todo) as [e | row] eqn:H; [discriminate |]. intros _.
  apply todo_row_inr in H as [d [-> [Hh _]]]. exact Hh.
Qed.

Lemma todo_row_plain env todo :
  plain_todo todo = true -> todo_row env (PyDict todo) = inr (row_of_todo todo).
Proof.
  unfold plain_todo, plain_value. intro H.
  apply andb_prop in H as [H Hcontent]. apply andb_prop in H as [Hh H].
  apply andb_prop in H as [Hsmall _].
  unfold todo_row, py_get, status_icon. cbn [ebind]. rewrite Hh. cbn [ebind].
  rewrite (fmt_small env _ Hsmall). cbn [ebind].
  rewrite (add_row_cell_plain _ Hcontent). reflexivity.
Qed.

Lemma emap_todo_rows_inr env items todo_rows :
  emap (todo_row env) items = inr todo_rows ->
  exists todos, items = map PyDict todos /\ todo_rows = map row_of_todo todos.
Proof.
  revert todo_rows. induction items as [| item items IH]; intros todo_rows H.
  - injection H as <-. now exists [].
  - cbn [emap] in H.
    exc_step H E1 row. apply todo_row_inr in E1 as [d [-> [_ ->]]].
    exc_step H E2 more. destruct (IH more eq_refl) as [todos [-> ->]].
    injection H as <-. now exists (d :: todos).
Qed.

Lemma emap_todo_rows_inl env items e :
  emap (todo_row env) items = inl e -> explained env e.
Proof.
  induction items as [| item items IH]; intro H; [discriminate |].
  cbn [emap] in H.
  destruct (todo_row env item) as [e1 | row] eqn:E1; cbn [ebind] in H.
  { injection H as <-. exact (todo_row_inl _ _ _ E1). }
  destruct (emap (todo_row env) items) as [e2 | more]; cbn [ebind] in H; [| discriminate].
  injection H as <-. now apply IH.
Qed.

Lemma emap_todo_rows_plain env todos :
  forallb plain_todo todos = true ->
  emap (todo_row env) (map PyDict todos) = inr (map row_of_todo todos).
Proof.
  induction todos as [| todo todos IH]; intro H; [reflexivity |].
  cbn [forallb] in H. apply andb_prop in H as [Ht Hrest].
  cbn [map emap]. now rewrite (todo_row_plain env _ Ht), (IH Hrest).
Qed.

Lemma todo_rows_known todos :
  forallb plain_todo todos = true ->
  forallb (forallb cell_ok) (map row_of_todo todos) = true.
Proof.
  induction todos as [| todo todos IH]; intro H; [reflexivity |].
  cbn [forallb] in H. apply andb_prop in H as [Ht Hrest].
  cbn [map forallb]. rewrite (IH Hrest), andb_true_r.
  unfold plain_todo, plain_value in Ht.
  apply andb_prop in Ht as [Ht Hcontent]. apply andb_prop in Ht as [_ Ht].
  apply andb_prop in Ht as [_ Hhole].
  unfold row_of_todo. cbn [forallb]. rewrite (plain_cell_ok _ Hcontent).
  cbn [cell_ok template_ok]. rewrite Hhole. reflexivity.
Qed.

Lemma todo_table_known todos :
  forallb plain_todo todos = true -> known_ok (RichPrint (todo_table todos)) = true.
Proof.
  intro H. unfold todo_table, known_ok. cbn [title columns rows].
  now rewrite (todo_rows_known _ H).
Qed.

(** *** The panel of an interrupt *)

Lemma action_lines_inr env i action ls :
  action_lines env i action = inr ls ->
  exists d, action = PyDict d
            /\ dict_in "tool" d && dict_in "tool_call_id" d = true
            /\ ls = lines_of_action i d.
Proof.
  unfold action_lines. intro H.
  exc_step H E1 tool. apply py_getitem_inr in E1 as [d [-> [Hin1 Htool]]].
  exists d. split; [reflexivity |].
  exc_step H E2 tool_piece. apply fmt_inr in E2 as ->.
  cbn [py_getitem] in H.
  exc_step H E3 call_id. apply dict_getitem_inr in E3 as [Hin2 Hid].
  rewrite Hin1, Hin2. split; [reflexivity |].
  exc_step H E4 id_piece. apply fmt_inr in E4 as ->.
  cbn [py_get ebind] in H.
  unfold lines_of_action. rewrite (Htool PyNone), (Hid PyNone).
  destruct (py_truthy (dict_get "description" PyNone d)) eqn:Hd.
  - rewrite (dict_get_truthy _ _ Hd) in H. cbn [ebind] in H.
    exc_step H E5 description_line.
    exc_step E5 E6 d_piece. apply fmt_inr in E6 as ->. injection E5 as <-.
    exc_step H E7 code. apply json_dumps_inr in E7 as ->.
    injection H as <-. reflexivity.
  - cbn [ebind] in H.
    exc_step H E7 code. apply json_dumps_inr in E7 as ->.
    injection H as <-. reflexivity.
Qed.

Lemma action_lines_inl env i action e :
  action_lines env i action = inl e -> explained env e.
Proof.
  unfold action_lines. intro H.
  destruct (py_getitem action "tool") as [e1 | tool] eqn:E1; cbn [ebind] in H.
  { injection H as <-. left. apply py_getitem_inl in E1 as [-> | ->]; reflexivity. }
  destruct (fmt env tool) as [e2 | tool_piece] eqn:E2; cbn [ebind] in H.
  { injection H as <-. apply explained_environment. exact (fmt_inl _ _ _ E2). }
  destruct (py_getitem action "tool_call_id") as [e3 | call_id] eqn:E3; cbn [ebind] in H.
  { injection H as <-. left. apply py_getitem_inl in E3 as [-> | ->]; reflexivity. }
  destruct (fmt env call_id) as [e4 | id_piece] eqn:E4; cbn [ebind] in H.
  { injection H as <-. apply explained_environment. exact (fmt_inl _ _ _ E4). }
  destruct (py_get action "description" PyNone) as [e5 | description] eqn:E5;
    cbn [ebind] in H.
  { injection H as <-. left. now apply py_get_inl in E5 as ->. }
  match type of H with
  | ebind ?c _ = _ => destruct c as [e6 | description_line] eqn:E6; cbn [ebind] in H
  end.
  { injection H as <-. destruct (py_truthy description) eqn:Hd; [| discriminate].
    apply py_getitem_inr in E1 as [entries [-> _]].
    cbn [py_get] in E5. injection E5 as <-.
    cbn [py_getitem] in E6. rewrite (dict_get_truthy _ _ Hd) in E6. cbn [ebind] in E6.
    destruct (fmt env (dict_get "description" PyNone entries)) as [e8 | d_piece] eqn:E8;
      cbn [ebind] in E6; [| discriminate].
    injection E6 as <-. apply explained_environment. exact (fmt_inl _ _ _ E8). }
  destruct (py_get action "args" (PyDict [])) as [e9 | args] eqn:E9; cbn [ebind] in H.
  { injection H as <-. left. now apply py_get_inl in E9 as ->. }
  destruct (json_dumps env 6 args) as [e10 | code] eqn:E10; cbn [ebind] in H; [| discriminate].
  injection H as <-. apply json_dumps_inl in E10 as [-> | E10];
    [now left | now apply explained_environment].
Qed.

Lemma config_line_inr i config ls :
  config_line i config = inr ls ->
  exists d, config = PyDict d /\ wf_config (PyDict d) = true /\ ls = line_of_config i d.
Proof.
  unfold config_line. intro H.
  exc_step H E1 allowed. apply py_get_inr in E1 as [d [-> ->]].
  exists d. split; [reflexivity |].
  exc_step H E2 joined. injection H as <-.
  unfold py_join in E2.
  exc_step E2 E3 items. exc_step E2 E4 ss. injection E2 as <-.
  apply all_str_inr in E4 as [Hall ->].
  unfold wf_config, all_items, line_of_config, allowed_text. rewrite E3.
  split; [exact Hall | reflexivity].
Qed.

Lemma config_line_inl i config e : config_line i config = inl e -> lookup_exception e = true.
Proof.
  unfold config_line. intro H.
  destruct (py_get config "allowed_decisions" (PyList [])) as [e1 | allowed] eqn:E1;
    cbn [ebind] in H.
  { injection H as <-. now apply py_get_inl in E1 as ->. }
  destruct (py_join ", " allowed) as [e2 | joined] eqn:E2; cbn [ebind] in H; [| discriminate].
  injection H as <-. now apply py_join_inl in E2 as ->.
Qed.

Lemma enum_lines_inr f (g : nat -> Dict -> list FString) (q : Dict -> bool) :
  (forall i x ls, f i x = inr ls -> exists d, x = PyDict d /\ q d = true /\ ls = g i d) ->
  forall l i ls,
    enum_lines f i l = inr ls ->
    exists ds, l = map PyDict ds /\ forallb q ds = true /\ ls = numbered g i ds.
Proof.
  intro Hf. induction l as [| x rest IH]; intros i ls H.
  - injection H as <-. now exists [].
  - cbn [enum_lines] in H.
    exc_step H E1 head_lines. apply Hf in E1 as [d [-> [Hq ->]]].
    exc_step H E2 more. apply IH in E2 as [ds [-> [Hall ->]]].
    injection H as <-. exists (d :: ds). cbn [map forallb numbered].
    rewrite Hq, Hall. repeat split.
Qed.

Lemma enum_lines_inl f (P : PyExn -> Prop) :
  (forall i x e, f i x = inl e -> P e) ->
  forall l i e, enum_lines f i l = inl e -> P e.
Proof.
  intro Hf. induction l as [| x rest IH]; intros i e H; [discriminate |].
  cbn [enum_lines] in H.
  destruct (f i x) as [e1 | head_lines] eqn:E1; cbn [ebind] in H.
  { injection H as <-. exact (Hf _ _ _ E1). }
  destruct (enum_lines f (S i) rest) as [e2 | more] eqn:E2; cbn [ebind] in H; [| discriminate].
  injection H as <-. exact (IH _ _ E2).
Qed.

(** A value that is a true value and can be iterated has items. *)
Lemma truthy_items v items :
  py_truthy v = true -> py_iter v = inr items -> items <> [].
Proof.
  destruct v; simpl; try discriminate.
  - destruct s; [discriminate |]. intros _ H. injection H as <-.
    cbn [utf8_chars map]. destruct (utf8_chars s) as [| [| b t] cs]; try discriminate.
    destruct (is_continuation b); discriminate.
  - destruct content; [discriminate |]. intros _ H. injection H as <-. discriminate.
  - destruct items0; [discriminate |]. intros _ H. injection H as <-. discriminate.
  - destruct entries; [discriminate |]. intros _ H. injection H as <-. discriminate.
Qed.

(** A value that is no true value and can be iterated has no item. *)
Lemma falsy_items v items :
  py_truthy v = false -> py_iter v = inr items -> items = [].
Proof.
  destruct v; simpl; try discriminate.
  - destruct s; [| discriminate]. intros _ H. now injection H as <-.
  - destruct content; [| discriminate]. intros _ H. now injection H as <-.
  - destruct items0; [| discriminate]. intros _ H. now injection H as <-.
  - destruct entries; [| discriminate]. intros _ H. now injection H as <-.
Qed.

Lemma wf_action_mapping d :
  wf_action (PyDict d) = dict_in "tool" d && dict_in "tool_call_id" d.
Proof. reflexivity. Qed.

(** What [panel_content] returns: the lines of the action requests
    and of the review configs, which are then mappings of the shape the
    lookups rely on, or no line for a list that is no true value. *)
Lemma panel_content_inr env interrupt_data content :
  panel_content env interrupt_data = inr content ->
  exists payload actions configs,
    interrupt_data = PyDict payload
    /\ (if py_truthy (dict_get "action_requests" (PyList []) payload)
        then py_iter (dict_get "action_requests" (PyList []) payload)
             = inr (map PyDict actions)
        else actions = [])
    /\ (if py_truthy (dict_get "review_configs" (PyList []) payload)
        then py_iter (dict_get "review_configs" (PyList []) payload)
             = inr (map PyDict configs)
        else configs = [])
    /\ forallb (fun action => wf_action (PyDict action)) actions = true
    /\ forallb (fun config => wf_config (PyDict config)) configs = true
    /\ content = interrupt_lines actions configs.
Proof.
  unfold panel_content. intro H.
  exc_step H E1 action_requests. apply py_get_inr in E1 as [payload [-> ->]].
  cbn [py_get ebind] in H.
  exc_step H E2 action_section. exc_step H E3 config_section. injection H as <-.
  exists payload.
  assert (Ha : exists actions,
             (if py_truthy (dict_get "action_requests" (PyList []) payload)
              then py_iter (dict_get "action_requests" (PyList []) payload)
                   = inr (map PyDict actions)
              else actions = [])
             /\ forallb (fun action => wf_action (PyDict action)) actions = true
             /\ action_section
                = match actions with
                  | [] => []
                  | _ => [Lit "[bold yellow]Action Requests:[/bold yellow]"]
                         :: numbered lines_of_action 0 actions
                  end).
  { destruct (py_truthy (dict_get "action_requests" (PyList []) payload)) eqn:Ht.
    - exc_step E2 E4 items. exc_step E2 E5 ls. injection E2 as <-.
      apply (enum_lines_inr (action_lines env) lines_of_action
               (fun d => dict_in "tool" d && dict_in "tool_call_id" d)
               (action_lines_inr env)) in E5 as [ds [-> [Hall ->]]].
      exists ds. split; [reflexivity |]. split; [exact Hall |].
      pose proof (truthy_items _ _ Ht E4) as Hne.
      destruct ds; [now elim Hne | reflexivity].
    - injection E2 as <-. exists []. repeat split. }
  assert (Hc : exists configs,
             (if py_truthy (dict_get "review_configs" (PyList []) payload)
              then py_iter (dict_get "review_configs" (PyList []) payload)
                   = inr (map PyDict configs)
              else configs = [])
             /\ forallb (fun config => wf_config (PyDict config)) configs = true
             /\ config_section
                = match configs with
                  | [] => []
                  | _ => [Lit (newline ^^ "[bold cyan]Review Configs:[/bold cyan]")]
                         :: numbered line_of_config 0 configs
                  end).
  { destruct (py_truthy (dict_get "review_configs" (PyList []) payload)) eqn:Ht.
    - exc_step E3 E4 items. exc_step E3 E5 ls. injection E3 as <-.
      apply (enum_lines_inr config_line line_of_config
               (fun d => wf_config (PyDict d)) config_line_inr) in E5
        as [ds [-> [Hall ->]]].
      exists ds. split; [reflexivity |]. split; [exact Hall |].
      pose proof (truthy_items _ _ Ht E4) as Hne.
      destruct ds; [now elim Hne | reflexivity].
    - injection E3 as <-. exists []. repeat split. }
  destruct Ha as [actions [Ha1 [Ha2 ->]]]. destruct Hc as [configs [Hc1 [Hc2 ->]]].
  exists actions, configs. repeat split; assumption.
Qed.

Lemma panel_content_inl env interrupt_data e :
  panel_content env interrupt_data = inl e -> explained env e.
Proof.
  unfold panel_content. intro H.
  destruct (py_get interrupt_data "action_requests" (PyList [])) as [e1 | action_requests]
    eqn:E1; cbn [ebind] in H.
  { injection H as <-. left. now apply py_get_inl in E1 as ->. }
  destruct (py_get interrupt_data "review_configs" (PyList [])) as [e2 | review_configs]
    eqn:E2; cbn [ebind] in H.
  { injection H as <-. left. now apply py_get_inl in E2 as ->. }
  match type of H with
  | ebind ?c _ = _ => destruct c as [e3 | action_section] eqn:E3; cbn [ebind] in H
  end.
  { injection H as <-. destruct (py_truthy action_requests); [| discriminate].
    destruct (py_iter action_requests) as [e4 | items] eqn:E4; cbn [ebind] in E3.
    { injection E3 as <-. left. now apply py_iter_inl in E4 as ->. }
    destruct (enum_lines (action_lines env) 0 items) as [e5 | ls] eqn:E5; cbn [ebind] in E3;
      [| discriminate].
    injection E3 as <-.
    exact (enum_lines_inl (action_lines env) (explained env) (action_lines_inl env) _ _ _ E5). }
  match type of H with
  | ebind ?c _ = _ => destruct c as [e6 | config_section] eqn:E6; cbn [ebind] in H
  end; [| discriminate].
  injection H as <-. destruct (py_truthy review_configs); [| discriminate].
  destruct (py_iter review_configs) as [e7 | items] eqn:E7; cbn [ebind] in E6.
  { injection E6 as <-. left. now apply py_iter_inl in E7 as ->. }
  destruct (enum_lines config_line 0 items) as [e8 | ls] eqn:E8; cbn [ebind] in E6;
    [| discriminate].
  injection E6 as <-. left.
  exact (enum_lines_inl config_line (fun e => lookup_exception e = true) config_line_inl _ _ _ E8).
Qed.

Lemma forallb_map A B (f : A -> B) (p : B -> bool) (l : list A) :
  forallb p (map f l) = forallb (fun x => p (f x)) l.
Proof. induction l as [| x l IH]; simpl; [reflexivity | now rewrite IH]. Qed.

Lemma panel_content_wf env interrupt_data :
  ok (panel_content env interrupt_data) = true -> wf_interrupt interrupt_data = true.
Proof.
  destruct (panel_content env interrupt_data) as [e | content] eqn:H; [discriminate |].
  intros _.
  apply panel_content_inr in H
    as [payload [actions [configs [-> [Ha [Hc [Hwa [Hwc _]]]]]]]].
  unfold wf_interrupt, all_items.
  destruct (py_truthy (dict_get "action_requests" (PyList []) payload)); cbn [negb orb].
  - rewrite Ha, forallb_map, Hwa. cbn [andb].
    destruct (py_truthy (dict_get "review_configs" (PyList []) payload)); cbn [negb orb];
      [| reflexivity].
    now rewrite Hc, forallb_map.
  - destruct (py_truthy (dict_get "review_configs" (PyList []) payload)); cbn [negb orb];
      [| reflexivity].
    now rewrite Hc, forallb_map.
Qed.

(** *** The whole function *)

Lemma print_chunk_explained env chunk verbose e :
  raised (print_chunk env chunk verbose) = Some e ->
  explained env e /\ dropped chunk = false.
Proof.
  rewrite raised_some. unfold print_chunk, dropped.
  destruct (py_eq_str (dict_get "status" PyNone chunk) "streaming").
  - destruct (dict_in "chunk" chunk) eqn:Hc; cbn [negb andb].
    + intro H. split; [| reflexivity].
      rewrite (dict_in_getitem _ _ Hc), bind_lift in H.
      destruct verbose.
      * rewrite bind_lift in H.
        destruct (fmt env (dict_get "node" (PyStr "unknown") chunk)) as [e1 | p1] eqn:E1.
        { injection H as <-. apply explained_environment. exact (fmt_inl _ _ _ E1). }
        rewrite bind_lift in H.
        destruct (fmt env (dict_get "chunk" PyNone chunk)) as [e2 | p2] eqn:E2.
        { injection H as <-. apply explained_environment. exact (fmt_inl _ _ _ E2). }
        match type of H with
        | snd (console_print env ?p) = _ =>
            destruct (console_print_cases env p) as [Hp | [e' [Hp He]]]; rewrite Hp in H
        end; [discriminate |].
        injection H as <-. now apply explained_environment.
      * match type of H with
        | snd (console_print env ?p) = _ =>
            destruct (console_print_cases env p) as [Hp | [e' [Hp He]]]; rewrite Hp in H
        end; [discriminate |].
        injection H as <-. now apply explained_environment.
    + destruct (dict_in "tool_calls" chunk) eqn:Ht; cbn [negb andb].
      * intro H. split; [| reflexivity].
        rewrite (dict_in_getitem _ _ Ht), bind_lift, bind_lift in H.
        destruct (py_iter (dict_get "tool_calls" PyNone chunk)) as [e1 | items] eqn:E1.
        { injection H as <-. left. now apply py_iter_inl in E1 as ->. }
        destruct (for_each_tool_calls_cases env (dict_get "node" (PyStr "unknown") chunk)
                    verbose items)
          as [[calls [_ [_ Hf]]] | [calls [bad [rest [e' [_ [_ [_ [He Hf]]]]]]]]];
          rewrite Hf in H; [discriminate |].
        now injection H as <-.
      * destruct (dict_in "todo_list" chunk) eqn:Hl; cbn [negb andb]; [| discriminate].
        intro H. split; [| reflexivity].
        rewrite (dict_in_getitem _ _ Hl), bind_lift, bind_lift in H.
        destruct (py_iter (dict_get "todo_list" PyNone chunk)) as [e1 | items] eqn:E1.
        { injection H as <-. left. now apply py_iter_inl in E1 as ->. }
        rewrite bind_lift in H.
        destruct (emap (todo_row env) items) as [e2 | todo_rows] eqn:E2.
        { injection H as <-. exact (emap_todo_rows_inl _ _ _ E2). }
        match type of H with
        | snd (console_print env ?p) = _ =>
            destruct (console_print_cases env p) as [Hp | [e' [Hp He]]]; rewrite Hp in H
        end; [discriminate |].
        injection H as <-. now apply explained_environment.
  - destruct (py_eq_str (dict_get "status" PyNone chunk) "interrupt"); cbn [negb andb].
    + intro H. split; [| reflexivity]. rewrite bind_lift in H.
      destruct (panel_content env (dict_get "interrupt" (PyDict []) chunk))
        as [e1 | content] eqn:E1.
      { injection H as <-. exact (panel_content_inl _ _ _ E1). }
      match type of H with
      | snd (console_print env ?p) = _ =>
          destruct (console_print_cases env p) as [Hp | [e' [Hp He]]]; rewrite Hp in H
      end; [discriminate |].
      injection H as <-. now apply explained_environment.
    + destruct (py_eq_str (dict_get "status" PyNone chunk) "complete"); cbn [negb andb].
      * discriminate.
      * destruct (py_eq_str (dict_get "status" PyNone chunk) "error"); cbn [negb];
          [| discriminate].
        intro H. split; [| reflexivity]. rewrite bind_lift in H.
        destruct (fmt env (dict_get "error" (PyStr "Unknown error") chunk))
          as [e1 | p1] eqn:E1.
        { injection H as <-. apply explained_environment. exact (fmt_inl _ _ _ E1). }
        match type of H with
        | snd (console_print env ?p) = _ =>
            destruct (console_print_cases env p) as [Hp | [e' [Hp He]]]; rewrite Hp in H
        end; [discriminate |].
        injection H as <-. now apply explained_environment.
Qed.

Lemma status_not_streaming chunk s :
  py_eq_str (dict_get "status" PyNone chunk) s = true ->
  String.eqb s "streaming" = false ->
  py_eq_str (dict_get "status" PyNone chunk) "streaming" = false.
Proof.
  destruct (dict_get "status" PyNone chunk); try discriminate.
  cbn [py_eq_str]. intros H Hs. apply String.eqb_eq in H. now subst s0.
Qed.

Lemma mappings_of (p : Dict -> bool) items :
  forallb (fun item => match item with PyDict d => p d | _ => false end) items = true ->
  exists ds, items = map PyDict ds /\ forallb p ds = true.
Proof.
  induction items as [| item items IH]; intro H; [now exists [] |].
  cbn [forallb] in H. apply andb_prop in H as [Hi Hrest].
  destruct item; try discriminate.
  destruct (IH Hrest) as [ds [-> Hall]]. exists (entries :: ds).
  cbn [map forallb]. now rewrite Hi, Hall.
Qed.


Lemma for_each_tool_calls_plain env node verbose calls :
  forallb plain_call calls = true ->
  (verbose = true -> plain_cell node = true) ->
  for_each (map PyDict calls) (print_tool_call env node verbose)
  = (map (table_of_call node verbose) calls, inr tt).
Proof.
  intros H Hnode. induction calls as [| call calls IH]; [reflexivity |].
  cbn [forallb] in H. apply andb_prop in H as [Hc Hrest].
  cbn [map for_each]. rewrite (print_tool_call_plain env node verbose call Hc Hnode).
  now rewrite bind_emitted, (IH Hrest).
Qed.

Lemma print_chunk_wf env chunk verbose :
  ok (snd (print_chunk env chunk verbose)) = true -> well_formed chunk = true.
Proof.
  unfold print_chunk, well_formed.
  destruct (py_eq_str (dict_get "status" PyNone chunk) "streaming").
  - destruct (dict_in "chunk" chunk) eqn:Hc; [reflexivity |].
    destruct (dict_in "tool_calls" chunk) eqn:Ht.
    + rewrite (dict_in_getitem _ _ Ht), bind_lift, bind_lift. unfold all_items.
      destruct (py_iter (dict_get "tool_calls" PyNone chunk)) as [e | items];
        [discriminate |].
      destruct (for_each_tool_calls_cases env (dict_get "node" (PyStr "unknown") chunk)
                  verbose items)
        as [[calls [-> [Hall Hf]]] | [calls [bad [rest [e' [_ [_ [_ [_ Hf]]]]]]]]];
        rewrite Hf; [| discriminate].
      intros _. rewrite forallb_map. exact Hall.
    + destruct (dict_in "todo_list" chunk) eqn:Hl; [| reflexivity].
      rewrite (dict_in_getitem _ _ Hl), bind_lift, bind_lift. unfold all_items.
      destruct (py_iter (dict_get "todo_list" PyNone chunk)) as [e | items];
        [discriminate |].
      rewrite bind_lift.
      destruct (emap (todo_row env) items) as [e | todo_rows] eqn:E; [discriminate |].
      intros _.
      assert (Hok : ok (emap (todo_row env) items) = true) by now rewrite E.
      rewrite ok_emap in Hok.
      exact (forallb_imp _ _ _ _ (todo_row_wf env) Hok).
  - destruct (py_eq_str (dict_get "status" PyNone chunk) "interrupt"); [| reflexivity].
    rewrite bind_lift.
    destruct (panel_content env (dict_get "interrupt" (PyDict []) chunk))
      as [e | content] eqn:E; [discriminate |].
    intros _. apply (panel_content_wf env). now rewrite E.
Qed.

Lemma print_chunk_malformed env chunk verbose :
  well_formed chunk = false -> exists e, snd (print_chunk env chunk verbose) = inl e.
Proof.
  intro H. destruct (snd (print_chunk env chunk verbose)) as [e | u] eqn:Hp;
    [now exists e |].
  assert (Hok : ok (snd (print_chunk env chunk verbose)) = true) by now rewrite Hp.
  apply print_chunk_wf in Hok. congruence.
Qed.

Lemma print_chunk_dropped env chunk verbose :
  dropped chunk = true -> print_chunk env chunk verbose = ([], inr tt).
Proof.
  unfold dropped, print_chunk.
  destruct (py_eq_str (dict_get "status" PyNone chunk) "streaming").
  - destruct (dict_in "chunk" chunk); [discriminate |].
    destruct (dict_in "tool_calls" chunk); [discriminate |].
    destruct (dict_in "todo_list" chunk); [discriminate | reflexivity].
  - destruct (py_eq_str (dict_get "status" PyNone chunk) "interrupt"); [discriminate |].
    destruct (py_eq_str (dict_get "status" PyNone chunk) "complete"); [discriminate |].
    destruct (py_eq_str (dict_get "status" PyNone chunk) "error"); [discriminate |].
    reflexivity.
Qed.

Lemma print_chunk_complete env chunk verbose :
  is_complete chunk = true ->
  print_chunk env chunk verbose = ([PrintText [Lit complete_line] newline], inr tt).
Proof.
  unfold is_complete. intro H. unfold print_chunk.
  rewrite (status_not_streaming chunk _ H eq_refl).
  assert (Hi : py_eq_str (dict_get "status" PyNone chunk) "interrupt" = false).
  { destruct (dict_get "status" PyNone chunk); try discriminate.
    cbn [py_eq_str] in H |- *. apply String.eqb_eq in H. now subst s. }
  rewrite Hi, H. reflexivity.
Qed.

(** The text of a streaming event is written as one item. *)
Lemma print_chunk_text_ok env chunk verbose :
  selects_text chunk = true ->
  ok (snd (print_chunk env chunk verbose)) = true ->
  print_chunk env chunk verbose = ([text_item chunk verbose], inr tt).
Proof.
  unfold selects_text, print_chunk, text_item. intro H.
  apply andb_prop in H as [Hs Hc]. rewrite Hs, Hc.
  rewrite (dict_in_getitem _ _ Hc), bind_lift.
  destruct verbose.
  - rewrite bind_lift.
    destruct (fmt env (dict_get "node" (PyStr "unknown") chunk)) as [e1 | p1] eqn:E1;
      [discriminate |].
    rewrite bind_lift.
    destruct (fmt env (dict_get "chunk" PyNone chunk)) as [e2 | p2] eqn:E2; [discriminate |].
    apply fmt_inr in E1 as ->. apply fmt_inr in E2 as ->. apply console_print_ok.
  - apply console_print_ok.
Qed.

(** The tool calls of a streaming event are written as their tables. *)
Lemma print_chunk_tool_calls_ok env chunk verbose :
  selects_tool_calls chunk = true ->
  ok (snd (print_chunk env chunk verbose)) = true ->
  exists calls,
    py_iter (dict_get "tool_calls" PyNone chunk) = inr (map PyDict calls)
    /\ forallb (dict_in "name") calls = true
    /\ print_chunk env chunk verbose
       = (map (table_of_call (dict_get "node" (PyStr "unknown") chunk) verbose) calls,
          inr tt).
Proof.
  unfold selects_tool_calls, print_chunk. intro H.
  apply andb_prop in H as [H Ht]. apply andb_prop in H as [Hs Hc].
  apply negb_true_iff in Hc. rewrite Hs, Hc, Ht.
  rewrite (dict_in_getitem _ _ Ht), bind_lift, bind_lift.
  destruct (py_iter (dict_get "tool_calls" PyNone chunk)) as [e | items]; [discriminate |].
  destruct (for_each_tool_calls_cases env (dict_get "node" (PyStr "unknown") chunk)
              verbose items)
    as [[calls [-> [Hall Hf]]] | [calls [bad [rest [e' [_ [_ [_ [_ Hf]]]]]]]]];
    rewrite Hf; [| discriminate].
  intros _. exists calls. repeat split. exact Hall.
Qed.

(** The todo list of a streaming event is written as one table. *)
Lemma print_chunk_todo_list_ok env chunk verbose :
  selects_todo_list chunk = true ->
  ok (snd (print_chunk env chunk verbose)) = true ->
  exists todos,
    py_iter (dict_get "todo_list" PyNone chunk) = inr (map PyDict todos)
    /\ print_chunk env chunk verbose = ([todo_table todos], inr tt).
Proof.
  unfold selects_todo_list, print_chunk. intro H.
  apply andb_prop in H as [H Hl]. apply andb_prop in H as [H Ht].
  apply andb_prop in H as [Hs Hc].
  apply negb_true_iff in Hc, Ht. rewrite Hs, Hc, Ht, Hl.
  rewrite (dict_in_getitem _ _ Hl), bind_lift, bind_lift.
  destruct (py_iter (dict_get "todo_list" PyNone chunk)) as [e | items]; [discriminate |].
  rewrite bind_lift.
  destruct (emap (todo_row env) items) as [e | todo_rows] eqn:E; [discriminate |].
  apply emap_todo_rows_inr in E as [todos [-> ->]].
  intro H. exists todos. split; [reflexivity |]. now apply console_print_ok.
Qed.

(** An interrupt is written as one panel. *)
Lemma print_chunk_interrupt_ok env chunk verbose :
  is_interrupt chunk = true ->
  ok (snd (print_chunk env chunk verbose)) = true ->
  exists content,
    panel_content env (dict_get "interrupt" (PyDict []) chunk) = inr content
    /\ print_chunk env chunk verbose
       = ([PrintPanel (fjoin newline content) interrupt_title "yellow"], inr tt).
Proof.
  unfold is_interrupt. intro H. unfold print_chunk.
  rewrite (status_not_streaming chunk _ H eq_refl), H, bind_lift.
  destruct (panel_content env (dict_get "interrupt" (PyDict []) chunk))
    as [e | content]; [discriminate |].
  intro Hok. exists content. split; [reflexivity |]. now apply console_print_ok.
Qed.

Lemma error_not_interrupt chunk :
  is_error chunk = true -> py_eq_str (dict_get "status" PyNone chunk) "interrupt" = false.
Proof.
  unfold is_error. intro H.
  destruct (dict_get "status" PyNone chunk); try discriminate.
  apply String.eqb_eq in H; subst s. reflexivity.
Qed.

Lemma print_chunk_error env chunk verbose :
  is_error chunk = true ->
  print_chunk env chunk verbose
  = bind (lift (fmt env (dict_get "error" (PyStr "Unknown error") chunk)))
      (fun message =>
         console_print env
           (PrintPanel [Lit "[bold red]"; message; Lit "[/bold red]"] "Error" "red")).
Proof.
  intro H. unfold print_chunk.
  rewrite (status_not_streaming chunk _ H eq_refl), (error_not_interrupt _ H).
  unfold is_error in H.
  assert (Hc : py_eq_str (dict_get "status" PyNone chunk) "complete" = false).
  { destruct (dict_get "status" PyNone chunk); try discriminate.
    cbn [py_eq_str] in H |- *. apply String.eqb_eq in H. now subst s. }
  now rewrite Hc, H.
Qed.

(** An error is written as one panel. *)
Lemma print_chunk_error_ok env chunk verbose :
  is_error chunk = true ->
  ok (snd (print_chunk env chunk verbose)) = true ->
  print_chunk env chunk verbose = ([error_panel chunk], inr tt).
Proof.
  intro H. rewrite (print_chunk_error env chunk verbose H), bind_lift.
  destruct (fmt env (dict_get "error" (PyStr "Unknown error") chunk)) as [e | p] eqn:E;
    [discriminate |].
  apply fmt_inr in E as ->. apply console_print_ok.
Qed.

Lemma print_chunk_error_plain env chunk verbose :
  is_error chunk = true ->
  plain_value (dict_get "error" (PyStr "Unknown error") chunk) = true ->
  print_chunk env chunk verbose = ([error_panel chunk], inr tt).
Proof.
  intros H Hp. unfold plain_value in Hp. apply andb_prop in Hp as [Hsmall Hhole].
  rewrite (print_chunk_error env chunk verbose H), bind_lift, (fmt_small env _ Hsmall).
  apply console_print_known. unfold error_panel, known_ok. cbn [template_ok].
  rewrite Hhole. reflexivity.
Qed.

(** The cases of an event: which branch of [print_chunk] takes it. *)
Lemma event_cases chunk :
  dropped chunk = true \/ selects_text chunk = true \/ selects_tool_calls chunk = true
  \/ selects_todo_list chunk = true \/ is_interrupt chunk = true
  \/ is_complete chunk = true \/ is_error chunk = true.
Proof.
  unfold dropped, selects_text, selects_tool_calls, selects_todo_list, is_interrupt,
    is_complete, is_error.
  destruct (py_eq_str (dict_get "status" PyNone chunk) "streaming"); cbn [andb].
  - destruct (dict_in "chunk" chunk); cbn [negb andb]; [tauto |].
    destruct (dict_in "tool_calls" chunk); cbn [negb andb]; [tauto |].
    destruct (dict_in "todo_list" chunk); tauto.
  - destruct (py_eq_str (dict_get "status" PyNone chunk) "interrupt"); [tauto |].
    destruct (py_eq_str (dict_get "status" PyNone chunk) "complete"); [tauto |].
    destruct (py_eq_str (dict_get "status" PyNone chunk) "error"); tauto.
Qed.

Lemma print_chunk_blocks env chunk verbose :
  ok (snd (print_chunk env chunk verbose)) = true ->
  length (written (print_chunk env chunk verbose)) = blocks chunk.
Proof.
  intro Hok. unfold written.
  destruct (event_cases chunk) as [H | [H | [H | [H | [H | [H | H]]]]]].
  - rewrite (print_chunk_dropped env chunk verbose H). unfold blocks. now rewrite H.
  - rewrite (print_chunk_text_ok env chunk verbose H Hok).
    unfold blocks, dropped, selects_tool_calls. unfold selects_text in H.
    apply andb_prop in H as [Hs Hc]. now rewrite Hs, Hc.
  - destruct (print_chunk_tool_calls_ok env chunk verbose H Hok) as [calls [Hi [_ Hp]]].
    rewrite Hp. unfold blocks. rewrite H, Hi. cbn [fst]. rewrite !length_map.
    unfold dropped. unfold selects_tool_calls in H.
    apply andb_prop in H as [H Ht]. apply andb_prop in H as [Hs _].
    rewrite Hs, Ht. now rewrite andb_false_r.
  - destruct (print_chunk_todo_list_ok env chunk verbose H Hok) as [todos [_ Hp]].
    rewrite Hp. unfold blocks, dropped, selects_tool_calls. unfold selects_todo_list in H.
    apply andb_prop in H as [H Hl]. apply andb_prop in H as [H Ht].
    apply andb_prop in H as [Hs Hc]. apply negb_true_iff in Ht.
    rewrite Hs, Hl, Ht. now rewrite !andb_false_r.
  - destruct (print_chunk_interrupt_ok env chunk verbose H Hok) as [content [_ Hp]].
    rewrite Hp. unfold blocks, dropped, selects_tool_calls. unfold is_interrupt in H.
    now rewrite (status_not_streaming chunk _ H eq_refl), H.
  - rewrite (print_chunk_complete env chunk verbose H).
    unfold blocks, dropped, selects_tool_calls. unfold is_complete in H.
    rewrite (status_not_streaming chunk _ H eq_refl), H. now rewrite andb_false_r.
  - rewrite (print_chunk_error_ok env chunk verbose H Hok).
    unfold blocks, dropped, selects_tool_calls. unfold is_error in H.
    rewrite (status_not_streaming chunk _ H eq_refl), H. now rewrite !andb_false_r.
Qed.

Lemma print_chunk_plain env chunk verbose :
  plain_event chunk verbose = true -> ok (snd (print_chunk env chunk verbose)) = true.
Proof.
  unfold plain_event, print_chunk.
  destruct (py_eq_str (dict_get "status" PyNone chunk) "streaming").
  - destruct (dict_in "chunk" chunk) eqn:Hc.
    + intro H. apply andb_prop in H as [Hv Hk]. apply negb_true_iff in Hv. subst verbose.
      rewrite (dict_in_getitem _ _ Hc), bind_lift.
      now rewrite (console_print_known env _ Hk).
    + destruct (dict_in "tool_calls" chunk) eqn:Ht.
      * rewrite (dict_in_getitem _ _ Ht), bind_lift.
        destruct (dict_get "tool_calls" PyNone chunk); try discriminate.
        intro H. apply andb_prop in H as [Hall Hnode].
        apply mappings_of in Hall as [calls [-> Hall]].
        rewrite bind_lift. cbn [py_iter].
        rewrite (for_each_tool_calls_plain env _ verbose calls Hall); [reflexivity |].
        intro Hv. subst verbose. exact Hnode.
      * destruct (dict_in "todo_list" chunk) eqn:Hl; [| reflexivity].
        rewrite (dict_in_getitem _ _ Hl), bind_lift.
        destruct (dict_get "todo_list" PyNone chunk); try discriminate.
        intro H. apply mappings_of in H as [todos [-> Hall]].
        rewrite bind_lift. cbn [py_iter].
        rewrite bind_lift, (emap_todo_rows_plain env _ Hall).
        rewrite console_print_known; [reflexivity | exact (todo_table_known _ Hall)].
  - destruct (py_eq_str (dict_get "status" PyNone chunk) "interrupt"); [discriminate |].
    destruct (py_eq_str (dict_get "status" PyNone chunk) "complete"); [reflexivity |].
    destruct (py_eq_str (dict_get "status" PyNone chunk) "error"); [| reflexivity].
    unfold plain_value. intro Hp. apply andb_prop in Hp as [Hsmall Hhole].
    rewrite bind_lift, (fmt_small env _ Hsmall).
    rewrite console_print_known; [reflexivity |].
    unfold known_ok. cbn [template_ok]. rewrite Hhole. reflexivity.
Qed.

(** ** [print_chunk]: what raises and what is rendered *)

(** C1 (amended).  [print_chunk] is not exception-free.  It drops an
    event with none of the four known statuses, and a streaming event
    with none of the three payload keys, without writing or raising;
    it renders a complete event and cannot fail on it.  On an event
    whose selected payload is malformed it always raises.  Whatever it
    raises on any event is the exception of one of its own lookups
    ([KeyError] for a missing name, tool or tool_call_id, [TypeError],
    [AttributeError]), the refusal of a table cell that is neither a str
    nor [None] ([NotRenderableError]), the [TypeError] of [json.dumps],
    or an exception of the environment: of the formatting of a value, of
    [json.dumps] or of rich's rendering.  When it returns, the event was
    well formed and has been rendered: one block, and one block per
    item for tool calls.  It returns on every plain event, whatever the
    environment is. *)
Theorem print_chunk_raises_or_renders (env : Env) (chunk : RawEvent) (verbose : bool) :
  (dropped chunk = true -> print_chunk env chunk verbose = ([], inr tt))
  /\ (is_complete chunk = true ->
      print_chunk env chunk verbose = ([PrintText [Lit complete_line] newline], inr tt))
  /\ (well_formed chunk = false -> raised (print_chunk env chunk verbose) <> None)
  /\ (forall e, raised (print_chunk env chunk verbose) = Some e ->
        dropped chunk = false
        /\ (lookup_exception e = true \/ e = NotRenderableError
            \/ exists call, known_ok call = false /\ env call = Some e))
  /\ (raised (print_chunk env chunk verbose) = None ->
        well_formed chunk = true
        /\ length (written (print_chunk env chunk verbose)) = blocks chunk)
  /\ (plain_event chunk verbose = true -> raised (print_chunk env chunk verbose) = None).
Proof.
  split; [apply print_chunk_dropped |].
  split; [apply print_chunk_complete |].
  split.
  { intros H Hr. apply raised_ok in Hr. apply print_chunk_wf in Hr. congruence. }
  split.
  { intros e H. destruct (print_chunk_explained env chunk verbose e H) as [He Hd].
    split; [exact Hd | exact He]. }
  split.
  { intro H. apply raised_ok in H. split.
    - exact (print_chunk_wf env chunk verbose H).
    - exact (print_chunk_blocks env chunk verbose H). }
  intro H. apply raised_ok. exact (print_chunk_plain env chunk verbose H).
Qed.

Lemma print_chunk_raises_or_renders_witness :
  print_chunk oops_env [("status", PyStr "heartbeat")] false = ([], inr tt)
  /\ raised (print_chunk oops_env nameless_tool_event true) <> None
  /\ (lookup_exception MarkupError = true \/ MarkupError = NotRenderableError
      \/ exists call, known_ok call = false /\ oops_env call = Some MarkupError)
  /\ length (written (print_chunk oops_env tool_event true)) = blocks tool_event
  /\ raised (print_chunk oops_env tool_event true) = None.
Proof.
  split.
  { apply (proj1 (print_chunk_raises_or_renders oops_env [("status", PyStr "heartbeat")]
                    false)).
    reflexivity. }
  split.
  { apply (proj1 (proj2 (proj2 (print_chunk_raises_or_renders oops_env nameless_tool_event
                                  true)))).
    reflexivity. }
  split.
  { apply (proj1 (proj2 (proj2 (proj2 (print_chunk_raises_or_renders oops_env oops_event
                                         false)))) MarkupError).
    reflexivity. }
  split.
  { apply (proj1 (proj2 (proj2 (proj2 (proj2 (print_chunk_raises_or_renders oops_env
                                                tool_event true)))))).
    reflexivity. }
  apply (proj2 (proj2 (proj2 (proj2 (proj2 (print_chunk_raises_or_renders oops_env
                                              tool_event true)))))).
  reflexivity.
Defined.

(** C1 as stated fails.  A streaming event whose tool call has no name
    is a RawEvent on which [print_chunk] raises [KeyError]; one whose
    tool call has a number as id makes [add_row] raise
    [NotRenderableError]; an error event whose message holds a closing
    tag that closes nothing makes rich raise [MarkupError]. *)
Lemma print_chunk_raises_on_nameless_tool_call :
  print_chunk oops_env nameless_tool_event false = ([], inl (KeyError "name"))
  /\ raised (print_chunk oops_env nameless_tool_event true) = Some (KeyError "name")
  /\ print_chunk oops_env numbered_tool_event false = ([], inl NotRenderableError)
  /\ print_chunk oops_env oops_event false = ([], inl MarkupError).
Proof. repeat split. Qed.

(** ** Priority of the streaming payloads *)

Lemma lookup_restrict_keys keys k d :
  dict_lookup k (restrict_keys keys d)
  = if existsb (String.eqb k) keys then dict_lookup k d else None.
Proof.
  induction d as [| [k' v] rest IH]; simpl.
  - destruct (existsb (String.eqb k) keys); reflexivity.
  - destruct (String.eqb k k') eqn:Hk.
    + apply String.eqb_eq in Hk; subst k'.
      destruct (existsb (String.eqb k) keys) eqn:Hin; simpl.
      * now rewrite String.eqb_refl.
      * rewrite IH, ?Hin. reflexivity.
    + destruct (existsb (String.eqb k') keys); simpl; [rewrite Hk |]; exact IH.
Qed.

Lemma dict_get_restrict keys k default d :
  existsb (String.eqb k) keys = true ->
  dict_get k default (restrict_keys keys d) = dict_get k default d.
Proof. intro H. unfold dict_get. now rewrite lookup_restrict_keys, H. Qed.

Lemma dict_in_restrict keys k d :
  dict_in k (restrict_keys keys d) = existsb (String.eqb k) keys && dict_in k d.
Proof.
  unfold dict_in. rewrite lookup_restrict_keys.
  destruct (existsb (String.eqb k) keys); reflexivity.
Qed.

Lemma dict_getitem_restrict keys k d :
  existsb (String.eqb k) keys = true ->
  dict_getitem k (restrict_keys keys d) = dict_getitem k d.
Proof. intro H. unfold dict_getitem. now rewrite lookup_restrict_keys, H. Qed.




(** ** Tool calls *)

(** The keys keep the order of the payload (q before limit) and the
    entries are indented by two spaces. *)
Example json_text_keeps_payload_order :
  json_text 2 (PyDict [("q", PyStr "x"); ("limit", PyInt 3)])
  = "{" ^^ newline
    ^^ "  " ^^ dquote ^^ "q" ^^ dquote ^^ ": " ^^ dquote ^^ "x" ^^ dquote ^^ "," ^^ newline
    ^^ "  " ^^ dquote ^^ "limit" ^^ dquote ^^ ": 3" ^^ newline
    ^^ "}".
Proof. reflexivity. Qed.

Lemma add_row_cell_is_cell v : ok (add_row_cell v) = is_cell v.
Proof. destruct v; reflexivity. Qed.

Lemma map_PyDict_inj (l l' : list Dict) : map PyDict l = map PyDict l' -> l = l'.
Proof.
  revert l'. induction l as [| d l IH]; intros [| d' l'] H; try discriminate; [reflexivity |].
  cbn [map] in H. injection H as -> H. now rewrite (IH _ H).
Qed.






(** X10.  The tables of tool calls are written one by one.  When a call
    of the list is malformed and the calls before it render, their
    tables are already on the console, in order, when the exception is
    raised: [KeyError] for a mapping without a name, [TypeError] for an
    item that is no mapping.  The calls after it are not rendered. *)
Theorem tool_calls_written_up_to_the_malformed_one (env : Env) (chunk : RawEvent)
    (verbose : bool) (good : list Dict) (bad : PyVal) (rest : list PyVal) :
  selects_tool_calls chunk = true ->
  dict_lookup "tool_calls" chunk = Some (PyList (map PyDict good ++ bad :: rest)) ->
  forallb (fun call =>
             ok (snd (print_tool_call env (dict_get "node" (PyStr "unknown") chunk) verbose
                        (PyDict call)))) good = true ->
  wf_tool_call bad = false ->
  print_chunk env chunk verbose
  = (map (table_of_call (dict_get "node" (PyStr "unknown") chunk) verbose) good,
     inl (if is_mapping bad then KeyError "name" else TypeError)).
Proof.
  intros Hsel Ht Hgood Hbad. unfold selects_tool_calls in Hsel.
  apply andb_prop in Hsel as [Hsel Hin]. apply andb_prop in Hsel as [Hs Hc].
  apply negb_true_iff in Hc.
  unfold print_chunk. rewrite Hs, Hc, Hin.
  unfold dict_getitem. rewrite Ht.
  rewrite bind_lift. cbn [py_iter]. rewrite bind_lift. clear Ht.
  induction good as [| call good IH].
  - cbn [map app for_each].
    now rewrite (print_tool_call_malformed env _ verbose bad Hbad).
  - cbn [forallb] in Hgood. apply andb_prop in Hgood as [Hcall Hgood].
    cbn [map app for_each].
    rewrite (proj2 (print_tool_call_ok env _ verbose call Hcall)), bind_emitted.
    now rewrite (IH Hgood).
Qed.

Lemma tool_calls_written_up_to_the_malformed_one_witness :
  print_chunk oops_env
    [("status", PyStr "streaming");
     ("tool_calls", PyList [search_call; PyStr "oops"; search_call])] false
  = ([table_of_call (PyStr "unknown") false
        [("id", PyStr "call_1"); ("name", PyStr "search");
         ("args", PyDict [("q", PyStr "x"); ("limit", PyInt 3)])]],
     inl TypeError).
Proof.
  apply (tool_calls_written_up_to_the_malformed_one oops_env
           [("status", PyStr "streaming");
            ("tool_calls", PyList [search_call; PyStr "oops"; search_call])] false
           [[("id", PyStr "call_1"); ("name", PyStr "search");
             ("args", PyDict [("q", PyStr "x"); ("limit", PyInt 3)])]]
           (PyStr "oops") [search_call] eq_refl eq_refl eq_refl eq_refl).
Defined.

(** ** What [print_chunk] reads and writes *)

(** X7.  [print_chunk] reads seven keys of an event and no other: the
    result is the same on the event with every other key removed, so a
    key the function does not know never changes what is rendered. *)
Theorem print_chunk_reads_known_keys_only (env : Env) (chunk : RawEvent) (verbose : bool) :
  print_chunk env chunk verbose = print_chunk env (restrict_keys event_keys chunk) verbose.
Proof.
  unfold print_chunk.
  rewrite !dict_in_restrict.
  rewrite !(dict_get_restrict event_keys) by reflexivity.
  rewrite !(dict_getitem_restrict event_keys) by reflexivity.
  change (existsb (String.eqb "chunk") event_keys) with true.
  change (existsb (String.eqb "tool_calls") event_keys) with true.
  change (existsb (String.eqb "todo_list") event_keys) with true.
  cbn [andb]. reflexivity.
Qed.

(** X8.  A todo-list event (streaming, no chunk, no tool_calls) whose
    todo_list is a list of mappings is rendered, when [print_chunk]
    returns, as exactly one table titled Todo List, with the columns
    Status and Task and one row per todo in the order of the list: the
    glyph of the status and the status, then the content.  A missing
    status counts as pending, a missing content as N/A, and a status
    outside pending, in_progress and completed gets the fourth glyph.
    It returns at least when the todos are plain.  When the content of
    a todo is neither a str nor [None], [print_chunk] raises and
    nothing is written. *)
Theorem todo_list_renders_one_table (env : Env) (chunk : RawEvent) (verbose : bool)
    (todos : list Dict) :
  selects_todo_list chunk = true ->
  dict_lookup "todo_list" chunk = Some (PyList (map PyDict todos)) ->
  (raised (print_chunk env chunk verbose) = None ->
   print_chunk env chunk verbose = ([todo_table todos], inr tt))
  /\ (forallb plain_todo todos = true ->
      print_chunk env chunk verbose = ([todo_table todos], inr tt))
  /\ (existsb (fun todo => negb (is_cell (dict_get "content" (PyStr "N/A") todo))) todos
      = true ->
      exists e, print_chunk env chunk verbose = ([], inl e)).
Proof.
  intros Hsel Hl.
  assert (Hp : print_chunk env chunk verbose
               = bind (lift (emap (todo_row env) (map PyDict todos)))
                   (fun todo_rows =>
                      console_print env
                        (PrintTable {| title := [Lit "Todo List"];
                                       show_header := true;
                                       columns := [("Status", "cyan"); ("Task", "white")];
                                       rows := todo_rows |}))).
  { unfold selects_todo_list in Hsel.
    apply andb_prop in Hsel as [Hsel Hin]. apply andb_prop in Hsel as [Hsel Ht].
    apply andb_prop in Hsel as [Hs Hc]. apply negb_true_iff in Hc, Ht.
    unfold print_chunk. rewrite Hs, Hc, Ht, Hin.
    unfold dict_getitem. rewrite Hl. rewrite bind_lift. cbn [py_iter]. now rewrite bind_lift. }
  split; [| split].
  - intro Hr. apply raised_ok in Hr.
    destruct (print_chunk_todo_list_ok env chunk verbose Hsel Hr) as [todos' [Hi Hw]].
    rewrite (dict_lookup_get _ _ _ PyNone Hl) in Hi. cbn [py_iter] in Hi.
    injection Hi as Hi. apply map_PyDict_inj in Hi. now subst todos'.
  - intro Hplain. rewrite Hp, bind_lift, (emap_todo_rows_plain env _ Hplain).
    apply console_print_known. exact (todo_table_known _ Hplain).
  - intro Hbad. rewrite Hp, bind_lift.
    destruct (emap (todo_row env) (map PyDict todos)) as [e | todo_rows] eqn:E;
      [now exists e |].
    exfalso.
    assert (Hok : ok (emap (todo_row env) (map PyDict todos)) = true) by now rewrite E.
    rewrite ok_emap, forallb_map in Hok.
    apply existsb_exists in Hbad as [todo [Hin Hcell]].
    rewrite forallb_forall in Hok. specialize (Hok todo Hin).
    apply negb_true_iff in Hcell.
    unfold todo_row, py_get in Hok. cbn [ebind] in Hok.
    destruct (status_icon (dict_get "status" (PyStr "pending") todo)); [discriminate |].
    cbn [ebind] in Hok.
    destruct (fmt env (dict_get "status" (PyStr "pending") todo)); [discriminate |].
    cbn [ebind] in Hok.
    rewrite <- add_row_cell_is_cell in Hcell.
    destruct (add_row_cell (dict_get "content" (PyStr "N/A") todo)); discriminate.
Qed.

Lemma todo_list_renders_one_table_witness :
  print_chunk oops_env todo_event false
  = ([PrintTable
        {| title := [Lit "Todo List"];
           show_header := true;
           columns := [("Status", "cyan"); ("Task", "white")];
           rows := [ [CellText [Lit glyph_completed; Lit " "; Fmt (PyStr "completed")];
                      CellValue (PyStr "plan")];
                     [CellText [Lit glyph_pending; Lit " "; Fmt (PyStr "pending")];
                      CellValue (PyStr "build")];
                     [CellText [Lit glyph_unknown; Lit " "; Fmt (PyStr "blocked")];
                      CellValue (PyStr "N/A")] ] |}],
      inr tt)
  /\ exists e,
       print_chunk oops_env
         [("status", PyStr "streaming"); ("todo_list", PyList [PyDict [("content", PyInt 5)]])]
         false
       = ([], inl e).
Proof.
  split.
  - apply (proj1 (proj2 (todo_list_renders_one_table oops_env todo_event false
                           [ [("status", PyStr "completed"); ("content", PyStr "plan")];
                             [("content", PyStr "build")];
                             [("status", PyStr "blocked")] ]
                           eq_refl eq_refl))).
    reflexivity.
  - apply (proj2 (proj2 (todo_list_renders_one_table oops_env
                           [("status", PyStr "streaming");
                            ("todo_list", PyList [PyDict [("content", PyInt 5)]])]
                           false [[("content", PyInt 5)]] eq_refl eq_refl))).
    reflexivity.
Defined.

Lemma print_chunk_one_write (env : Env) (chunk : RawEvent)
    (verbose : bool) :
  selects_tool_calls chunk = false ->
  print_chunk env chunk verbose = ([], inr tt)
  \/ (exists item, print_chunk env chunk verbose = ([item], inr tt))
  \/ (exists e, print_chunk env chunk verbose = ([], inl e)).
Proof.
  assert (Hprint : forall p,
            (exists item, console_print env p = ([item], inr tt))
            \/ (exists e, console_print env p = ([], inl e))).
  { intro p. destruct (console_print_cases env p) as [H | [e [H _]]];
      [left; now exists p | right; now exists e]. }
  unfold selects_tool_calls, print_chunk. intro Hsel.
  destruct (py_eq_str (dict_get "status" PyNone chunk) "streaming").
  - destruct (dict_in "chunk" chunk) eqn:Hc.
    + rewrite (dict_in_getitem _ _ Hc), bind_lift. right.
      destruct verbose; [| apply Hprint].
      rewrite bind_lift.
      destruct (fmt env (dict_get "node" (PyStr "unknown") chunk)) as [e | p1];
        [right; now exists e |].
      rewrite bind_lift.
      destruct (fmt env (dict_get "chunk" PyNone chunk)) as [e | p2];
        [right; now exists e | apply Hprint].
    + destruct (dict_in "tool_calls" chunk); [discriminate |].
      destruct (dict_in "todo_list" chunk); [| left; reflexivity].
      rewrite bind_lift. right.
      destruct (dict_getitem "todo_list" chunk) as [e | todos]; [right; now exists e |].
      rewrite bind_lift.
      destruct (py_iter todos) as [e | items]; [right; now exists e |].
      rewrite bind_lift.
      destruct (emap (todo_row env) items) as [e | todo_rows];
        [right; now exists e | apply Hprint].
  - destruct (py_eq_str (dict_get "status" PyNone chunk) "interrupt").
    + rewrite bind_lift. right.
      destruct (panel_content env (dict_get "interrupt" (PyDict []) chunk))
        as [e | content]; [right; now exists e | apply Hprint].
    + destruct (py_eq_str (dict_get "status" PyNone chunk) "complete");
        [right; apply Hprint |].
      destruct (py_eq_str (dict_get "status" PyNone chunk) "error"); [| left; reflexivity].
      rewrite bind_lift. right.
      destruct (fmt env (dict_get "error" (PyStr "Unknown error") chunk)) as [e | p];
        [right; now exists e | apply Hprint].
Qed.

(** X9.  Outside the tool-call branch [print_chunk] writes to the
    console at most once, and only after every lookup has succeeded:
    it either writes nothing and returns, or writes one item and
    returns, or raises having written nothing. *)
Theorem print_chunk_writes_once_or_raises_clean (env : Env) (chunk : RawEvent)
    (verbose : bool) :
  selects_tool_calls chunk = false ->
  print_chunk env chunk verbose = ([], inr tt)
  \/ (exists item, print_chunk env chunk verbose = ([item], inr tt))
  \/ (exists e, print_chunk env chunk verbose = ([], inl e)).
Proof. apply print_chunk_one_write. Qed.

Lemma print_chunk_writes_once_or_raises_clean_witness :
  print_chunk oops_env [("status", PyStr "interrupt"); ("interrupt", PyNone)] true
  = ([], inl AttributeError)
  /\ (print_chunk oops_env todo_event true = ([], inr tt)
      \/ (exists item, print_chunk oops_env todo_event true = ([item], inr tt))
      \/ (exists e, print_chunk oops_env todo_event true = ([], inl e))).
Proof.
  split; [reflexivity |].
  apply (print_chunk_writes_once_or_raises_clean oops_env todo_event true). reflexivity.
Defined.

(** X11.  The verbose flag changes what [print_chunk] does only for
    text and tool-call events: todo lists, interrupts, completion,
    errors and dropped events are rendered the same with and without
    it, and fail the same.  A text that renders is written with the
    node in front and a line break after it in verbose mode, and as it
    is, without a line break, otherwise; the tables of tool calls that
    render have the Node row exactly in verbose mode. *)
Theorem verbose_changes_text_and_tool_calls_only (env : Env) (chunk : RawEvent) :
  (selects_text chunk = false -> selects_tool_calls chunk = false ->
   print_chunk env chunk true = print_chunk env chunk false)
  /\ (selects_text chunk = true ->
      (renders env true chunk = true ->
       written (print_chunk env chunk true)
       = [PrintText [Lit "[dim]["; Fmt (dict_get "node" (PyStr "unknown") chunk);
                     Lit "][/dim] "; Fmt (dict_get "chunk" PyNone chunk)] newline])
      /\ (renders env false chunk = true ->
          written (print_chunk env chunk false)
          = [PrintValue (dict_get "chunk" PyNone chunk) EmptyString]))
  /\ (selects_tool_calls chunk = true ->
      forall verbose,
        renders env verbose chunk = true ->
        exists calls,
          py_iter (dict_get "tool_calls" PyNone chunk) = inr (map PyDict calls)
          /\ written (print_chunk env chunk verbose)
             = map (table_of_call (dict_get "node" (PyStr "unknown") chunk) verbose) calls).
Proof.
  split; [| split].
  - unfold selects_text, selects_tool_calls, print_chunk.
    destruct (py_eq_str (dict_get "status" PyNone chunk) "streaming"); cbn [andb];
      [| reflexivity].
    destruct (dict_in "chunk" chunk); cbn [negb andb]; [discriminate |].
    destruct (dict_in "tool_calls" chunk); [discriminate | reflexivity].
  - intro Hsel. split; intro Hr.
    + now rewrite (print_chunk_text_ok env chunk true Hsel Hr).
    + now rewrite (print_chunk_text_ok env chunk false Hsel Hr).
  - intros Hsel verbose Hr.
    destruct (print_chunk_tool_calls_ok env chunk verbose Hsel Hr) as [calls [Hi [_ Hp]]].
    exists calls. now rewrite Hp.
Qed.

Lemma verbose_changes_text_and_tool_calls_only_witness :
  print_chunk oops_env pause_event true = print_chunk oops_env pause_event false
  /\ print_chunk oops_env oops_event true = print_chunk oops_env oops_event false
  /\ written (print_chunk oops_env text_event false) = [PrintValue (PyStr "Hi") EmptyString]
  /\ exists calls,
       py_iter (dict_get "tool_calls" PyNone tool_event) = inr (map PyDict calls)
       /\ written (print_chunk oops_env tool_event true)
          = map (table_of_call (dict_get "node" (PyStr "unknown") tool_event) true) calls.
Proof.
  split; [| split; [| split]].
  - apply (proj1 (verbose_changes_text_and_tool_calls_only oops_env pause_event));
      reflexivity.
  - apply (proj1 (verbose_changes_text_and_tool_calls_only oops_env oops_event));
      reflexivity.
  - apply (proj2 (proj1 (proj2 (verbose_changes_text_and_tool_calls_only oops_env
                                  text_event)) eq_refl)).
    reflexivity.
  - apply (proj2 (proj2 (verbose_changes_text_and_tool_calls_only oops_env tool_event))
             eq_refl true).
    reflexivity.
Defined.

(** ** The panel of an interrupt *)

(** X19.  An interrupt event whose payload is a mapping, with lists of
    mappings as action requests and review configs, is rendered, when
    [print_chunk] returns, as exactly one yellow panel.  Its body lists
    the action requests under their heading, numbered from 1 in the
    order of the list (tool, id, the description only when it is a true
    value, the args as the text of json.dumps with indent 6), then the
    review configs under theirs, numbered from 1, with the allowed
    decisions joined by commas.  A heading is left out when its list is
    empty.  The action requests then have a tool and a tool_call_id and
    the allowed decisions are strings.  When [print_chunk] raises,
    nothing is written. *)
Theorem interrupt_renders_numbered_panel (env : Env) (chunk : RawEvent) (verbose : bool)
    (payload : Dict) (actions configs : list Dict) :
  is_interrupt chunk = true ->
  dict_get "interrupt" (PyDict []) chunk = PyDict payload ->
  dict_get "action_requests" (PyList []) payload = PyList (map PyDict actions) ->
  dict_get "review_configs" (PyList []) payload = PyList (map PyDict configs) ->
  (raised (print_chunk env chunk verbose) = None ->
   print_chunk env chunk verbose = ([interrupt_panel actions configs], inr tt)
   /\ forallb (fun action => wf_action (PyDict action)) actions = true
   /\ forallb (fun config => wf_config (PyDict config)) configs = true)
  /\ (forall e, raised (print_chunk env chunk verbose) = Some e ->
        print_chunk env chunk verbose = ([], inl e)).
Proof.
  intros Hi Hp Ha Hc. split.
  - intro Hr. apply raised_ok in Hr.
    destruct (print_chunk_interrupt_ok env chunk verbose Hi Hr) as [content [Hcontent Hw]].
    rewrite Hp in Hcontent.
    apply panel_content_inr in Hcontent
      as [payload' [actions' [configs' [Hpay [Ha' [Hc' [Hwa [Hwc ->]]]]]]]].
    injection Hpay as <-. rewrite Ha in Ha'. rewrite Hc in Hc'.
    assert (Hea : actions' = actions).
    { destruct actions as [| action actions]; cbn [map py_truthy py_iter] in Ha'.
      - exact Ha'.
      - injection Ha' as Ha'. symmetry. now apply map_PyDict_inj. }
    assert (Hec : configs' = configs).
    { destruct configs as [| config configs]; cbn [map py_truthy py_iter] in Hc'.
      - exact Hc'.
      - injection Hc' as Hc'. symmetry. now apply map_PyDict_inj. }
    subst actions' configs'. rewrite Hw. repeat split; assumption.
  - intros e Hr.
    assert (Hsel : selects_tool_calls chunk = false).
    { unfold selects_tool_calls. unfold is_interrupt in Hi.
      now rewrite (status_not_streaming chunk _ Hi eq_refl). }
    apply raised_some in Hr.
    destruct (print_chunk_one_write env chunk verbose Hsel)
      as [H | [[item H] | [e' H]]]; rewrite H in Hr |- *; try discriminate.
    now injection Hr as <-.
Qed.

Lemma interrupt_renders_numbered_panel_witness :
  print_chunk oops_env pause_event false
  = ([interrupt_panel [[("tool", PyStr "search"); ("tool_call_id", PyStr "1");
                        ("args", PyDict [("q", PyStr "x")])]] []], inr tt).
Proof.
  apply (proj1 (interrupt_renders_numbered_panel oops_env pause_event false
                  pause_entries
                  [[("tool", PyStr "search"); ("tool_call_id", PyStr "1");
                    ("args", PyDict [("q", PyStr "x")])]] []
                  eq_refl eq_refl eq_refl eq_refl)).
  reflexivity.
Defined.

(** ** The rounds of the run loop *)

Lemma control_app (l l' : list Obs) : control (l ++ l') = control l ++ control l'.
Proof. apply filter_app. Qed.

Lemma control_out (w : list Printed) : control (map Out w) = [].
Proof. induction w as [| p w IH]; [reflexivity | exact IH]. Qed.

Lemma control_stream input_data log :
  control (Stream input_data :: log) = Stream input_data :: control log.
Proof. reflexivity. Qed.

Lemma control_ask interrupt_data log :
  control (Ask interrupt_data :: log) = Ask interrupt_data :: control log.
Proof. reflexivity. Qed.

Lemma count_asks_app (l l' : list Obs) : count_asks (l ++ l') = count_asks l + count_asks l'.
Proof. unfold count_asks. now rewrite filter_app, length_app. Qed.

Lemma count_asks_out (w : list Printed) : count_asks (map Out w) = 0.
Proof. induction w as [| p w IH]; [reflexivity | exact IH]. Qed.

Lemma count_streams_out (w : list Printed) : count_streams (map Out w) = 0.
Proof. induction w as [| p w IH]; [reflexivity | exact IH]. Qed.

Lemma count_resumes_out (w : list Printed) : count_resumes (map Out w) = 0.
Proof. induction w as [| p w IH]; [reflexivity | exact IH]. Qed.

Lemma count_streams_app (l l' : list Obs) :
  count_streams (l ++ l') = count_streams l + count_streams l'.
Proof. unfold count_streams. now rewrite filter_app, length_app. Qed.

Lemma count_streams_stream input_data log :
  count_streams (Stream input_data :: log) = S (count_streams log).
Proof. reflexivity. Qed.

Lemma count_streams_ask interrupt_data log :
  count_streams (Ask interrupt_data :: log) = count_streams log.
Proof. reflexivity. Qed.

Lemma count_asks_stream input_data log :
  count_asks (Stream input_data :: log) = count_asks log.
Proof. reflexivity. Qed.

Lemma count_asks_ask interrupt_data log :
  count_asks (Ask interrupt_data :: log) = S (count_asks log).
Proof. reflexivity. Qed.

Section Rounds.

Variable env : Env.
Variable json_loads : string -> LoadsFailure + PyVal.
Variables Graph Config : Type.
Variable stream : Graph -> RunInput -> option Config -> string -> list RawEvent * Graph.

(** One round of the [while] loop, written out: the call of the
    stream, the pass over its events, and then either the end of the
    loop or the prompt followed by the next round. *)
Lemma sync_while_round config interactive verbose stream_mode script graph input_data :
  sync_while env json_loads stream config interactive verbose stream_mode script graph
    input_data
  = let pass := sync_for env verbose (fst (stream graph input_data config stream_mode))
                  false PyNone in
    match snd pass with
    | inl e => (Stream input_data :: map Out (fst pass), inl e)
    | inr (has_interrupt, interrupt_data) =>
        if has_interrupt && interactive then
          let prompt := handle_interrupt_input env json_loads interrupt_data
                          (hd_error script) in
          let log := Stream input_data :: map Out (fst pass)
                     ++ Ask interrupt_data :: map Out (fst prompt) in
          match snd prompt, script with
          | inl e, _ => (log, inl e)
          | inr _, [] => (log, inl Abort)
          | inr decision, _ :: rest =>
              let next := sync_while env json_loads stream config interactive verbose
                            stream_mode rest
                            (snd (stream graph input_data config stream_mode))
                            (DecisionBatch [decision]) in
              (log ++ fst next, snd next)
          end
        else (Stream input_data :: map Out (fst pass), inr tt)
    end.
Proof.
  destruct script as [| answer rest]; cbn [sync_while hd_error];
    destruct (stream graph input_data config stream_mode) as [chunks graph'];
    cbn [fst snd]; unfold bind at 1, emit at 1;
    unfold bind at 1, relabel at 1;
    destruct (sync_for env verbose chunks false PyNone)
      as [w [e | [has_interrupt interrupt_data]]];
    cbn [fst snd app]; try reflexivity;
    destruct (has_interrupt && interactive); cbn [ret app]; rewrite ?app_nil_r;
    try reflexivity;
    unfold bind at 1, emit at 1; unfold bind at 1, relabel at 1.
  - destruct (handle_interrupt_input env json_loads interrupt_data None) as [wp [e | d]];
      cbn [fst snd raise app]; rewrite ?app_nil_r; reflexivity.
  - destruct (handle_interrupt_input env json_loads interrupt_data (Some answer))
      as [wp [e | d]]; cbn [fst snd app]; [reflexivity |].
    destruct (sync_while env json_loads stream config interactive verbose stream_mode rest
                graph' (DecisionBatch [d])) as [wn rn].
    cbn [fst snd app]. rewrite <- !app_assoc. reflexivity.
Qed.

End Rounds.

(** ** The decision prompt *)

(** The custom choice, written out. *)
Lemma handle_interrupt_input_custom env json_loads payload answer :
  choice answer = 3%Z ->
  handle_interrupt_input env json_loads (PyDict payload) (Some answer)
  = match json_loads (decision_json answer) with
    | inr decision => (menu ++ [json_request], inr decision)
    | inl (JSONDecodeError message) =>
        match ask env (RichPrint (invalid_json_line message)) with
        | None => (menu ++ [json_request; invalid_json_line message], inr reject)
        | Some e => (menu ++ [json_request], inl e)
        end
    | inl (NotCaught e) => (menu ++ [json_request], inl e)
    end.
Proof.
  intro H. unfold handle_interrupt_input. rewrite H.
  destruct (json_loads (decision_json answer)) as [[message | e] | v]; try reflexivity.
  unfold console_print, invalid_json_line.
  destruct (ask env
              (RichPrint (PrintText [Lit "[red]Invalid JSON: "; Fmt (PyStr message);
                                     Lit "[/red]"] newline))); reflexivity.
Qed.

(** C6 (amended).  With choice 3 and a text on which json.loads raises
    [JSONDecodeError], [handle_interrupt_input] writes the menu and the
    request for JSON, reports the decode error and returns the reject
    decision, unless rich refuses the line of the report: it does not
    when the message holds no opening bracket; when it does, its
    exception leaves the function.  A failure of json.loads that is no
    [JSONDecodeError] is not caught: [RecursionError] on text nested too
    deeply and [ValueError] on an integer literal too long leave the
    function after the request for JSON, and no decision is returned. *)
Theorem custom_decision_parse_failure_rejects (env : Env)
    (json_loads : string -> LoadsFailure + PyVal)
    (interrupt_data : Dict) (answer : Answer) :
  choice answer = 3%Z ->
  (forall message,
     json_loads (decision_json answer) = inl (JSONDecodeError message) ->
     (ask env (RichPrint (invalid_json_line message)) = None ->
      handle_interrupt_input env json_loads (PyDict interrupt_data) (Some answer)
      = (menu ++ [json_request; invalid_json_line message], inr reject))
     /\ (forall e,
           ask env (RichPrint (invalid_json_line message)) = Some e ->
           handle_interrupt_input env json_loads (PyDict interrupt_data) (Some answer)
           = (menu ++ [json_request], inl e))
     /\ (no_bracket message = true ->
         handle_interrupt_input env json_loads (PyDict interrupt_data) (Some answer)
         = (menu ++ [json_request; invalid_json_line message], inr reject)))
  /\ (forall e,
        json_loads (decision_json answer) = inl (NotCaught e) ->
        handle_interrupt_input env json_loads (PyDict interrupt_data) (Some answer)
        = (menu ++ [json_request], inl e)).
Proof.
  intro Hc. rewrite (handle_interrupt_input_custom env json_loads interrupt_data answer Hc).
  split.
  - intros message He. rewrite He. split; [| split].
    + now intros ->.
    + intros e H. now rewrite H.
    + intro H. rewrite ask_known; [reflexivity |].
      unfold invalid_json_line, known_ok. cbn [template_ok plain_hole]. now rewrite H.
  - intros e He. now rewrite He.
Qed.

Lemma custom_decision_parse_failure_rejects_witness :
  handle_interrupt_input oops_env sample_loads pause_payload
    (Some (mkAnswer 3 "not valid json"))
  = (menu ++ [ json_request;
               invalid_json_line "Expecting value: line 1 column 1 (char 0)" ],
     inr (PyDict [("type", PyStr "reject")])).
Proof.
  apply (proj2 (proj2 (proj1 (custom_decision_parse_failure_rejects oops_env sample_loads
                                pause_entries (mkAnswer 3 "not valid json") eq_refl)
                         "Expecting value: line 1 column 1 (char 0)" eq_refl))).
  reflexivity.
Defined.

(** C6 as stated fails: 100000 opening brackets are not valid JSON,
    and on them json.loads raises [RecursionError], which the handler
    for [JSONDecodeError] does not catch: the exception leaves
    [handle_interrupt_input] and no decision is returned.  The same
    happens with the [ValueError] on an integer literal of 5000
    digits. *)
Lemma custom_decision_failure_can_propagate :
  handle_interrupt_input oops_env sample_loads pause_payload
    (Some (mkAnswer 3 (brackets 100000)))
  = (menu ++ [json_request], inl RecursionError)
  /\ handle_interrupt_input oops_env sample_loads pause_payload
       (Some (mkAnswer 3 (nines 5000)))
     = (menu ++ [json_request], inl (PyValueError digits_message)).
Proof. split; vm_compute; reflexivity. Qed.

(** C9.  With any choice other than 1, 2 and 3, [handle_interrupt_input]
    writes the menu and raises [SystemExit(0)]: no decision is returned
    and nothing is asked again.  The handlers of [main] let it pass, so
    the process ends with status 0.  The run loop does not catch it
    either: a round that ends in a pause with interactive on ends the
    run with [SystemExit(0)] after one call of the stream and one call
    of the prompt. *)
Theorem other_choices_exit_process (env : Env) (json_loads : string -> LoadsFailure + PyVal)
    (Graph Config : Type)
    (stream : Graph -> RunInput -> option Config -> string -> list RawEvent * Graph)
    (interrupt_data : Dict) (answer : Answer) (config : option Config) (verbose : bool)
    (stream_mode : string) (script : list Answer) (graph : Graph) (input_data : RunInput) :
  choice answer <> 1%Z -> choice answer <> 2%Z -> choice answer <> 3%Z ->
  handle_interrupt_input env json_loads (PyDict interrupt_data) (Some answer)
  = (menu, inl (SystemExit 0))
  /\ exit_status (raised (handle_interrupt_input env json_loads (PyDict interrupt_data)
                            (Some answer))) = 0%Z
  /\ (snd (sync_for env verbose (fst (stream graph input_data config stream_mode))
             false PyNone)
      = inr (true, PyDict interrupt_data) ->
      let run := sync_while env json_loads stream config true verbose stream_mode
                   (answer :: script) graph input_data in
      raised run = Some (SystemExit 0)
      /\ count_streams (written run) = 1 /\ count_asks (written run) = 1).
Proof.
  intros H1 H2 H3.
  assert (H : handle_interrupt_input env json_loads (PyDict interrupt_data) (Some answer)
              = (menu, inl (SystemExit 0))).
  { unfold handle_interrupt_input.
    apply Z.eqb_neq in H1, H2, H3. rewrite H1, H2, H3. reflexivity. }
  split; [exact H |]. split; [now rewrite H |].
  intros Hpass run. subst run. unfold raised, written.
  rewrite sync_while_round. cbv zeta. rewrite Hpass. cbn [andb hd_error]. rewrite H.
  cbn [fst snd]. split; [reflexivity |].
  rewrite count_streams_stream, count_asks_stream, count_streams_app, count_asks_app.
  rewrite count_streams_ask, count_asks_ask, !count_streams_out, !count_asks_out.
  split; reflexivity.
Qed.

Lemma other_choices_exit_process_witness :
  handle_interrupt_input oops_env sample_loads pause_payload (Some (mkAnswer 5 EmptyString))
  = (menu, inl (SystemExit 0))
  /\ handle_interrupt_input oops_env sample_loads pause_payload
       (Some (mkAnswer 0 EmptyString))
     = (menu, inl (SystemExit 0))
  /\ raised (sync_while oops_env sample_loads sample_stream None true false "updates"
               [mkAnswer 4 EmptyString] 0 (FreshMessage "hello"))
     = Some (SystemExit 0).
Proof.
  split; [| split].
  - apply (other_choices_exit_process oops_env sample_loads nat unit sample_stream
             pause_entries (mkAnswer 5 EmptyString) None false "updates" [] 0
             (FreshMessage "hello"));
      cbn [choice]; lia.
  - apply (other_choices_exit_process oops_env sample_loads nat unit sample_stream
             pause_entries (mkAnswer 0 EmptyString) None false "updates" [] 0
             (FreshMessage "hello"));
      cbn [choice]; lia.
  - refine (proj1 (proj2 (proj2 (other_choices_exit_process oops_env sample_loads nat unit
             sample_stream pause_entries (mkAnswer 4 EmptyString) None false "updates" [] 0
             (FreshMessage "hello") _ _ _)) eq_refl)); cbn [choice]; lia.
Defined.

(** X12.  [handle_interrupt_input] reads the two arrays of the payload
    and uses neither: with the same reply of the operator it writes and
    returns the same for every two payloads that are mappings, so the
    allowed decisions of the review configs do not limit the choice.  A
    payload that is no mapping raises [AttributeError] before anything
    is written or asked. *)
Theorem prompt_ignores_the_payload (env : Env) (json_loads : string -> LoadsFailure + PyVal)
    (payload payload' : Dict) (other : PyVal) (reply : option Answer) :
  handle_interrupt_input env json_loads (PyDict payload) reply
  = handle_interrupt_input env json_loads (PyDict payload') reply
  /\ (is_mapping other = false ->
      handle_interrupt_input env json_loads other reply = ([], inl AttributeError)).
Proof.
  split; [reflexivity |].
  intro H. destruct other; try reflexivity. discriminate.
Qed.

Lemma prompt_ignores_the_payload_witness :
  handle_interrupt_input oops_env sample_loads (PyDict pause_entries)
    (Some (mkAnswer 1 EmptyString))
  = handle_interrupt_input oops_env sample_loads
      (PyDict [("review_configs",
                PyList [PyDict [("allowed_decisions", PyList [PyStr "reject"])]])])
      (Some (mkAnswer 1 EmptyString))
  /\ handle_interrupt_input oops_env sample_loads PyNone (Some (mkAnswer 1 EmptyString))
     = ([], inl AttributeError).
Proof.
  destruct (prompt_ignores_the_payload oops_env sample_loads pause_entries
              [("review_configs",
                PyList [PyDict [("allowed_decisions", PyList [PyStr "reject"])]])]
              PyNone (Some (mkAnswer 1 EmptyString))) as [Hsame Hother].
  split; [exact Hsame | exact (Hother eq_refl)].
Defined.

(** X13.  A decision that [handle_interrupt_input] returns comes from
    the operator alone: choice 1 gives approve, choice 2 gives reject,
    and choice 3 with a text that json.loads accepts gives the decoded
    value as it is, whatever its shape.  Whatever is returned is
    approve, reject or the decoded text. *)
Theorem decision_comes_from_the_operator (env : Env)
    (json_loads : string -> LoadsFailure + PyVal)
    (payload : Dict) (answer : Answer) :
  let result := handle_interrupt_input env json_loads (PyDict payload) (Some answer) in
  (choice answer = 1%Z -> result = (menu, inr approve))
  /\ (choice answer = 2%Z -> result = (menu, inr reject))
  /\ (forall decision,
        choice answer = 3%Z -> json_loads (decision_json answer) = inr decision ->
        result
        = (menu ++ [PrintText [Lit "Enter your decision as JSON (e.g., {'type': 'approve'}):"]
                      newline],
           inr decision))
  /\ (forall decision,
        snd result = inr decision ->
        decision = approve \/ decision = reject
        \/ json_loads (decision_json answer) = inr decision).
Proof.
  cbv zeta. unfold handle_interrupt_input.
  repeat split.
  - intro H. rewrite H. reflexivity.
  - intro H. rewrite H. reflexivity.
  - intros decision H Hd. rewrite H, Hd. reflexivity.
  - intros decision.
    destruct (choice answer =? 1)%Z; [intro H; injection H as <-; now left |].
    destruct (choice answer =? 2)%Z; [intro H; injection H as <-; right; now left |].
    destruct (choice answer =? 3)%Z; [| discriminate].
    destruct (json_loads (decision_json answer)) as [[message | e] | v].
    + unfold console_print.
      destruct (ask env
                  (RichPrint (PrintText [Lit "[red]Invalid JSON: "; Fmt (PyStr message);
                                         Lit "[/red]"] newline))); [discriminate |].
      intro H; injection H as <-. right; now left.
    + discriminate.
    + intro H; injection H as <-. right; now right.
Qed.

Lemma decision_comes_from_the_operator_witness :
  handle_interrupt_input oops_env sample_loads (PyDict pause_entries)
    (Some (mkAnswer 3 "true"))
  = (menu ++ [PrintText [Lit "Enter your decision as JSON (e.g., {'type': 'approve'}):"]
                newline],
     inr (PyBool true)).
Proof.
  apply (proj1 (proj2 (proj2 (decision_comes_from_the_operator oops_env sample_loads
                                pause_entries (mkAnswer 3 "true")))) (PyBool true)
           eq_refl eq_refl).
Defined.

(** ** The two drivers *)

Lemma async_for_sync_for env verbose chunks :
  forall has_interrupt interrupt_data,
    async_for env verbose chunks has_interrupt interrupt_data
    = sync_for env verbose chunks has_interrupt interrupt_data.
Proof.
  induction chunks as [| chunk rest IH]; intros; cbn [async_for sync_for]; [reflexivity |].
  destruct (py_eq_str (dict_get "status" PyNone chunk) "interrupt"); now rewrite IH.
Qed.

Section TwoDrivers.

Variable env : Env.
Variable json_loads : string -> LoadsFailure + PyVal.
Variables Graph Config : Type.
Variable stream_graph_updates :
  Graph -> RunInput -> option Config -> string -> list RawEvent * Graph.
Variable astream_graph_updates :
  Graph -> RunInput -> option Config -> string -> list RawEvent * Graph.

Hypothesis same_events : forall graph input_data config stream_mode,
  astream_graph_updates graph input_data config stream_mode
  = stream_graph_updates graph input_data config stream_mode.

Lemma async_while_sync_while config interactive verbose stream_mode script :
  forall graph input_data,
    async_while env json_loads astream_graph_updates config interactive verbose stream_mode
      script graph input_data
    = sync_while env json_loads stream_graph_updates config interactive verbose stream_mode
        script graph input_data.
Proof.
  induction script as [| answer rest IH]; intros; cbn [async_while sync_while];
    rewrite same_events;
    destruct (stream_graph_updates graph input_data config stream_mode) as [chunks graph'];
    rewrite async_for_sync_for; [reflexivity |].
  apply bind_ext; intros _. apply bind_ext; intros [has_interrupt interrupt_data].
  destruct (has_interrupt && interactive); [| reflexivity].
  apply bind_ext; intros _. apply bind_ext; intro decision. apply IH.
Qed.

(** C2.  When the two streams yield the same events, the coroutine
    and the blocking function give the same run for every frame,
    message, configuration, flags and answers of the operator: the same
    calls of the engine and of the prompt, the same console writes in
    the same order, and the same end.  [run_async_graph] and
    [run_sync_graph] are the bodies in a fresh frame. *)
Theorem sync_async_same_run graph message config interactive verbose stream_mode script :
  run_async_graph env json_loads astream_graph_updates graph message config interactive
    verbose stream_mode script
  = run_sync_graph env json_loads stream_graph_updates graph message config interactive
      verbose stream_mode script
  /\ forall frame,
       async_body env json_loads astream_graph_updates frame graph message config
         interactive verbose stream_mode script
       = sync_body env json_loads stream_graph_updates frame graph message config
           interactive verbose stream_mode script.
Proof.
  assert (H : forall frame,
             async_body env json_loads astream_graph_updates frame graph message config
               interactive verbose stream_mode script
             = sync_body env json_loads stream_graph_updates frame graph message config
                 interactive verbose stream_mode script).
  { intro frame. unfold async_body, sync_body. now rewrite async_while_sync_while. }
  split; [apply (H Unbound) | exact H].
Qed.

End TwoDrivers.

Lemma sync_async_same_run_witness :
  run_async_graph oops_env sample_loads sample_stream 0 "hello" None true false "updates"
    [mkAnswer 1 EmptyString]
  = run_sync_graph oops_env sample_loads sample_stream 0 "hello" None true false "updates"
      [mkAnswer 1 EmptyString]
  /\ async_body oops_env sample_loads sample_stream Bound 0 "hello" None true false
       "updates" [mkAnswer 1 EmptyString]
     = sync_body oops_env sample_loads sample_stream Bound 0 "hello" None true false
         "updates" [mkAnswer 1 EmptyString].
Proof.
  destruct (sync_async_same_run oops_env sample_loads nat unit sample_stream sample_stream
              (fun _ _ _ _ => eq_refl) 0 "hello" None true false "updates"
              [mkAnswer 1 EmptyString]) as [Hrun Hbody].
  split; [exact Hrun | exact (Hbody Bound)].
Defined.

(** ** Error events *)

Lemma sync_for_error env verbose chunk rest has_interrupt interrupt_data :
  is_error chunk = true ->
  sync_for env verbose (chunk :: rest) has_interrupt interrupt_data
  = bind (print_chunk env chunk verbose)
      (fun _ => sync_for env verbose rest has_interrupt interrupt_data).
Proof.
  intro H. cbn [sync_for]. now rewrite (error_not_interrupt _ H).
Qed.

Lemma sync_for_without_errors env verbose chunks :
  (forall chunk, In chunk chunks -> is_error chunk = true ->
                 renders env verbose chunk = true) ->
  forall has_interrupt interrupt_data,
    snd (sync_for env verbose (without_errors chunks) has_interrupt interrupt_data)
    = snd (sync_for env verbose chunks has_interrupt interrupt_data).
Proof.
  induction chunks as [| chunk rest IH]; intros Herr has_interrupt interrupt_data;
    [reflexivity |].
  assert (Hrest : forall c, In c rest -> is_error c = true -> renders env verbose c = true).
  { intros c Hin. apply Herr. now right. }
  unfold without_errors; cbn [filter]; fold (without_errors rest).
  destruct (is_error chunk) eqn:He; cbn [negb].
  - rewrite (sync_for_error _ _ _ _ _ _ He), snd_bind.
    pose proof (Herr chunk (or_introl eq_refl) He) as Hr. unfold renders in Hr.
    destruct (snd (print_chunk env chunk verbose)); [discriminate |].
    now apply IH.
  - cbn [sync_for]. rewrite !snd_bind.
    destruct (snd (print_chunk env chunk verbose)); [reflexivity |].
    destruct (py_eq_str (dict_get "status" PyNone chunk) "interrupt"); now apply IH.
Qed.

Section Steering.

Variable env : Env.
Variable json_loads : string -> LoadsFailure + PyVal.
Variables Graph Config : Type.
Variable stream_graph_updates :
  Graph -> RunInput -> option Config -> string -> list RawEvent * Graph.
Variable astream_graph_updates :
  Graph -> RunInput -> option Config -> string -> list RawEvent * Graph.

Lemma sync_while_without_errors
    (stream : Graph -> RunInput -> option Config -> string -> list RawEvent * Graph)
    config interactive verbose stream_mode script :
  errors_render env verbose stream ->
  forall graph input_data,
    control (fst (sync_while env json_loads (quiet stream) config interactive verbose
                    stream_mode script graph input_data))
    = control (fst (sync_while env json_loads stream config interactive verbose
                      stream_mode script graph input_data))
    /\ snd (sync_while env json_loads (quiet stream) config interactive verbose
              stream_mode script graph input_data)
       = snd (sync_while env json_loads stream config interactive verbose
                stream_mode script graph input_data).
Proof.
  intro Herr.
  induction script as [| answer rest IH]; intros; rewrite !sync_while_round; cbv zeta;
    change (fst (quiet stream graph input_data config stream_mode))
      with (without_errors (fst (stream graph input_data config stream_mode)));
    change (snd (quiet stream graph input_data config stream_mode))
      with (snd (stream graph input_data config stream_mode));
    rewrite (sync_for_without_errors env verbose _
               (Herr graph input_data config stream_mode));
    destruct (snd (sync_for env verbose (fst (stream graph input_data config stream_mode))
                     false PyNone)) as [e | [has_interrupt interrupt_data]];
    cbn [fst snd]; rewrite ?control_stream, ?control_out; try (split; reflexivity);
    destruct (has_interrupt && interactive);
    cbn [fst snd hd_error]; rewrite ?control_stream, ?control_out; try (split; reflexivity).
  - destruct (snd (handle_interrupt_input env json_loads interrupt_data None));
      cbn [fst snd];
      rewrite !control_stream, !control_app, !control_ask, !control_out;
      split; reflexivity.
  - destruct (snd (handle_interrupt_input env json_loads interrupt_data (Some answer)))
      as [e | decision]; cbn [fst snd].
    + rewrite !control_stream, !control_app, !control_ask, !control_out.
      split; reflexivity.
    + destruct (IH (snd (stream graph input_data config stream_mode))
                  (DecisionBatch [decision])) as [IHlog IHend].
      rewrite IHend. split; [| reflexivity].
      rewrite !control_app, !control_stream, !control_app, !control_ask, !control_out, IHlog.
      reflexivity.
Qed.

(** C7 (amended).  An event whose status is error is rendered as a red
    panel titled Error that holds the message (or Unknown error): this
    is what [print_chunk] has written whenever it returns on the event,
    and it returns at least when the message is plain.  The pass then
    goes on with the events after it, the pause it has seen so far
    unchanged.  An error event can also make [print_chunk] raise, when
    the formatting of the message or rich's rendering of the panel
    fails; the exception then ends the pass and the run.  Error events
    that render do not steer a run: when every error event of the
    engine renders then, for every frame, the calls of the engine and
    of the prompt, their order and their arguments, and the end of the
    run are the same as on the engine with all error events taken out
    of its streams.  This holds for both drivers. *)
Theorem error_events_do_not_steer_the_loop (chunk : RawEvent) (rest : list RawEvent)
    (has_interrupt : bool) (interrupt_data : PyVal) (frame : Binding) (graph : Graph)
    (message : string) (config : option Config) (interactive verbose : bool)
    (stream_mode : string) (script : list Answer) :
  (is_error chunk = true ->
     (renders env verbose chunk = true ->
      print_chunk env chunk verbose = ([error_panel chunk], inr tt))
     /\ (plain_value (dict_get "error" (PyStr "Unknown error") chunk) = true ->
         print_chunk env chunk verbose = ([error_panel chunk], inr tt))
     /\ (forall e, raised (print_chunk env chunk verbose) = Some e ->
           sync_for env verbose (chunk :: rest) has_interrupt interrupt_data
           = ([], inl e))
     /\ sync_for env verbose (chunk :: rest) has_interrupt interrupt_data
        = bind (print_chunk env chunk verbose)
            (fun _ => sync_for env verbose rest has_interrupt interrupt_data))
  /\ (errors_render env verbose stream_graph_updates ->
      control (written (sync_body env json_loads (quiet stream_graph_updates) frame graph
                          message config interactive verbose stream_mode script))
      = control (written (sync_body env json_loads stream_graph_updates frame graph
                            message config interactive verbose stream_mode script))
      /\ raised (sync_body env json_loads (quiet stream_graph_updates) frame graph
                   message config interactive verbose stream_mode script)
         = raised (sync_body env json_loads stream_graph_updates frame graph
                     message config interactive verbose stream_mode script))
  /\ (errors_render env verbose astream_graph_updates ->
      control (written (async_body env json_loads (quiet astream_graph_updates) frame graph
                          message config interactive verbose stream_mode script))
      = control (written (async_body env json_loads astream_graph_updates frame graph
                            message config interactive verbose stream_mode script))
      /\ raised (async_body env json_loads (quiet astream_graph_updates) frame graph
                   message config interactive verbose stream_mode script)
         = raised (async_body env json_loads astream_graph_updates frame graph
                     message config interactive verbose stream_mode script)).
Proof.
  split.
  { intro He. split; [| split; [| split]].
    - exact (print_chunk_error_ok env chunk verbose He).
    - exact (print_chunk_error_plain env chunk verbose He).
    - intros e Hr. rewrite (sync_for_error env verbose chunk rest _ _ He).
      assert (Hsel : selects_tool_calls chunk = false).
      { unfold selects_tool_calls. unfold is_error in He.
        now rewrite (status_not_streaming chunk _ He eq_refl). }
      apply raised_some in Hr.
      destruct (print_chunk_one_write env chunk verbose Hsel)
        as [H | [[item H] | [e' H]]]; rewrite H in Hr |- *; try discriminate.
      now injection Hr as <-.
    - exact (sync_for_error env verbose chunk rest _ _ He). }
  assert (Hsync : forall stream,
            errors_render env verbose stream ->
            control (written (sync_body env json_loads (quiet stream) frame graph
                                message config interactive verbose stream_mode script))
            = control (written (sync_body env json_loads stream frame graph
                                  message config interactive verbose stream_mode script))
            /\ raised (sync_body env json_loads (quiet stream) frame graph
                         message config interactive verbose stream_mode script)
               = raised (sync_body env json_loads stream frame graph
                           message config interactive verbose stream_mode script)).
  { intros stream Herr. unfold sync_body, written, raised.
    destruct frame; [split; reflexivity |].
    rewrite !fst_bind, !snd_bind. cbn [fst snd lift load_fast app].
    destruct (sync_while_without_errors stream config interactive verbose stream_mode
                script Herr graph (FreshMessage message)) as [Hlog Hend].
    rewrite Hlog, Hend. split; reflexivity. }
  split; [apply Hsync |].
  assert (Hbody : forall stream,
            async_body env json_loads stream frame graph message config interactive verbose
              stream_mode script
            = sync_body env json_loads stream frame graph message config interactive verbose
                stream_mode script).
  { intro stream. unfold async_body, sync_body.
    now rewrite (async_while_sync_while env json_loads Graph Config stream stream
                   (fun _ _ _ _ => eq_refl)). }
  rewrite (Hbody (quiet astream_graph_updates)), (Hbody astream_graph_updates).
  apply Hsync.
Qed.

End Steering.

Lemma error_events_do_not_steer_the_loop_witness :
  print_chunk oops_env error_event false
  = ([PrintPanel [Lit "[bold red]"; Fmt (PyStr "boom"); Lit "[/bold red]"] "Error" "red"],
     inr tt)
  /\ control (written (sync_body oops_env sample_loads (quiet sample_stream) Bound 0 "hello"
                         None true false "updates" [mkAnswer 1 EmptyString]))
     = control (written (sync_body oops_env sample_loads sample_stream Bound 0 "hello" None
                           true false "updates" [mkAnswer 1 EmptyString])).
Proof.
  destruct (error_events_do_not_steer_the_loop oops_env sample_loads nat unit
              sample_stream sample_stream
              error_event [] false PyNone Bound 0 "hello" None true false "updates"
              [mkAnswer 1 EmptyString]) as [Herr [Hlog _]].
  split.
  - apply (proj1 (proj2 (Herr eq_refl))). reflexivity.
  - apply Hlog. intros graph input_data config stream_mode chunk Hin He.
    destruct input_data; cbn [sample_stream fst In] in Hin.
    + destruct Hin as [<- | [<- | [<- | []]]]; try discriminate He. reflexivity.
    + destruct Hin as [<- | []]. discriminate He.
Defined.

(** C7 as stated fails.  The engine answers the fresh message with an
    error event whose message holds a closing tag that closes nothing,
    and a pause; interactive is on.  Rich refuses the panel of the
    error, so the run ends there with [MarkupError]: the prompt is not
    called.  Without the error event the same run calls the prompt,
    resumes and ends without an exception. *)
Lemma error_event_can_end_the_run :
  raised (sync_body oops_env sample_loads oops_stream Bound 0 "hello" None true false
            "updates" [mkAnswer 1 EmptyString])
  = Some MarkupError
  /\ control (written (sync_body oops_env sample_loads oops_stream Bound 0 "hello" None true
                         false "updates" [mkAnswer 1 EmptyString]))
     = [Stream (FreshMessage "hello")]
  /\ raised (sync_body oops_env sample_loads (quiet oops_stream) Bound 0 "hello" None true
               false "updates" [mkAnswer 1 EmptyString])
     = None
  /\ control (written (sync_body oops_env sample_loads (quiet oops_stream) Bound 0 "hello"
                         None true false "updates" [mkAnswer 1 EmptyString]))
     = [Stream (FreshMessage "hello"); Ask pause_payload; Stream (DecisionBatch [approve])].
Proof. repeat split. Qed.

(** ** Passes, prompts and resumes *)

Lemma pause_after_cons chunk rest state :
  pause_after (chunk :: rest) state
  = pause_after rest
      (if is_interrupt chunk then (true, dict_get "interrupt" (PyDict []) chunk) else state).
Proof. reflexivity. Qed.

Lemma pause_after_no_interrupt chunks state :
  forallb (fun chunk => negb (is_interrupt chunk)) chunks = true ->
  pause_after chunks state = state.
Proof.
  revert state. induction chunks as [| chunk rest IH]; intros state H; [reflexivity |].
  cbn [forallb] in H. apply andb_prop in H as [Hc Hrest].
  rewrite pause_after_cons. apply negb_true_iff in Hc. rewrite Hc. apply IH; exact Hrest.
Qed.

Lemma pause_after_app before after state :
  pause_after (before ++ after) state = pause_after after (pause_after before state).
Proof. apply fold_left_app. Qed.

Lemma print_chunk_renders env chunk verbose :
  renders env verbose chunk = true ->
  print_chunk env chunk verbose = (written (print_chunk env chunk verbose), inr tt).
Proof. intro H. exact (returned _ _ H). Qed.

Lemma print_chunk_fails env chunk verbose :
  renders env verbose chunk = false -> exists e, snd (print_chunk env chunk verbose) = inl e.
Proof.
  unfold renders. destruct (snd (print_chunk env chunk verbose)) as [e | u];
    [now exists e | discriminate].
Qed.

Lemma malformed_fails env chunk verbose :
  well_formed chunk = false -> renders env verbose chunk = false.
Proof.
  intro H. unfold renders.
  destruct (ok (snd (print_chunk env chunk verbose))) eqn:Hok; [| reflexivity].
  apply print_chunk_wf in Hok. congruence.
Qed.

(** A pass over events that render writes them one after the other
    and ends with the pause state of the last interrupt. *)
Lemma sync_for_renders env verbose chunks :
  forallb (renders env verbose) chunks = true ->
  forall has_interrupt interrupt_data,
    sync_for env verbose chunks has_interrupt interrupt_data
    = (concat (map (fun chunk => written (print_chunk env chunk verbose)) chunks),
       inr (pause_after chunks (has_interrupt, interrupt_data))).
Proof.
  induction chunks as [| chunk rest IH]; intros Hr has_interrupt interrupt_data;
    [reflexivity |].
  cbn [forallb] in Hr. apply andb_prop in Hr as [Hc Hrest].
  cbn [sync_for map concat]. rewrite pause_after_cons.
  rewrite (print_chunk_renders _ _ verbose Hc). unfold bind, is_interrupt.
  destruct (py_eq_str (dict_get "status" PyNone chunk) "interrupt");
    rewrite (IH Hrest); reflexivity.
Qed.

Lemma sync_for_until env verbose good bad rest :
  forallb (renders env verbose) good = true ->
  forall has_interrupt interrupt_data,
    sync_for env verbose (good ++ bad :: rest) has_interrupt interrupt_data
    = bind (concat (map (fun chunk => written (print_chunk env chunk verbose)) good), inr tt)
        (fun _ => sync_for env verbose (bad :: rest)
                    (fst (pause_after good (has_interrupt, interrupt_data)))
                    (snd (pause_after good (has_interrupt, interrupt_data)))).
Proof.
  induction good as [| chunk good IH]; intros Hr has_interrupt interrupt_data.
  - cbn [app map concat pause_after fold_left fst snd]. unfold bind.
    destruct (sync_for env verbose (bad :: rest) has_interrupt interrupt_data). reflexivity.
  - cbn [forallb] in Hr. apply andb_prop in Hr as [Hc Hgood].
    cbn [app map concat]. rewrite pause_after_cons.
    change (sync_for env verbose (chunk :: good ++ bad :: rest) has_interrupt interrupt_data)
      with (bind (print_chunk env chunk verbose)
              (fun _ => if py_eq_str (dict_get "status" PyNone chunk) "interrupt"
                        then sync_for env verbose (good ++ bad :: rest) true
                               (dict_get "interrupt" (PyDict []) chunk)
                        else sync_for env verbose (good ++ bad :: rest) has_interrupt
                               interrupt_data)).
    rewrite (print_chunk_renders _ _ verbose Hc). unfold is_interrupt.
    destruct (py_eq_str (dict_get "status" PyNone chunk) "interrupt");
      rewrite (IH Hgood); unfold bind;
      match goal with
      | |- context [sync_for env verbose (bad :: rest) ?a ?b] =>
          destruct (sync_for env verbose (bad :: rest) a b) as [w [e | found]]
      end; cbn [fst snd]; rewrite ?app_assoc; reflexivity.
Qed.

Lemma sync_for_no_interrupt env verbose chunks :
  forallb (fun chunk => negb (is_interrupt chunk)) chunks = true ->
  forall has_interrupt interrupt_data,
    match snd (sync_for env verbose chunks has_interrupt interrupt_data) with
    | inl _ => True
    | inr found => found = (has_interrupt, interrupt_data)
    end.
Proof.
  induction chunks as [| chunk rest IH]; intros Hn has_interrupt interrupt_data;
    [reflexivity |].
  cbn [forallb] in Hn. apply andb_prop in Hn as [Hc Hrest].
  cbn [sync_for]. rewrite snd_bind.
  destruct (snd (print_chunk env chunk verbose)); [exact I |].
  unfold is_interrupt in Hc. apply negb_true_iff in Hc. rewrite Hc.
  apply IH; exact Hrest.
Qed.

(** A pass over events that render, of which the last is the only
    interrupt, ends with the pause flag set and the payload of that
    event. *)
Lemma sync_for_final_interrupt env verbose before pause :
  forallb (fun chunk => negb (is_interrupt chunk) && renders env verbose chunk) before
  = true ->
  is_interrupt pause = true ->
  renders env verbose pause = true ->
  forall has_interrupt interrupt_data,
    sync_for env verbose (before ++ [pause]) has_interrupt interrupt_data
    = (concat (map (fun chunk => written (print_chunk env chunk verbose))
                 (before ++ [pause])),
       inr (true, dict_get "interrupt" (PyDict []) pause)).
Proof.
  intros Hb Hp Hw has_interrupt interrupt_data.
  destruct (forallb_both _ _ _ _ Hb) as [Hni Hr].
  assert (Hall : forallb (renders env verbose) (before ++ [pause]) = true).
  { rewrite forallb_app, Hr. cbn [forallb]. now rewrite Hw. }
  rewrite (sync_for_renders env verbose _ Hall).
  rewrite pause_after_app, (pause_after_no_interrupt _ _ Hni).
  cbn [pause_after fold_left]. now rewrite Hp.
Qed.

(** X14.  A pass renders the events in the order of the stream, each
    one completely before the next.  On events that render, the writes
    are those of the events one after the other and the pass ends with
    the pause state of the last interrupt event.  At the first event on
    which [print_chunk] raises, the pass stops with that exception:
    what the event wrote before raising is the last thing written and
    the events after it are not rendered.  A malformed event is such an
    event. *)
Theorem pass_renders_in_order_and_stops_at_failure (env : Env) (verbose : bool)
    (good : list RawEvent) (has_interrupt : bool) (interrupt_data : PyVal) :
  forallb (renders env verbose) good = true ->
  sync_for env verbose good has_interrupt interrupt_data
  = (concat (map (fun chunk => written (print_chunk env chunk verbose)) good),
     inr (pause_after good (has_interrupt, interrupt_data)))
  /\ (forall bad rest,
        renders env verbose bad = false ->
        written (sync_for env verbose (good ++ bad :: rest) has_interrupt interrupt_data)
        = concat (map (fun chunk => written (print_chunk env chunk verbose)) good)
          ++ written (print_chunk env bad verbose)
        /\ raised (sync_for env verbose (good ++ bad :: rest) has_interrupt interrupt_data)
           = raised (print_chunk env bad verbose)
        /\ raised (print_chunk env bad verbose) <> None)
  /\ (forall bad, well_formed bad = false -> renders env verbose bad = false).
Proof.
  intro Hr. split; [apply sync_for_renders; exact Hr |].
  split; [| intro bad; apply malformed_fails].
  intros bad rest Hbad.
  rewrite (sync_for_until env verbose good bad rest Hr).
  destruct (print_chunk_fails env bad verbose Hbad) as [e He].
  unfold written, raised. rewrite fst_bind, snd_bind. cbn [fst snd sync_for].
  rewrite fst_bind, snd_bind, He. rewrite app_nil_r.
  repeat split. discriminate.
Qed.

Lemma pass_renders_in_order_and_stops_at_failure_witness :
  sync_for oops_env false [text_event; error_event] false PyNone
  = (concat (map (fun chunk => written (print_chunk oops_env chunk false))
               [text_event; error_event]),
     inr (pause_after [text_event; error_event] (false, PyNone)))
  /\ raised (sync_for oops_env false ([text_event] ++ oops_event :: [pause_event])
               false PyNone)
     = raised (print_chunk oops_env oops_event false).
Proof.
  destruct (pass_renders_in_order_and_stops_at_failure oops_env false
              [text_event; error_event] false PyNone eq_refl) as [Hgood _].
  destruct (pass_renders_in_order_and_stops_at_failure oops_env false [text_event]
              false PyNone eq_refl) as [_ [Hbad _]].
  split; [exact Hgood |].
  exact (proj1 (proj2 (Hbad oops_event [pause_event] eq_refl))).
Defined.

(** X15.  When a stream whose events all render holds more than one
    interrupt event, the last one decides: after the pass the pause
    flag is set and the payload kept for the prompt is that of the last
    interrupt event, with the empty mapping for a missing interrupt
    key; the payloads of the earlier interrupt events are rendered and
    then dropped. *)
Theorem last_interrupt_decides_the_payload (env : Env) (verbose : bool)
    (before after : list RawEvent) (pause : RawEvent)
    (has_interrupt : bool) (interrupt_data : PyVal) :
  forallb (renders env verbose) (before ++ pause :: after) = true ->
  is_interrupt pause = true ->
  forallb (fun chunk => negb (is_interrupt chunk)) after = true ->
  snd (sync_for env verbose (before ++ pause :: after) has_interrupt interrupt_data)
  = inr (true, dict_get "interrupt" (PyDict []) pause).
Proof.
  intros Hr Hp Hafter.
  rewrite (sync_for_renders env verbose _ Hr). cbn [snd].
  rewrite pause_after_app, pause_after_cons, Hp.
  now rewrite (pause_after_no_interrupt _ _ Hafter).
Qed.

Lemma last_interrupt_decides_the_payload_witness :
  snd (sync_for oops_env false two_pauses_stream false PyNone) = inr (true, pause_payload).
Proof.
  apply (last_interrupt_decides_the_payload oops_env false
           [ [("status", PyStr "interrupt"); ("interrupt", PyDict [("note", PyStr "first")])];
             text_event ]
           [complete_event] pause_event false PyNone eq_refl eq_refl eq_refl).
Defined.

Lemma stream_inputs_app (l l' : list Obs) :
  stream_inputs (l ++ l') = stream_inputs l ++ stream_inputs l'.
Proof.
  induction l as [| o l IH]; [reflexivity |].
  destruct o; cbn [app stream_inputs]; now rewrite IH.
Qed.

Lemma stream_inputs_out (w : list Printed) : stream_inputs (map Out w) = [].
Proof. induction w as [| p w IH]; [reflexivity | exact IH]. Qed.


Section Passes.

Variable env : Env.
Variable json_loads : string -> LoadsFailure + PyVal.
Variables Graph Config : Type.
Variable stream_graph_updates :
  Graph -> RunInput -> option Config -> string -> list RawEvent * Graph.
Variable astream_graph_updates :
  Graph -> RunInput -> option Config -> string -> list RawEvent * Graph.

(** In a fresh frame the first statement of either driver raises:
    nothing is streamed, written or asked. *)
Lemma run_graph_unbound graph message config interactive verbose stream_mode script :
  run_sync_graph env json_loads stream_graph_updates graph message config interactive
    verbose stream_mode script
  = ([], inl (UnboundLocalError "prepare_agent_input"))
  /\ run_async_graph env json_loads astream_graph_updates graph message config interactive
       verbose stream_mode script
     = ([], inl (UnboundLocalError "prepare_agent_input")).
Proof. split; reflexivity. Qed.

(** With interactive off the loop makes one round: the call of the
    stream and the writes of the pass. *)
Lemma sync_while_non_interactive
    (stream : Graph -> RunInput -> option Config -> string -> list RawEvent * Graph)
    config verbose stream_mode script graph input_data :
  written (sync_while env json_loads stream config false verbose stream_mode script graph
             input_data)
  = Stream input_data
    :: map Out (written (sync_for env verbose
                           (fst (stream graph input_data config stream_mode))
                           false PyNone)).
Proof.
  unfold written. rewrite sync_while_round. cbv zeta.
  destruct (snd (sync_for env verbose (fst (stream graph input_data config stream_mode))
                   false PyNone)) as [e | [has_interrupt interrupt_data]];
    [reflexivity |].
  rewrite andb_false_r. reflexivity.
Qed.

(** When the stream holds no interrupt event the loop makes one round
    whatever the interactive flag is, and ends as the pass ends. *)
Lemma sync_while_no_interrupt
    (stream : Graph -> RunInput -> option Config -> string -> list RawEvent * Graph)
    config interactive verbose stream_mode script graph input_data :
  forallb (fun chunk => negb (is_interrupt chunk))
    (fst (stream graph input_data config stream_mode)) = true ->
  let pass := sync_for env verbose (fst (stream graph input_data config stream_mode))
                false PyNone in
  sync_while env json_loads stream config interactive verbose stream_mode script graph
    input_data
  = (Stream input_data :: map Out (written pass),
     match snd pass with inl e => inl e | inr _ => inr tt end).
Proof.
  intros Hn pass. rewrite sync_while_round. cbv zeta. fold pass.
  pose proof (sync_for_no_interrupt env verbose _ Hn false PyNone) as Hfound.
  fold pass in Hfound.
  destruct (snd pass) as [e | found]; [reflexivity |].
  subst found. reflexivity.
Qed.

(** When the pass ends with a pause, interactive is on and the
    operator's answer yields a decision, the round writes the pass,
    calls the prompt once with the payload, and goes on with a round
    on the one-element decision batch. *)
Lemma sync_while_pause_resumes
    (stream : Graph -> RunInput -> option Config -> string -> list RawEvent * Graph)
    config verbose stream_mode answer script graph input_data interrupt_data decision :
  let pass := sync_for env verbose (fst (stream graph input_data config stream_mode))
                false PyNone in
  let prompt := handle_interrupt_input env json_loads interrupt_data (Some answer) in
  snd pass = inr (true, interrupt_data) ->
  snd prompt = inr decision ->
  sync_while env json_loads stream config true verbose stream_mode (answer :: script) graph
    input_data
  = bind (Stream input_data :: map Out (written pass)
          ++ Ask interrupt_data :: map Out (written prompt), inr tt)
      (fun _ => sync_while env json_loads stream config true verbose stream_mode script
                  (snd (stream graph input_data config stream_mode))
                  (DecisionBatch [decision])).
Proof.
  intros pass prompt Hpass Hprompt. rewrite sync_while_round. cbv zeta.
  fold pass. rewrite Hpass. cbn [andb hd_error]. fold prompt. rewrite Hprompt.
  unfold bind.
  destruct (sync_while env json_loads stream config true verbose stream_mode script
              (snd (stream graph input_data config stream_mode))
              (DecisionBatch [decision])); reflexivity.
Qed.

(** Once the loop is entered, a run whose stream holds no interrupt
    event is one call of the stream and one pass over its events; the
    prompt is not called, whatever the interactive flag is. *)
Lemma sync_body_no_interrupt_single_pass
    (stream : Graph -> RunInput -> option Config -> string -> list RawEvent * Graph)
    graph message config interactive verbose stream_mode script :
  forallb (fun chunk => negb (is_interrupt chunk))
    (fst (stream graph (FreshMessage message) config stream_mode)) = true ->
  let pass := sync_for env verbose
                (fst (stream graph (FreshMessage message) config stream_mode))
                false PyNone in
  let run := sync_body env json_loads stream Bound graph message config interactive verbose
               stream_mode script in
  run = (Stream (FreshMessage message) :: map Out (written pass),
         match snd pass with inl e => inl e | inr _ => inr tt end)
  /\ count_streams (written run) = 1 /\ count_asks (written run) = 0.
Proof.
  intros Hn pass run.
  assert (Hrun : run = (Stream (FreshMessage message) :: map Out (written pass),
                        match snd pass with inl e => inl e | inr _ => inr tt end)).
  { subst run. unfold sync_body.
    rewrite (sync_while_no_interrupt stream config interactive verbose stream_mode script
               graph (FreshMessage message) Hn).
    reflexivity. }
  split; [exact Hrun |]. rewrite Hrun. unfold written at 1 3. cbn [fst].
  rewrite count_streams_stream, count_asks_stream, count_streams_out, count_asks_out.
  split; reflexivity.
Qed.

(** Once the loop is entered with interactive on, a run whose first
    stream renders and ends with its only interrupt event calls the
    prompt once, after the writes of the whole pass and with the
    payload of that event, and, when the prompt returns a decision,
    goes on with a call of the stream on the batch of that one
    decision. *)
Lemma sync_body_pause_prompts_once_then_resumes
    (stream : Graph -> RunInput -> option Config -> string -> list RawEvent * Graph)
    graph message config verbose stream_mode answer script before pause decision :
  fst (stream graph (FreshMessage message) config stream_mode) = before ++ [pause] ->
  forallb (fun chunk => negb (is_interrupt chunk) && renders env verbose chunk) before
  = true ->
  is_interrupt pause = true ->
  renders env verbose pause = true ->
  let payload := dict_get "interrupt" (PyDict []) pause in
  let prompt := handle_interrupt_input env json_loads payload (Some answer) in
  snd prompt = inr decision ->
  sync_body env json_loads stream Bound graph message config true verbose stream_mode
    (answer :: script)
  = bind (Stream (FreshMessage message)
          :: map Out (written (sync_for env verbose (before ++ [pause]) false PyNone))
          ++ Ask payload :: map Out (written prompt), inr tt)
      (fun _ => sync_while env json_loads stream config true verbose stream_mode script
                  (snd (stream graph (FreshMessage message) config stream_mode))
                  (DecisionBatch [decision])).
Proof.
  intros Hstream Hb Hp Hw payload prompt Hd.
  unfold sync_body.
  assert (Hpass : snd (sync_for env verbose (before ++ [pause]) false PyNone)
                  = inr (true, payload)).
  { now rewrite (sync_for_final_interrupt env verbose before pause Hb Hp Hw false PyNone). }
  rewrite <- Hstream in Hpass |- *.
  rewrite (sync_while_pause_resumes stream config verbose stream_mode answer script graph
             (FreshMessage message) payload decision Hpass Hd).
  unfold bind, lift, load_fast.
  destruct (sync_while env json_loads stream config true verbose stream_mode script
              (snd (stream graph (FreshMessage message) config stream_mode))
              (DecisionBatch [decision])); reflexivity.
Qed.

(** C5.  With interactive off, a run never calls the decision prompt
    and never calls the engine with a decision batch, and it calls the
    engine at most once, whether or not a pause was seen; this holds
    for both drivers and every frame.  Once the loop is entered the
    log is exactly the call of the stream on the fresh message
    followed by the writes of that one pass. *)
Theorem non_interactive_never_prompts_nor_resumes (frame : Binding) (graph : Graph)
    (message : string) (config : option Config) (verbose : bool) (stream_mode : string)
    (script : list Answer) :
  let sync_log := written (sync_body env json_loads stream_graph_updates frame graph message
                             config false verbose stream_mode script) in
  let async_log := written (async_body env json_loads astream_graph_updates frame graph
                              message config false verbose stream_mode script) in
  (count_asks sync_log = 0 /\ count_resumes sync_log = 0 /\ count_streams sync_log <= 1)
  /\ (count_asks async_log = 0 /\ count_resumes async_log = 0
      /\ count_streams async_log <= 1)
  /\ written (sync_body env json_loads stream_graph_updates Bound graph message config false
                verbose stream_mode script)
     = Stream (FreshMessage message)
       :: map Out (written (sync_for env verbose
                              (fst (stream_graph_updates graph (FreshMessage message)
                                      config stream_mode))
                              false PyNone)).
Proof.
  assert (Hlog : forall stream,
            written (sync_body env json_loads stream Bound graph message config false
                       verbose stream_mode script)
            = Stream (FreshMessage message)
              :: map Out (written (sync_for env verbose
                                     (fst (stream graph (FreshMessage message) config
                                             stream_mode))
                                     false PyNone))).
  { intro stream. unfold sync_body, written. rewrite fst_bind.
    cbn [fst snd lift load_fast app]. apply sync_while_non_interactive. }
  assert (Hcount : forall stream,
            let log := written (sync_body env json_loads stream frame graph message config
                                  false verbose stream_mode script) in
            count_asks log = 0 /\ count_resumes log = 0 /\ count_streams log <= 1).
  { intro stream. destruct frame.
    - cbv zeta. change (written (sync_body env json_loads stream Unbound graph message config
                                   false verbose stream_mode script)) with (@nil Obs).
      repeat split. apply Nat.le_0_l.
    - cbv zeta. rewrite Hlog.
      change (count_asks (?a :: ?l)) with (count_asks l).
      change (count_resumes (?a :: ?l)) with (count_resumes l).
      change (count_streams (?a :: ?l)) with (S (count_streams l)).
      rewrite count_asks_out, count_resumes_out, count_streams_out.
      repeat split. apply Nat.le_refl. }
  cbv zeta. split; [apply (Hcount stream_graph_updates) |].
  split; [| apply Hlog].
  unfold async_body.
  rewrite (async_while_sync_while env json_loads Graph Config astream_graph_updates
             astream_graph_updates (fun _ _ _ _ => eq_refl)).
  apply (Hcount astream_graph_updates).
Qed.

End Passes.

(** ** The drivers as written *)

(** C3 (the code at a run that ends in a pause).  The engine answers
    the fresh message with a text, an error and one interrupt;
    interactive is on and the operator would approve.  Either driver
    raises [UnboundLocalError] on its first statement: nothing is
    streamed, the prompt is not called and no resume call is made.  Had
    the loop been entered it would have called the prompt once, after
    the pass, and resumed with the batch of the one decision.  This
    holds whatever the environment is. *)
Theorem run_graph_never_reaches_the_prompt (env : Env) :
  run_sync_graph env sample_loads sample_stream 0 "hello" None true false "updates"
    [mkAnswer 1 EmptyString]
  = ([], inl (UnboundLocalError "prepare_agent_input"))
  /\ run_async_graph env sample_loads sample_stream 0 "hello" None true false "updates"
       [mkAnswer 1 EmptyString]
     = ([], inl (UnboundLocalError "prepare_agent_input"))
  /\ control (written (sync_body env sample_loads sample_stream Bound 0 "hello" None true
                         false "updates" [mkAnswer 1 EmptyString]))
     = [Stream (FreshMessage "hello"); Ask pause_payload; Stream (DecisionBatch [approve])].
Proof. repeat split. Qed.

(** C4 (the code at a run without a pause).  The engine answers with a
    text and completion.  Either driver raises [UnboundLocalError] on
    its first statement and makes no pass over the stream, with
    interactive on or off; [main] reports it and exits with status 1.
    Had the loop been entered it would have made one pass, written the
    two events and ended.  This holds whatever the environment is. *)
Theorem run_graph_makes_no_pass (env : Env) :
  (forall interactive,
     run_sync_graph env sample_loads calm_stream 0 "hello" None interactive false
       "updates" []
     = ([], inl (UnboundLocalError "prepare_agent_input"))
     /\ run_async_graph env sample_loads calm_stream 0 "hello" None interactive false
          "updates" []
        = ([], inl (UnboundLocalError "prepare_agent_input")))
  /\ count_streams (written (run_sync_graph env sample_loads calm_stream 0 "hello" None true
                               false "updates" [])) = 0
  /\ exit_status (raised (run_sync_graph env sample_loads calm_stream 0 "hello" None true
                            false "updates" [])) = 1%Z
  /\ sync_body env sample_loads calm_stream Bound 0 "hello" None true false "updates" []
     = ([ Stream (FreshMessage "hello");
          Out (PrintValue (PyStr "Hi") EmptyString);
          Out (PrintText [Lit complete_line] newline) ],
        inr tt).
Proof. repeat split. Qed.

(** * Further properties *)

Section LoopFacts.

Variable env : Env.
Variable json_loads : string -> LoadsFailure + PyVal.
Variables Graph Config : Type.
Variable stream : Graph -> RunInput -> option Config -> string -> list RawEvent * Graph.

Lemma sync_while_inputs config interactive verbose stream_mode script :
  forall graph input_data,
    let log := written (sync_while env json_loads stream config interactive verbose
                          stream_mode script graph input_data) in
    exists batches,
      stream_inputs log = input_data :: batches
      /\ forallb single_decision batches = true
      /\ length batches <= length script
      /\ length batches <= count_asks log
      /\ count_asks log <= S (length batches).
Proof.
  induction script as [| answer rest IH]; intros graph input_data; cbv zeta;
    unfold written; rewrite sync_while_round; cbv zeta;
    destruct (snd (sync_for env verbose (fst (stream graph input_data config stream_mode))
                     false PyNone)) as [e | [has_interrupt interrupt_data]];
    cbn [fst];
    try (exists []; cbn [stream_inputs];
         rewrite stream_inputs_out, count_asks_stream, count_asks_out;
         cbn [forallb length]; repeat split; lia);
    destruct (has_interrupt && interactive); cbn [fst hd_error];
    try (exists []; cbn [stream_inputs];
         rewrite stream_inputs_out, count_asks_stream, count_asks_out;
         cbn [forallb length]; repeat split; lia).
  - destruct (snd (handle_interrupt_input env json_loads interrupt_data None)); cbn [fst];
      exists []; cbn [stream_inputs];
      rewrite stream_inputs_app, stream_inputs_out, count_asks_stream, count_asks_app,
        count_asks_ask, !count_asks_out;
      cbn [stream_inputs]; rewrite stream_inputs_out;
      cbn [forallb length]; repeat split; lia.
  - destruct (snd (handle_interrupt_input env json_loads interrupt_data (Some answer)))
      as [e | decision]; cbn [fst].
    + exists []; cbn [stream_inputs];
        rewrite stream_inputs_app, stream_inputs_out, count_asks_stream, count_asks_app,
          count_asks_ask, !count_asks_out;
        cbn [stream_inputs]; rewrite stream_inputs_out;
        cbn [forallb length]; repeat split; lia.
    + destruct (IH (snd (stream graph input_data config stream_mode))
                  (DecisionBatch [decision])) as [batches [Hin [Hsingle [Hlen [Hlo Hhi]]]]].
      unfold written in Hin, Hlo, Hhi.
      exists (DecisionBatch [decision] :: batches).
      cbn [stream_inputs app].
      rewrite !stream_inputs_app, stream_inputs_out. cbn [stream_inputs app].
      rewrite stream_inputs_out, Hin.
      rewrite count_asks_stream, !count_asks_app, count_asks_out, count_asks_ask,
        count_asks_out.
      cbn [forallb single_decision length app]. rewrite Hsingle.
      repeat split; lia.
Qed.

(** X16.  In a run of the loop the engine is first called with the
    input the loop was entered with, and every later call is a resume
    with a batch of exactly one decision.  There are at most as many
    resumes as the operator gave answers, every resume follows a call
    of the prompt, and the prompt is called at most once per call of
    the engine.  This holds for both loops. *)
Theorem loop_resumes_with_single_decisions (config : option Config)
    (interactive verbose : bool) (stream_mode : string) (script : list Answer)
    (graph : Graph) (input_data : RunInput) :
  (let log := written (sync_while env json_loads stream config interactive verbose
                         stream_mode script graph input_data) in
   exists batches,
     stream_inputs log = input_data :: batches
     /\ forallb single_decision batches = true
     /\ length batches <= length script
     /\ length batches <= count_asks log
     /\ count_asks log <= S (length batches))
  /\ (let log := written (async_while env json_loads stream config interactive verbose
                            stream_mode script graph input_data) in
      exists batches,
        stream_inputs log = input_data :: batches
        /\ forallb single_decision batches = true
        /\ length batches <= length script
        /\ length batches <= count_asks log
        /\ count_asks log <= S (length batches)).
Proof.
  split; [apply sync_while_inputs |].
  rewrite (async_while_sync_while env json_loads Graph Config stream stream
             (fun _ _ _ _ => eq_refl)).
  apply sync_while_inputs.
Qed.


End LoopFacts.


(** X18.  An event with status interrupt and no interrupt key is a
    pause with an empty payload: [print_chunk] writes the panel with an
    empty body, and the pass sets the pause flag with the empty mapping
    as payload, which the prompt accepts.  A payload that is present
    but is no mapping (null, for one) is not defaulted:
    [print_chunk] raises [AttributeError] and writes nothing. *)
Theorem interrupt_without_payload_is_an_empty_pause (env : Env) (chunk : RawEvent)
    (verbose : bool) (has_interrupt : bool) (interrupt_data payload : PyVal) :
  is_interrupt chunk = true ->
  (dict_in "interrupt" chunk = false ->
     print_chunk env chunk verbose = ([PrintPanel [] interrupt_title "yellow"], inr tt)
     /\ sync_for env verbose [chunk] has_interrupt interrupt_data
        = ([PrintPanel [] interrupt_title "yellow"], inr (true, PyDict [])))
  /\ (dict_lookup "interrupt" chunk = Some payload -> is_mapping payload = false ->
        print_chunk env chunk verbose = ([], inl AttributeError)).
Proof.
  unfold is_interrupt. intro Hi.
  pose proof (status_not_streaming chunk _ Hi eq_refl) as Hs.
  split.
  - intro Hk.
    assert (Hp : dict_get "interrupt" (PyDict []) chunk = PyDict []).
    { unfold dict_get. unfold dict_in in Hk.
      destruct (dict_lookup "interrupt" chunk); [discriminate | reflexivity]. }
    assert (Hprint : print_chunk env chunk verbose
                     = ([PrintPanel [] interrupt_title "yellow"], inr tt)).
    { unfold print_chunk. rewrite Hs, Hi, Hp. reflexivity. }
    split; [exact Hprint |].
    cbn [sync_for]. rewrite Hprint, Hi, Hp. reflexivity.
  - intros Hl Hm. unfold print_chunk. rewrite Hs, Hi.
    unfold dict_get. rewrite Hl.
    destruct payload; try reflexivity. discriminate.
Qed.

Lemma interrupt_without_payload_is_an_empty_pause_witness :
  sync_for oops_env true [bare_interrupt_event] false PyNone
  = ([PrintPanel [] interrupt_title "yellow"], inr (true, PyDict []))
  /\ print_chunk oops_env [("status", PyStr "interrupt"); ("interrupt", PyNone)] false
     = ([], inl AttributeError).
Proof.
  split.
  - apply (proj1 (interrupt_without_payload_is_an_empty_pause oops_env bare_interrupt_event
                    true false PyNone PyNone eq_refl) eq_refl).
  - apply (proj2 (interrupt_without_payload_is_an_empty_pause oops_env
                    [("status", PyStr "interrupt"); ("interrupt", PyNone)] false
                    false PyNone PyNone eq_refl) eq_refl eq_refl).
Defined.

(** ** A run with one pause *)

Section OnePause.

Variable env : Env.
Variable json_loads : string -> LoadsFailure + PyVal.
Variables Graph Config : Type.
Variable stream : Graph -> RunInput -> option Config -> string -> list RawEvent * Graph.

(** X20.  The run of the loop with one pause, interactive on: the
    events of the first stream render and its last event is its only
    interrupt, the operator's answer yields a decision, and the events
    of the stream the engine gives for the batch of that decision, from
    the graph state the first call left, render and hold no interrupt.
    The log is then, in this order: the first call of the engine, the
    writes of all events of the first stream, one call of the prompt
    with the payload of the interrupt, the writes of the prompt, the
    resume call with the one-element batch, the writes of the second
    stream; the loop ends without an exception and without asking
    again, however many answers remain. *)
Theorem one_pause_run_resumes_once_and_ends (config : option Config) (verbose : bool)
    (stream_mode : string) (answer : Answer) (script : list Answer) (graph : Graph)
    (input_data : RunInput) (before : list RawEvent) (pause : RawEvent) (decision : PyVal) :
  fst (stream graph input_data config stream_mode) = before ++ [pause] ->
  forallb (fun chunk => negb (is_interrupt chunk) && renders env verbose chunk) before
  = true ->
  is_interrupt pause = true ->
  renders env verbose pause = true ->
  snd (handle_interrupt_input env json_loads (dict_get "interrupt" (PyDict []) pause)
         (Some answer)) = inr decision ->
  forallb (fun chunk => negb (is_interrupt chunk) && renders env verbose chunk)
    (fst (stream (snd (stream graph input_data config stream_mode))
            (DecisionBatch [decision]) config stream_mode)) = true ->
  sync_while env json_loads stream config true verbose stream_mode (answer :: script) graph
    input_data
  = (Stream input_data
     :: map Out (concat (map (fun chunk => written (print_chunk env chunk verbose))
                           (before ++ [pause])))
     ++ Ask (dict_get "interrupt" (PyDict []) pause)
     :: map Out (written (handle_interrupt_input env json_loads
                            (dict_get "interrupt" (PyDict []) pause) (Some answer)))
     ++ Stream (DecisionBatch [decision])
     :: map Out (concat (map (fun chunk => written (print_chunk env chunk verbose))
                           (fst (stream (snd (stream graph input_data config stream_mode))
                                   (DecisionBatch [decision]) config stream_mode)))),
     inr tt).
Proof.
  intros Hstream Hbefore Hp Hw Hd Hresumed.
  pose proof (sync_for_final_interrupt env verbose before pause Hbefore Hp Hw false PyNone)
    as Hpass.
  rewrite <- Hstream in Hpass.
  assert (Hpass' : snd (sync_for env verbose
                          (fst (stream graph input_data config stream_mode)) false PyNone)
                   = inr (true, dict_get "interrupt" (PyDict []) pause))
    by now rewrite Hpass.
  rewrite (sync_while_pause_resumes env json_loads Graph Config stream config verbose
             stream_mode answer script graph input_data _ decision Hpass' Hd).
  destruct (forallb_both _ _ _ _ Hresumed) as [Hni Hr2].
  rewrite (sync_while_no_interrupt env json_loads Graph Config stream config true verbose
             stream_mode script
             (snd (stream graph input_data config stream_mode)) (DecisionBatch [decision])
             Hni).
  rewrite (sync_for_renders env verbose _ Hr2).
  rewrite Hpass, Hstream.
  unfold bind, written. cbn [fst snd app]. rewrite <- app_assoc. reflexivity.
Qed.

End OnePause.

Lemma one_pause_run_resumes_once_and_ends_witness :
  sync_while oops_env sample_loads sample_stream None true false "updates"
    [mkAnswer 2 EmptyString; mkAnswer 1 EmptyString] 0 (FreshMessage "hello")
  = (Stream (FreshMessage "hello")
     :: map Out (concat (map (fun chunk => written (print_chunk oops_env chunk false))
                           ([text_event; error_event] ++ [pause_event])))
     ++ Ask pause_payload
     :: map Out (written (handle_interrupt_input oops_env sample_loads pause_payload
                            (Some (mkAnswer 2 EmptyString))))
     ++ Stream (DecisionBatch [reject])
     :: map Out (concat (map (fun chunk => written (print_chunk oops_env chunk false))
                           [complete_event])),
     inr tt).
Proof.
  apply (one_pause_run_resumes_once_and_ends oops_env sample_loads nat unit sample_stream
           None false "updates"
           (mkAnswer 2 EmptyString) [mkAnswer 1 EmptyString] 0 (FreshMessage "hello")
           [text_event; error_event] pause_event reject
           eq_refl eq_refl eq_refl eq_refl eq_refl eq_refl).
Defined.

(** ** [parse_agent_spec] *)

Lemma has_char_app c (a b : string) : has_char c (a ^^ b) = has_char c a || has_char c b.
Proof.
  induction a as [| x a IH]; simpl; [reflexivity |].
  rewrite IH. apply orb_assoc.
Qed.

Lemma rsplit_once_without c s : has_char c s = false -> rsplit_once c s = [s].
Proof.
  induction s as [| a rest IH]; simpl; intro H; [reflexivity |].
  apply orb_false_elim in H as [Ha Hrest].
  rewrite (IH Hrest), Ha. reflexivity.
Qed.

Lemma rsplit_once_joined c before after :
  has_char c after = false ->
  rsplit_once c (before ^^ String c after) = [before; after].
Proof.
  intro H. induction before as [| a before IH]; simpl.
  - rewrite (rsplit_once_without _ _ H), Ascii.eqb_refl. reflexivity.
  - rewrite IH. reflexivity.
Qed.

Lemma rsplit_once_with c s :
  has_char c s = true ->
  exists before after,
    s = before ^^ String c after /\ has_char c after = false
    /\ rsplit_once c s = [before; after].
Proof.
  induction s as [| a rest IH]; simpl; intro H; [discriminate |].
  destruct (has_char c rest) eqn:Hrest.
  - destruct (IH eq_refl) as [before [after [Hs [Ha Hr]]]].
    exists (String a before), after. rewrite Hr. subst rest. repeat split; assumption.
  - rewrite orb_false_r in H. apply Ascii.eqb_eq in H; subst a.
    exists EmptyString, rest. rewrite (rsplit_once_without _ _ Hrest), Ascii.eqb_refl.
    repeat split; assumption.
Qed.

Lemma endswith_refl s : endswith s s = true.
Proof. destruct s; cbn [endswith]; now rewrite String.eqb_refl. Qed.

Lemma endswith_iff s suffix : endswith s suffix = true <-> exists p, s = p ^^ suffix.
Proof.
  split.
  - induction s as [| a rest IH]; cbn [endswith]; intro H.
    + rewrite orb_false_r in H. apply String.eqb_eq in H. exists EmptyString. exact H.
    + apply orb_prop in H as [H | H].
      * apply String.eqb_eq in H. exists EmptyString. exact H.
      * destruct (IH H) as [p Hp]. exists (String a p). cbn [String.append]. now rewrite Hp.
  - intros [p Hp]. subst s. induction p as [| a p IH]; cbn [String.append endswith].
    + apply endswith_refl.
    + rewrite IH. apply orb_true_r.
Qed.

Lemma parse_no_index_error agent_spec : parse_agent_spec agent_spec <> inl IndexError.
Proof.
  unfold parse_agent_spec.
  destruct (has_char ":" agent_spec) eqn:Hc; cbn [negb]; [| discriminate].
  destruct (rsplit_once_with _ _ Hc) as [before [after [_ [_ Hr]]]].
  rewrite Hr. cbn [list_item nth_error].
  destruct (endswith before ".py"); discriminate.
Qed.

Lemma parse_result_parts agent_spec file_path variable_name :
  parse_agent_spec agent_spec = inr (file_path, variable_name) ->
  agent_spec = file_path ^^ ":" ^^ variable_name
  /\ has_char ":" variable_name = false
  /\ endswith file_path ".py" = true.
Proof.
  unfold parse_agent_spec.
  destruct (has_char ":" agent_spec) eqn:Hc; cbn [negb]; [| discriminate].
  destruct (rsplit_once_with _ _ Hc) as [before [after [Hs [Ha Hr]]]].
  rewrite Hr. cbn [list_item nth_error].
  destruct (endswith before ".py") eqn:He; cbn [negb]; [| discriminate].
  intro H. injection H as <- <-. repeat split; assumption.
Qed.

Lemma parse_joined file_path variable_name :
  has_char ":" variable_name = false ->
  parse_agent_spec (file_path ^^ ":" ^^ variable_name)
  = if endswith file_path ".py" then inr (file_path, variable_name)
    else inl (ValueError [Lit "Agent spec file must be a .py file: ";
                          Fmt (PyStr file_path)]).
Proof.
  intro Hv.
  assert (Hc : has_char ":" (file_path ^^ ":" ^^ variable_name) = true).
  { rewrite has_char_app. simpl. apply orb_true_r. }
  unfold parse_agent_spec. rewrite Hc. cbn [negb].
  change (file_path ^^ ":" ^^ variable_name)
    with (file_path ^^ String ":"%char variable_name).
  rewrite (rsplit_once_joined _ _ _ Hv). cbn [list_item nth_error].
  destruct (endswith file_path ".py"); reflexivity.
Qed.

(** X1.  [parse_agent_spec] never fails on a subscript of [parts]: the
    check for a colon comes first.  It raises the ValueError about the
    format, with the whole text in the message, exactly when the text
    holds no colon. *)
Theorem parse_agent_spec_format_error (agent_spec : string) :
  parse_agent_spec agent_spec <> inl IndexError
  /\ (parse_agent_spec agent_spec
      = inl (ValueError [Lit "Invalid agent spec format: '"; Fmt (PyStr agent_spec);
                         Lit "'. Expected format: 'path/to/file.py:variable_name'"])
      <-> has_char ":" agent_spec = false).
Proof.
  unfold parse_agent_spec.
  destruct (has_char ":" agent_spec) eqn:Hc; cbn [negb].
  - destruct (rsplit_once_with _ _ Hc) as [before [after [_ [_ Hr]]]].
    rewrite Hr. cbn [list_item nth_error].
    destruct (endswith before ".py"); cbn [negb]; split; try discriminate;
      split; intro H; discriminate.
  - split; [discriminate |]. split; reflexivity.
Qed.

Lemma parse_agent_spec_format_error_witness :
  parse_agent_spec "my_agent.py"
  = inl (ValueError [Lit "Invalid agent spec format: '"; Fmt (PyStr "my_agent.py");
                     Lit "'. Expected format: 'path/to/file.py:variable_name'"]).
Proof.
  apply (proj2 (proj2 (parse_agent_spec_format_error "my_agent.py"))). reflexivity.
Defined.

(** X2.  What [parse_agent_spec] returns puts the text back together:
    the text is the file path, a colon and the variable name; the
    variable name holds no colon (the split is at the last one) and the
    file path ends with [.py]. *)
Theorem parse_agent_spec_round_trip (agent_spec file_path variable_name : string) :
  parse_agent_spec agent_spec = inr (file_path, variable_name) ->
  agent_spec = file_path ^^ ":" ^^ variable_name
  /\ has_char ":" variable_name = false
  /\ endswith file_path ".py" = true.
Proof. apply parse_result_parts. Qed.

Lemma parse_agent_spec_round_trip_witness :
  "agents/my_agent.py:graph" = "agents/my_agent.py" ^^ ":" ^^ "graph"
  /\ has_char ":" "graph" = false
  /\ endswith "agents/my_agent.py" ".py" = true.
Proof.
  apply (parse_agent_spec_round_trip "agents/my_agent.py:graph"). reflexivity.
Defined.

(** X3.  A file path and a variable name joined by a colon parse back
    to the two, when the variable name holds no colon and the path ends
    with [.py]; colons inside the path do no harm, and an empty variable
    name is accepted.  When the path does not end with [.py] the
    ValueError names the path. *)
Theorem parse_agent_spec_of_joined (file_path variable_name : string) :
  has_char ":" variable_name = false ->
  (endswith file_path ".py" = true ->
     parse_agent_spec (file_path ^^ ":" ^^ variable_name) = inr (file_path, variable_name))
  /\ (endswith file_path ".py" = false ->
        parse_agent_spec (file_path ^^ ":" ^^ variable_name)
        = inl (ValueError [Lit "Agent spec file must be a .py file: ";
                           Fmt (PyStr file_path)])).
Proof.
  intro Hv. rewrite (parse_joined file_path _ Hv).
  split; intro He; rewrite He; reflexivity.
Qed.

Lemma parse_agent_spec_of_joined_witness :
  parse_agent_spec ("C:/agents/my_agent.py" ^^ ":" ^^ EmptyString)
  = inr ("C:/agents/my_agent.py", EmptyString)
  /\ parse_agent_spec ("my_agent.txt" ^^ ":" ^^ "graph")
     = inl (ValueError [Lit "Agent spec file must be a .py file: ";
                        Fmt (PyStr "my_agent.txt")]).
Proof.
  split.
  - apply (proj1 (parse_agent_spec_of_joined "C:/agents/my_agent.py" EmptyString eq_refl)).
    reflexivity.
  - apply (proj2 (parse_agent_spec_of_joined "my_agent.txt" "graph" eq_refl)).
    reflexivity.
Defined.

(** ** The graph file and name of [main] *)

Lemma py_or_empty s : py_or (Some s) EmptyString = s.
Proof.
  unfold py_or. destruct (String.eqb s EmptyString) eqn:H; [| reflexivity].
  apply String.eqb_eq in H. now subst s.
Qed.

Lemma has_char_not_empty c s : has_char c s = true -> String.eqb s EmptyString = false.
Proof. destruct s; [discriminate | reflexivity]. Qed.

Lemma endswith_py_not_empty s : endswith s ".py" = true -> String.eqb s EmptyString = false.
Proof. destruct s; [discriminate | reflexivity]. Qed.

Lemma cli_graph_file_known env graph_file graph_name env_agent_spec verbose :
  py_not graph_file = false ->
  resolve_graph env graph_file graph_name env_agent_spec verbose
  = ([], inr (py_or graph_file EmptyString, py_or graph_name "graph")).
Proof.
  intro H. unfold resolve_graph. rewrite H. cbn [andb app]. rewrite H. reflexivity.
Qed.

(** X4.  A graph file given on the command line wins: the file is
    taken as it is and the name is the option's or [graph]; nothing is
    written and DEEPAGENT_AGENT_SPEC is not parsed, valid or not. *)
Theorem cli_graph_file_wins (env : Env) (graph_file graph_name env_agent_spec : option string)
    (verbose : bool) :
  py_not graph_file = false ->
  resolve_graph env graph_file graph_name env_agent_spec verbose
  = ([], inr (py_or graph_file EmptyString, py_or graph_name "graph")).
Proof.
  apply cli_graph_file_known.
Qed.

Lemma cli_graph_file_wins_witness :
  resolve_graph oops_env (Some "agent.py") None (Some "not a spec") true
  = ([], inr ("agent.py", "graph")).
Proof.
  apply (cli_graph_file_wins oops_env (Some "agent.py") None (Some "not a spec") true).
  reflexivity.
Defined.

Lemma report_spec_error_cases A env message :
  (exists e, @report_spec_error A env message = ([], inl (Escaped e))
             /\ known_ok (RichPrint (spec_error_line message)) = false
             /\ env (RichPrint (spec_error_line message)) = Some e)
  \/ @report_spec_error A env message = ([spec_error_line message], inl (ExitWith 1)).
Proof.
  unfold report_spec_error.
  destruct (ask env (RichPrint (spec_error_line message))) as [e |] eqn:Ha.
  - left. exists e. apply ask_some in Ha as [Hk He]. now repeat split.
  - now right.
Qed.

(** The result of [resolve_graph] when no graph file is given on the
    command line and DEEPAGENT_AGENT_SPEC is a valid spec. *)
Lemma resolve_graph_valid_spec env graph_file graph_name spec file_path variable_name
    verbose :
  py_not graph_file = true ->
  parse_agent_spec spec = inr (file_path, variable_name) ->
  resolve_graph env graph_file graph_name (Some spec) verbose
  = if verbose
    then match ask env (RichPrint (spec_note spec)) with
         | Some (PyValueError message) => report_spec_error env [Fmt (PyStr message)]
         | Some e => ([], inl (Escaped e))
         | None => ([spec_note spec], inr (file_path, variable_name))
         end
    else ([], inr (file_path, variable_name)).
Proof.
  intros Hg Hp. destruct (parse_result_parts _ _ _ Hp) as [Hs [_ He]].
  assert (Hc : has_char ":" spec = true).
  { rewrite Hs, has_char_app. simpl. apply orb_true_r. }
  assert (Hn : py_not (Some spec) = false) by apply (has_char_not_empty _ _ Hc).
  assert (Hf : py_not (Some file_path) = false) by apply (endswith_py_not_empty _ He).
  unfold resolve_graph. rewrite Hg, Hn. cbn [andb negb]. rewrite py_or_empty, Hp.
  destruct verbose.
  - destruct (ask env (RichPrint (spec_note spec))) as [e |].
    + destruct e; try reflexivity.
      unfold report_spec_error.
      destruct (ask env (RichPrint (spec_error_line [Fmt (PyStr message)]))); reflexivity.
    + now rewrite Hf, py_or_empty.
  - now rewrite Hf, py_or_empty.
Qed.

(** X5.  Without a graph file on the command line, a valid
    DEEPAGENT_AGENT_SPEC gives both the file and the name: the name of
    the [--graph-name] option is dropped, whatever it is.  Outside
    verbose mode nothing is written.  In verbose mode the note is
    written first; rich refuses the note of a spec with markup it
    cannot parse, and then this part of [main] does not go on: the
    exception leaves it, or, were it a [ValueError], is reported as a
    parse error before the process exits.  Rich does not refuse the
    note when the spec holds no opening bracket. *)
Theorem env_spec_overrides_graph_name (env : Env) (graph_file graph_name : option string)
    (file_path variable_name : string) :
  py_not graph_file = true ->
  has_char ":" variable_name = false ->
  endswith file_path ".py" = true ->
  let spec := file_path ^^ ":" ^^ variable_name in
  resolve_graph env graph_file graph_name (Some spec) false
  = ([], inr (file_path, variable_name))
  /\ resolve_graph env graph_file graph_name (Some spec) true
     = match ask env (RichPrint (spec_note spec)) with
       | Some (PyValueError message) => report_spec_error env [Fmt (PyStr message)]
       | Some e => ([], inl (Escaped e))
       | None => ([spec_note spec], inr (file_path, variable_name))
       end
  /\ (no_bracket spec = true ->
      resolve_graph env graph_file graph_name (Some spec) true
      = ([spec_note spec], inr (file_path, variable_name))).
Proof.
  intros Hg Hv He spec.
  assert (Hp : parse_agent_spec spec = inr (file_path, variable_name)).
  { unfold spec. now rewrite (parse_joined file_path _ Hv), He. }
  split; [| split].
  - exact (resolve_graph_valid_spec env graph_file graph_name spec _ _ false Hg Hp).
  - exact (resolve_graph_valid_spec env graph_file graph_name spec _ _ true Hg Hp).
  - intro Hb. rewrite (resolve_graph_valid_spec env graph_file graph_name spec _ _ true Hg Hp).
    rewrite ask_known; [reflexivity |].
    unfold spec_note, known_ok. cbn [template_ok plain_hole]. now rewrite Hb.
Qed.

Lemma env_spec_overrides_graph_name_witness :
  resolve_graph oops_env None (Some "my_graph") (Some ("agent.py" ^^ ":" ^^ "workflow")) false
  = ([], inr ("agent.py", "workflow"))
  /\ resolve_graph oops_env None (Some "my_graph") (Some ("agent.py" ^^ ":" ^^ "workflow"))
       true
     = ([spec_note "agent.py:workflow"], inr ("agent.py", "workflow")).
Proof.
  destruct (env_spec_overrides_graph_name oops_env None (Some "my_graph") "agent.py"
              "workflow" eq_refl eq_refl eq_refl) as [Hquiet [_ Hnote]].
  split; [exact Hquiet | exact (Hnote eq_refl)].
Defined.

(** X6.  This part of [main] ends in one of three ways: it goes on with
    a graph file that is not empty, it exits with status 1, or an
    exception of [console.print] leaves it, which only happens when no
    graph file is given and rich refuses the verbose note or the report
    of the error.  No exception of [parse_agent_spec] gets past it.  It
    goes on exactly when a graph file is given, or DEEPAGENT_AGENT_SPEC
    is a valid spec and, in verbose mode, rich renders the note. *)
Theorem resolve_graph_ends (env : Env) (graph_file graph_name env_agent_spec : option string)
    (verbose : bool) :
  let result := snd (resolve_graph env graph_file graph_name env_agent_spec verbose) in
  (forall e, result <> inl (Uncaught e))
  /\ (forall code, result = inl (ExitWith code) -> code = 1%Z)
  /\ (forall file name, result = inr (file, name) -> file <> EmptyString)
  /\ (forall e, result = inl (Escaped e) ->
        py_not graph_file = true
        /\ exists p, known_ok (RichPrint p) = false /\ env (RichPrint p) = Some e)
  /\ ((exists file name, result = inr (file, name))
      <-> py_not graph_file = false
          \/ (py_not env_agent_spec = false
              /\ (exists file_path variable_name,
                    parse_agent_spec (py_or env_agent_spec EmptyString)
                    = inr (file_path, variable_name))
              /\ (verbose = false
                  \/ ask env (RichPrint (spec_note (py_or env_agent_spec EmptyString)))
                     = None))).
Proof.
  cbv zeta.
  destruct (py_not graph_file) eqn:Hg.
  2: { rewrite (cli_graph_file_known env graph_file graph_name env_agent_spec verbose Hg).
       cbn [snd].
       split; [discriminate |]. split; [discriminate |].
       split.
       { intros file name H. injection H as <- _. intro Hempty.
         unfold py_not in Hg. destruct graph_file as [f |]; [| discriminate].
         rewrite py_or_empty in Hempty. subst f. discriminate. }
       split; [discriminate |].
       split; [intros _; now left | intros _; now eexists _, _]. }
  destruct (py_not env_agent_spec) eqn:Hn.
  { assert (Hr : snd (resolve_graph env graph_file graph_name env_agent_spec verbose)
                 = inl (ExitWith 1)).
    { unfold resolve_graph. rewrite Hg, Hn. cbn [andb negb]. now rewrite Hg. }
    rewrite Hr.
    split; [discriminate |].
    split; [intros code H; now injection H as <- |].
    split; [discriminate |]. split; [discriminate |].
    split; [intros [file [name H]]; discriminate |].
    intros [H | [H _]]; discriminate. }
  destruct env_agent_spec as [spec |]; [| discriminate].
  rewrite py_or_empty.
  destruct (parse_agent_spec spec) as [[message |] | [file_path variable_name]] eqn:Hp.
  - assert (Hr : resolve_graph env graph_file graph_name (Some spec) verbose
                 = report_spec_error env message).
    { unfold resolve_graph. rewrite Hg, Hn. cbn [andb negb]. rewrite py_or_empty, Hp.
      unfold report_spec_error.
      destruct (ask env (RichPrint (spec_error_line message))); reflexivity. }
    rewrite Hr.
    destruct (report_spec_error_cases (string * string) env message)
      as [[e [-> [Hk He]]] | ->]; cbn [snd].
    + split; [discriminate |]. split; [discriminate |]. split; [discriminate |].
      split.
      { intros e' H. injection H as <-. split; [reflexivity |].
        now exists (spec_error_line message). }
      split; [intros [file [name H]]; discriminate |].
      intros [H | [_ [[f [v H]] _]]]; discriminate.
    + split; [discriminate |].
      split; [intros code H; now injection H as <- |].
      split; [discriminate |]. split; [discriminate |].
      split; [intros [file [name H]]; discriminate |].
      intros [H | [_ [[f [v H]] _]]]; discriminate.
  - exfalso. exact (parse_no_index_error _ Hp).
  - rewrite (resolve_graph_valid_spec env graph_file graph_name spec _ _ verbose Hg Hp).
    destruct (parse_result_parts _ _ _ Hp) as [_ [_ Hpy]].
    assert (Hfile : file_path <> EmptyString).
    { intro Hempty. rewrite Hempty in Hpy. discriminate. }
    destruct verbose.
    + destruct (ask env (RichPrint (spec_note spec))) as [e |] eqn:Ha.
      * assert (Hend : (snd (match e with
                             | PyValueError message =>
                                 report_spec_error env [Fmt (PyStr message)]
                             | _ => ([], inl (Escaped e))
                             end : list Printed * (MainEnd + (string * string)))
                        = inl (ExitWith 1))
                       \/ exists e' p,
                            snd (match e with
                                 | PyValueError message =>
                                     report_spec_error env [Fmt (PyStr message)]
                                 | _ => ([], inl (Escaped e))
                                 end : list Printed * (MainEnd + (string * string)))
                            = inl (Escaped e')
                            /\ known_ok (RichPrint p) = false
                            /\ env (RichPrint p) = Some e').
        { apply ask_some in Ha as [Hk He].
          destruct e;
            try (right; eexists _, (spec_note spec); repeat split; [exact Hk | exact He]).
          destruct (report_spec_error_cases (string * string) env [Fmt (PyStr message)])
            as [[e' [-> [Hk' He']]] | ->]; cbn [snd].
          - right. exists e', (spec_error_line [Fmt (PyStr message)]). now repeat split.
          - now left. }
        destruct Hend as [-> | [e' [p [-> [Hk He]]]]].
        -- split; [discriminate |].
           split; [intros code H; now injection H as <- |].
           split; [discriminate |]. split; [discriminate |].
           split; [intros [file [name H]]; discriminate |].
           intros [H | [_ [_ [H | H]]]]; discriminate.
        -- split; [discriminate |]. split; [discriminate |]. split; [discriminate |].
           split.
           { intros e'' H. injection H as <-. split; [reflexivity |]. now exists p. }
           split; [intros [file [name H]]; discriminate |].
           intros [H | [_ [_ [H | H]]]]; discriminate.
      * cbn [snd].
        split; [discriminate |]. split; [discriminate |].
        split; [intros file name H; now injection H as <- _ |].
        split; [discriminate |].
        split; [| intros _; now exists file_path, variable_name].
        intros _. right. split; [reflexivity |].
        split; [now exists file_path, variable_name | now right].
    + cbn [snd].
      split; [discriminate |]. split; [discriminate |].
      split; [intros file name H; now injection H as <- _ |].
      split; [discriminate |].
      split; [| intros _; now exists file_path, variable_name].
      intros _. right. split; [reflexivity |].
      split; [now exists file_path, variable_name | now left].
Qed.

Lemma resolve_graph_ends_witness :
  (exists file name,
     snd (resolve_graph oops_env None (Some "g") (Some "agent.py:graph") true)
     = inr (file, name))
  /\ forall code,
       snd (resolve_graph oops_env None None None true) = inl (ExitWith code) -> code = 1%Z.
Proof.
  split.
  - apply (proj2 (proj2 (proj2 (proj2 (proj2
             (resolve_graph_ends oops_env None (Some "g") (Some "agent.py:graph") true)))))).
    right. split; [reflexivity |]. split; [now exists "agent.py", "graph" | now right].
  - apply (proj1 (proj2 (resolve_graph_ends oops_env None None None true))).
Defined.
